(** * nova/api/openstack/common.py

    A shallow embedding of the request-shaping helpers of the OpenStack
    compute API (pagination, status mapping, href parsing, the metadata XML
    codec) together with the properties its specification states.

    Python values are modelled as follows: [int] is [Z], [str] is [string]
    (a sequence of 8-bit characters), a [dict] is a [gmap], a [list] is a
    [list], an exception is a value of [exn] carried by [result]. *)

From Stdlib Require Import ZArith Ascii String List Lia.
From stdpp Require Import base option list strings gmap pretty.

Open Scope string_scope.
Open Scope Z_scope.

(** ** Exceptions and the error monad *)

Inductive exn : Type :=
  | HTTPBadRequest (explanation : string)   (* webob.exc.HTTPBadRequest *)
  | ValueError (msg : string)
  | KeyError (key : string)
  | IndexError
  | ExpatError                              (* xml.parsers.expat.ExpatError *)
  | HierarchyRequestErr (msg : string)      (* xml.dom.HierarchyRequestErr *)
  | NotFoundErr                             (* xml.dom.NotFoundErr *)
  | AttributeError (attribute : string)
  | UnicodeDecodeError
  | BadReference    (* not a Python exception: no object at a reference *)
  | OutOfFuel       (* not a Python exception: a bounded traversal ran out *)
  | OutsideModel.   (* not a Python exception: the input is outside the part
                       of a library that the model describes *)

Inductive result (A : Type) : Type :=
  | Ok (a : A)
  | Raise (e : exn).
Arguments Ok {A} a.
Arguments Raise {A} e.

#[global] Instance result_ret : MRet result := fun A a => Ok a.
#[global] Instance result_bind : MBind result := fun A B f m =>
  match m with
  | Ok a => f a
  | Raise e => Raise e
  end.

(** [try: m except ValueError: h] *)
Definition is_ValueError (e : exn) : bool :=
  match e with ValueError _ => true | _ => false end.
Definition is_IndexError (e : exn) : bool :=
  match e with IndexError => true | _ => false end.

Definition try_except {A} (m : result A) (catches : exn -> bool)
    (handler : exn -> result A) : result A :=
  match m with
  | Ok a => Ok a
  | Raise e => if catches e then handler e else Raise e
  end.

(** ** Python built-ins used by the module *)

Module Py.

(** Characters that [str.strip] and [int] treat as white space. *)
Definition isspace (c : ascii) : bool :=
  match c with
  | " "%char | "009"%char | "010"%char | "011"%char | "012"%char
  | "013"%char => true
  | _ => false
  end.

Definition isdigit (c : ascii) : bool :=
  let n := N_of_ascii c in ((48 <=? n) && (n <=? 57))%N.

Definition digit_value (c : ascii) : Z := Z.of_N (N_of_ascii c) - 48.

Fixpoint lstrip (s : string) : string :=
  match s with
  | String c s' => if isspace c then lstrip s' else s
  | EmptyString => EmptyString
  end.

Fixpoint rstrip (s : string) : string :=
  match s with
  | String c s' =>
      match rstrip s' with
      | EmptyString => if isspace c then EmptyString else String c EmptyString
      | r => String c r
      end
  | EmptyString => EmptyString
  end.

Definition strip (s : string) : string := rstrip (lstrip s).

(** Value of a run of decimal digits, most significant first; [None] when
    a character is not a digit. *)
Fixpoint digits_value (acc : Z) (s : string) : option Z :=
  match s with
  | EmptyString => Some acc
  | String c s' =>
      if isdigit c then digits_value (10 * acc + digit_value c) s' else None
  end.

Definition unsigned_value (s : string) : option Z :=
  match s with
  | EmptyString => None
  | _ => digits_value 0 s
  end.

(** The message of the [ValueError] that [int] raises. *)
Definition invalid_literal (s : string) : string :=
  "invalid literal for int() with base 10: '" +:+ s +:+ "'".

(** [int(s)] for a string [s]: optional surrounding white space, an
    optional sign, one or more decimal digits. *)
Definition int (s : string) : result Z :=
  let body := strip s in
  let parsed :=
    match body with
    | String "-"%char d => Z.opp <$> unsigned_value d
    | String "+"%char d => unsigned_value d
    | _ => unsigned_value body
    end in
  match parsed with
  | Some n => Ok n
  | None => Raise (ValueError (invalid_literal s))
  end.

(** [str(n)], as used by ['%s' % n]. *)
Definition str (n : Z) : string := pretty n.

(** [s.lower()] on 8-bit strings. *)
Definition lower_char (c : ascii) : ascii :=
  let n := N_of_ascii c in
  if ((65 <=? n) && (n <=? 90))%N then ascii_of_N (n + 32) else c.

Fixpoint lower (s : string) : string :=
  match s with
  | EmptyString => EmptyString
  | String c s' => String (lower_char c) (lower s')
  end.

(** [l[i:j]] for integers [i] and [j]: a negative index counts from the
    end, and both ends are clipped to the bounds of the list. *)
Definition clip_index {A} (l : list A) (i : Z) : Z :=
  let n := Z.of_nat (length l) in
  if i <? 0 then Z.max (i + n) 0 else Z.min i n.

Definition slice {A} (l : list A) (i j : Z) : list A :=
  let lo := clip_index l i in
  let hi := clip_index l j in
  take (Z.to_nat (hi - lo)) (drop (Z.to_nat lo) l).

(** [s.split(sep)] for a one-character separator: never empty. *)
Fixpoint split (sep : ascii) (s : string) : list string :=
  match s with
  | EmptyString => [EmptyString]
  | String c s' =>
      if Ascii.eqb c sep then EmptyString :: split sep s'
      else match split sep s' with
           | w :: ws => String c w :: ws
           | [] => [String c EmptyString]
           end
  end.

(** The text before the first character that satisfies [p], and the text
    from that character on (empty when there is none): [s.find]. *)
Fixpoint break (p : ascii -> bool) (s : string) : string * string :=
  match s with
  | EmptyString => (EmptyString, EmptyString)
  | String c s' =>
      if p c then (EmptyString, s)
      else let '(before, rest) := break p s' in (String c before, rest)
  end.

(** [c in s] *)
Fixpoint contains (c : ascii) (s : string) : bool :=
  match s with
  | EmptyString => false
  | String c' s' => Ascii.eqb c' c || contains c s'
  end.

Fixpoint all_chars (p : ascii -> bool) (s : string) : bool :=
  match s with
  | EmptyString => true
  | String c s' => p c && all_chars p s'
  end.

(** Truth value of a string: [if s]. *)
Definition nonempty (s : string) : bool :=
  match s with EmptyString => false | _ => true end.

(** [l[-1]] *)
Definition last_item {A} (l : list A) : result A :=
  match last l with
  | Some x => Ok x
  | None => Raise IndexError
  end.

(** [l[0]] *)
Definition first_item {A} (l : list A) : result A :=
  match l with
  | x :: _ => Ok x
  | [] => Raise IndexError
  end.

End Py.

(** A Python value stored in an item: the entries of the paginated
    dictionaries are integers or strings. *)
Inductive pyval : Type :=
  | PyInt (n : Z)
  | PyStr (s : string).

#[global] Instance pyval_eq_dec : EqDecision pyval.
Proof. solve_decision. Defined.

(** [d[key]] on a dictionary with string keys. *)
Definition getitem {V} (d : gmap string V) (key : string) : result V :=
  match d !! key with
  | Some v => Ok v
  | None => Raise (KeyError key)
  end.

(** ** Pagination *)

(** [request.GET]: the query parameters, name to textual value. *)
Abbreviation query_params := (gmap string string).
(** An item of a paginated list: a dictionary. *)
Abbreviation item := (gmap string pyval).

(** [int(request.GET.get(name, dflt))] *)
Definition get_int (GET : query_params) (name : string) (dflt : Z) : result Z :=
  match GET !! name with
  | Some s => Py.int s
  | None => Ok dflt
  end.

(** The body of the loop [for param in [...]] of [get_pagination_params]. *)
Fixpoint pagination_loop (names : list string) (GET : query_params)
    (params : gmap string Z) : result (gmap string Z) :=
  match names with
  | [] => Ok params
  | param :: rest =>
      match GET !! param with
      | None => pagination_loop rest GET params
      | Some s =>
          v ← try_except (Py.int s) is_ValueError (fun _ =>
                 Raise (HTTPBadRequest (param +:+ " param must be an integer")));
          let params := <[param := v]> params in
          if v <? 0
          then Raise (HTTPBadRequest (param +:+ " param must be positive"))
          else pagination_loop rest GET params
      end
  end.

Definition get_pagination_params (GET : query_params) : result (gmap string Z) :=
  pagination_loop ["marker"; "limit"] GET ∅.

Definition limited {A} (items : list A) (GET : query_params) (max_limit : Z)
    : result (list A) :=
  offset ← try_except (get_int GET "offset" 0) is_ValueError (fun _ =>
              Raise (HTTPBadRequest "offset param must be an integer"));
  limit ← try_except (get_int GET "limit" max_limit) is_ValueError (fun _ =>
              Raise (HTTPBadRequest "limit param must be an integer"));
  if limit <? 0 then Raise (HTTPBadRequest "limit param must be positive")
  else if offset <? 0
  then Raise (HTTPBadRequest "offset param must be positive")
  else
    let limit := Z.min max_limit (if limit =? 0 then max_limit else limit) in
    let range_end := offset + limit in
    Ok (Py.slice items offset range_end).

(** The [for i, item in enumerate(items)] loop of [limited_by_marker],
    entered at index [i] with [start_index = -1]; the result is the value of
    [start_index] when the loop is left. *)
Fixpoint marker_scan (items : list item) (marker : Z) (i : Z) : result Z :=
  match items with
  | [] => Ok (-1)
  | it :: rest =>
      id ← getitem it "id";
      if decide (id = PyInt marker) then Ok (i + 1)
      else marker_scan rest marker (i + 1)
  end.

(** Truth value of [params.get('marker')]: [None] and [0] are false. *)
Definition truthy (marker : option Z) : bool :=
  match marker with
  | Some m => negb (m =? 0)
  | None => false
  end.

Definition limited_by_marker (items : list item) (GET : query_params)
    (max_limit : Z) : result (list item) :=
  params ← get_pagination_params GET;
  let limit := default max_limit (params !! "limit") in
  let marker := params !! "marker" in
  let limit := Z.min max_limit limit in
  start_index ←
    (if truthy marker then
       let marker := default 0 marker in
       start_index ← marker_scan items marker 0;
       if start_index <? 0
       then Raise (HTTPBadRequest ("marker [" +:+ Py.str marker +:+ "] not found"))
       else Ok start_index
     else Ok 0);
  let range_end := start_index + limit in
  Ok (Py.slice items start_index range_end).

(** An item whose only entry is its ['id']. *)
Definition with_id (n : Z) : item := {[ "id" := PyInt n ]}.

(** ** Status mapping *)

(** Modelled from the spec: [nova.compute.power_state] is not among the
    sources; the specification describes a power state as a value of an
    enumeration, and [_STATUS_MAP] names its ten members. *)
Inductive power_state : Type :=
  | NOSTATE | RUNNING | BLOCKED | SUSPENDED | PAUSED | SHUTDOWN | SHUTOFF
  | CRASHED | FAILED | BUILDING.

#[global] Instance power_state_eq_dec : EqDecision power_state.
Proof. solve_decision. Defined.

(** The dictionary literal, entry by entry; a key is [None] or a power
    state. *)
Definition _STATUS_MAP : list (option power_state * string) :=
  [ (None, "BUILD");
    (Some NOSTATE, "BUILD");
    (Some RUNNING, "ACTIVE");
    (Some BLOCKED, "ACTIVE");
    (Some SUSPENDED, "SUSPENDED");
    (Some PAUSED, "PAUSED");
    (Some SHUTDOWN, "SHUTDOWN");
    (Some SHUTOFF, "SHUTOFF");
    (Some CRASHED, "ERROR");
    (Some FAILED, "ERROR");
    (Some BUILDING, "BUILD") ].

(** [d[key]] on the entries of a dictionary. *)
Fixpoint dict_getitem {K V} `{EqDecision K} (d : list (K * V)) (key : K)
    : result V :=
  match d with
  | [] => Raise (KeyError "power_state")
  | (k, v) :: rest => if decide (k = key) then Ok v else dict_getitem rest key
  end.

Definition status_from_power_state (power_state : option power_state)
    : result string :=
  dict_getitem _STATUS_MAP power_state.

(** The loop of [power_states_from_status] over the entries of the map. *)
Fixpoint power_states_loop (entries : list (option power_state * string))
    (status : string) : list (option power_state) :=
  match entries with
  | [] => []
  | (power_state, status_map) :: rest =>
      match power_state with
      | None => power_states_loop rest status
      | Some _ =>
          if decide (Py.lower status = Py.lower status_map)
          then power_state :: power_states_loop rest status
          else power_states_loop rest status
      end
  end.

Definition power_states_from_status (status : string)
    : list (option power_state) :=
  power_states_loop _STATUS_MAP status.

(** The closed set of status strings. *)
Definition status_strings : list string :=
  ["BUILD"; "ACTIVE"; "SUSPENDED"; "PAUSED"; "SHUTDOWN"; "SHUTOFF"; "ERROR"].


(** ** The [urlparse] module of the standard library *)

Module Urlparse.

Record SplitResult : Type := mkSplitResult {
  scheme : string;
  netloc : string;
  path : string;
  query : string;
  fragment : string
}.

(** [s.split(c, 1)] when [c] occurs in [s]. *)
Definition split_once (c : ascii) (s : string) : string * string :=
  let '(before, rest) := Py.break (Ascii.eqb c) s in
  (before, match rest with String _ after => after | EmptyString => EmptyString end).

Definition scheme_char (c : ascii) : bool :=
  let n := N_of_ascii c in
  (((97 <=? n) && (n <=? 122)) || ((65 <=? n) && (n <=? 90))
   || ((48 <=? n) && (n <=? 57)))%N
  || Ascii.eqb c "+" || Ascii.eqb c "-" || Ascii.eqb c ".".

(** [_splitnetloc(url, 2)] for a [url] that starts with ["//"]: the network
    location ends at the first of ['/'], ['?'], ['#']. *)
Definition _splitnetloc (url : string) : string * string :=
  match url with
  | String _ (String _ after) =>
      Py.break (fun c => Ascii.eqb c "/" || Ascii.eqb c "?" || Ascii.eqb c "#")
            after
  | _ => (EmptyString, EmptyString)
  end.

(** The part of [urlsplit] that follows the detection of the scheme. *)
Definition split_rest (scheme url : string) : result SplitResult :=
  '(netloc, url) ←
    match url with
    | String "/" (String "/" _) =>
        let '(netloc, url) := _splitnetloc url in
        if (Py.contains "[" netloc && negb (Py.contains "]" netloc))
           || (Py.contains "]" netloc && negb (Py.contains "[" netloc))
        then Raise (ValueError "Invalid IPv6 URL")
        else Ok (netloc, url)
    | _ => Ok (EmptyString, url)
    end;
  let '(url, fragment) :=
    if Py.contains "#" url then split_once "#" url else (url, EmptyString) in
  let '(url, query) :=
    if Py.contains "?" url then split_once "?" url else (url, EmptyString) in
  Ok (mkSplitResult scheme netloc url query fragment).

(** [urlsplit(url)], after the standard library of Python 2.7. *)
Definition urlsplit (url : string) : result SplitResult :=
  let '(before, rest) := Py.break (Ascii.eqb ":") url in
  match before, rest with
  | String _ _, String _ after =>
      (* [i = url.find(':')] and [i > 0] *)
      if decide (before = "http") then split_rest (Py.lower before) after
      else if Py.all_chars scheme_char before then
        if negb (Py.nonempty after) || negb (Py.all_chars Py.isdigit after)
        then split_rest (Py.lower before) after
        else split_rest EmptyString url
      else split_rest EmptyString url
  | _, _ => split_rest EmptyString url
  end.

Definition uses_netloc : list string :=
  ["ftp"; "http"; "gopher"; "nntp"; "telnet"; "imap"; "wais"; "file"; "mms";
   "https"; "shttp"; "snews"; "prospero"; "rtsp"; "rtspu"; "rsync"; "";
   "svn"; "svn+ssh"; "sftp"; "nfs"; "git"; "git+ssh"].

Definition starts_with_slashes (s : string) : bool :=
  match s with String "/" (String "/" _) => true | _ => false end.

Definition starts_with_slash (s : string) : bool :=
  match s with String "/" _ => true | _ => false end.

(** [urlunsplit((scheme, netloc, url, query, fragment))] *)
Definition urlunsplit (data : SplitResult) : string :=
  let url := path data in
  let url :=
    if Py.nonempty (netloc data)
       || (Py.nonempty (scheme data)
           && bool_decide (scheme data ∈ uses_netloc)
           && negb (starts_with_slashes url))
    then
      let url :=
        if Py.nonempty url && negb (starts_with_slash url)
        then "/" +:+ url else url in
      "//" +:+ netloc data +:+ url
    else url in
  let url :=
    if Py.nonempty (scheme data) then scheme data +:+ ":" +:+ url else url in
  let url :=
    if Py.nonempty (query data) then url +:+ "?" +:+ query data else url in
  let url :=
    if Py.nonempty (fragment data) then url +:+ "#" +:+ fragment data else url in
  url.

End Urlparse.

(** ** The [re] module of the standard library

    The patterns of this module are built from literal characters, the class
    [[0-9]], its greedy repetition [[0-9]+], the anchors [^] and [$],
    alternation and one capturing group; the matcher is the backtracking
    matcher of [re] restricted to these. *)

Module Re.

Inductive regex : Type :=
  | Bol                                (* ^ *)
  | Eol                                (* $ *)
  | Class (p : ascii -> bool)          (* one character of a class *)
  | Plus (p : ascii -> bool)           (* class+, greedy *)
  | Cat (r1 r2 : regex)
  | Alt (r1 r2 : regex)                (* r1|r2 *)
  | Group (r : regex).                 (* (r), group 1 *)

(** A literal character: [c], [[c]] or [\c]. *)
Definition Lit (c : ascii) : regex := Class (Ascii.eqb c).
(** [[0-9]] *)
Definition Digit : regex := Class Py.isdigit.

(** The state of a match attempt: whether the position is the start of the
    subject, the text that remains, and the text of group 1. *)
Record mstate : Type := mkState {
  at_start : bool;
  input : string;
  group1 : string
}.

(** Greedy repetition: as many characters of the class as possible, giving
    one back at a time while the rest of the pattern fails. *)
Fixpoint many {R} (p : ascii -> bool) (s : string) (k : string -> option R)
    : option R :=
  match s with
  | String c s' =>
      if p c then
        match many p s' k with
        | Some r => Some r
        | None => k s
        end
      else k s
  | EmptyString => k s
  end.

(** The first [length s - length s'] characters of [s]. *)
Definition consumed (s s' : string) : string :=
  substring 0 (String.length s - String.length s') s.

(** [$] matches at the end of the subject and before a newline that ends
    it. *)
Definition at_end (s : string) : bool :=
  match s with
  | EmptyString => true
  | String "010" EmptyString => true
  | _ => false
  end.

Fixpoint rmatch (r : regex) (st : mstate) (k : mstate -> option mstate)
    : option mstate :=
  match r with
  | Bol => if at_start st then k st else None
  | Eol => if at_end (input st) then k st else None
  | Class p =>
      match input st with
      | String c s' => if p c then k (mkState false s' (group1 st)) else None
      | EmptyString => None
      end
  | Plus p =>
      match input st with
      | String c s' =>
          if p c
          then many p s' (fun s'' => k (mkState false s'' (group1 st)))
          else None
      | EmptyString => None
      end
  | Cat r1 r2 => rmatch r1 st (fun st' => rmatch r2 st' k)
  | Alt r1 r2 =>
      match rmatch r1 st k with
      | Some m => Some m
      | None => rmatch r2 st k
      end
  | Group r1 =>
      rmatch r1 st (fun st' =>
        k (mkState (at_start st') (input st')
                   (consumed (input st) (input st'))))
  end.

(** A match: its text ([m.group(0)]), the text of group 1, and what follows
    the match in the subject. *)
Record rmatched : Type := mkMatch {
  group0 : string;
  group_1 : string;
  after : string
}.

(** A match attempt at one position of the subject. *)
Definition match_at (r : regex) (bos : bool) (s : string) : option rmatched :=
  match rmatch r (mkState bos s EmptyString) Some with
  | Some st => Some (mkMatch (consumed s (input st)) (group1 st) (input st))
  | None => None
  end.

(** [re.search]: the leftmost match, with the text skipped before it. *)
Fixpoint search (r : regex) (bos : bool) (s : string)
    : option (string * rmatched) :=
  match match_at r bos s with
  | Some m => Some (EmptyString, m)
  | None =>
      match s with
      | String c s' =>
          match search r false s' with
          | Some (skipped, m) => Some (String c skipped, m)
          | None => None
          end
      | EmptyString => None
      end
  end.

(** [re.sub(r, r'\1', s, count=1)] *)
Definition sub_group1_once (r : regex) (s : string) : string :=
  match search r true s with
  | Some (skipped, m) => skipped +:+ group_1 m +:+ after m
  | None => s
  end.

(** [re.findall(r, s)] for a pattern without groups: the texts of the
    successive non-overlapping matches; [skip] characters of the last match
    are still to be passed. *)
Fixpoint findall_from (r : regex) (bos : bool) (s : string) (skip : nat)
    : list string :=
  match skip with
  | S n =>
      match s with
      | String _ s' => findall_from r false s' n
      | EmptyString => []
      end
  | O =>
      match match_at r bos s with
      | Some m =>
          group0 m ::
          match s with
          | String _ s' =>
              findall_from r false s' (String.length (group0 m) - 1)
          | EmptyString => []
          end
      | None =>
          match s with
          | String _ s' => findall_from r false s' 0
          | EmptyString => []
          end
      end
  end.

Definition findall (r : regex) (s : string) : list string :=
  findall_from r true s 0.

End Re.

(** ** Hrefs *)

Definition get_id_from_href (href : string) : result Z :=
  try_except (Py.int href) is_ValueError (fun _ =>
    try_except
      (parsed ← Urlparse.urlsplit href;
       segment ← Py.last_item (Py.split "/" (Urlparse.path parsed));
       Py.int segment)
      is_ValueError (fun error => Raise error)).

(** [^/v[0-9]+\.[0-9]+(/|$)] *)
Definition version_prefix_re : Re.regex :=
  Re.Cat Re.Bol (Re.Cat (Re.Lit "/") (Re.Cat (Re.Lit "v")
    (Re.Cat (Re.Plus Py.isdigit) (Re.Cat (Re.Lit ".")
      (Re.Cat (Re.Plus Py.isdigit)
        (Re.Group (Re.Alt (Re.Lit "/") Re.Eol))))))).

Definition remove_version_from_href (href : string) : result string :=
  parsed_url ← Urlparse.urlsplit href;
  let new_path :=
    Re.sub_group1_once version_prefix_re (Urlparse.path parsed_url) in
  if decide (new_path = Urlparse.path parsed_url) then
    let msg := "href " +:+ href +:+ " does not contain version" in
    Raise (ValueError msg)
  else
    Ok (Urlparse.urlunsplit
          (Urlparse.mkSplitResult
             (Urlparse.scheme parsed_url) (Urlparse.netloc parsed_url)
             new_path
             (Urlparse.query parsed_url) (Urlparse.fragment parsed_url))).

(** [[/][v][0-9]+\.[0-9]+[/]] *)
Definition version_inside_re : Re.regex :=
  Re.Cat (Re.Lit "/") (Re.Cat (Re.Lit "v") (Re.Cat (Re.Plus Py.isdigit)
    (Re.Cat (Re.Lit ".") (Re.Cat (Re.Plus Py.isdigit) (Re.Lit "/"))))).

(** [[/][v][0-9]+\.[0-9]+$] *)
Definition version_at_end_re : Re.regex :=
  Re.Cat (Re.Lit "/") (Re.Cat (Re.Lit "v") (Re.Cat (Re.Plus Py.isdigit)
    (Re.Cat (Re.Lit ".") (Re.Cat (Re.Plus Py.isdigit) Re.Eol)))).

(** [[0-9]+\.[0-9]] *)
Definition version_digits_re : Re.regex :=
  Re.Cat (Re.Plus Py.isdigit) (Re.Cat (Re.Lit ".") Re.Digit).

Definition get_version_from_href (href : string) : result string :=
  try_except
    (let version := Re.findall version_inside_re href in
     let version :=
       match version with
       | [] => Re.findall version_at_end_re href
       | _ => version
       end in
     matched ← Py.first_item version;
     Py.first_item (Re.findall version_digits_re matched))
    is_IndexError (fun _ => Ok "1.0").


#[global] Instance result_fmap : FMap result := fun A B f m =>
  match m with
  | Ok a => Ok (f a)
  | Raise e => Raise e
  end.

(** ** The [xml.dom.minidom] module of the standard library

    Three views of a document.  While it is built, a document is a graph of
    mutable node objects: the object store is a list, a reference is an
    index in it, and [appendChild] moves a node that already has a parent.
    What [toxml] writes is the tree of that graph, an [xnode]: the
    serializers create documents, elements and texts only.  What a parser
    returns is a tree of nodes that are only read, a [pnode], with every
    kind of node that can be the child of a document or of an element.

    The library's parser is not described in full.  [parseString] below
    reads a part of XML that holds what [toxml] writes: the declaration as
    [toxml] writes it, a document type declaration with a name only,
    elements and attributes with names without a colon, character data, the
    five predefined entities and comments, in 7-bit characters.  On every
    other input, well-formed or not, its result is [OutsideModel]: the model
    then does not say what the library does. *)

Module Minidom.

(** *** Documents as they are written *)

#[local] Set Warnings "-register-all".

Inductive xnode : Type :=
  | XDocument (children : list xnode)
  | XElement (tagName : string) (attrs : list (string * string))
             (children : list xnode)
  | XText (data : string)
  | XComment (data : string).

Fixpoint assoc (name : string) (attrs : list (string * string))
    : option string :=
  match attrs with
  | [] => None
  | (n, v) :: rest => if decide (n = name) then Some v else assoc name rest
  end.

(** *** Writing *)

(** The double quote. *)
Definition quot : string := String "034" EmptyString.

(** [s.replace(old, new)] for a one-character [old]. *)
Fixpoint replace (old : ascii) (new : string) (s : string) : string :=
  match s with
  | EmptyString => EmptyString
  | String c s' =>
      if Ascii.eqb c old then new +:+ replace old new s'
      else String c (replace old new s')
  end.

Definition _write_data (data : string) : string :=
  replace ">" "&gt;"
    (replace "034" "&quot;" (replace "<" "&lt;" (replace "&" "&amp;" data))).

(** [a_names.sort()]: the attributes in the order of their names. *)
Fixpoint insert_sorted (a : string * string) (l : list (string * string))
    : list (string * string) :=
  match l with
  | [] => [a]
  | b :: rest =>
      if String.leb (fst a) (fst b) then a :: l else b :: insert_sorted a rest
  end.

Definition sorted_attrs (attrs : list (string * string))
    : list (string * string) :=
  foldr insert_sorted [] attrs.

Definition write_attr (a : string * string) : string :=
  " " +:+ fst a +:+ "=" +:+ quot +:+ _write_data (snd a) +:+ quot.

Fixpoint writexml (n : xnode) : string :=
  match n with
  | XDocument children => String.concat "" (List.map writexml children)
  | XElement tagName attrs children =>
      "<" +:+ tagName
      +:+ String.concat "" (List.map write_attr (sorted_attrs attrs))
      +:+ match children with
          | [] => "/>"
          | _ =>
              ">" +:+ String.concat "" (List.map writexml children)
              +:+ "</" +:+ tagName +:+ ">"
          end
  | XText data => _write_data data
  | XComment data => "<!--" +:+ data +:+ "-->"
  end.

Definition xml_declaration (encoding : string) : string :=
  "<?xml version=" +:+ quot +:+ "1.0" +:+ quot
  +:+ " encoding=" +:+ quot +:+ encoding +:+ quot +:+ "?>".

(** *** Documents under construction *)

Inductive node_type : Type :=
  | DOCUMENT_NODE | ELEMENT_NODE | TEXT_NODE | COMMENT_NODE.

#[global] Instance node_type_eq_dec : EqDecision node_type.
Proof. solve_decision. Defined.

Record node : Type := mkNode {
  nodeType : node_type;
  name : string;                          (* tagName of an element *)
  attributes : list (string * string);    (* _attrs *)
  children : list nat;                    (* childNodes, as references *)
  parentNode : option nat;
  data : string                           (* of a text node *)
}.

Definition with_children (o : node) (cs : list nat) : node :=
  mkNode (nodeType o) (name o) (attributes o) cs (parentNode o) (data o).
Definition with_parent (o : node) (p : option nat) : node :=
  mkNode (nodeType o) (name o) (attributes o) (children o) p (data o).
Definition with_attributes (o : node) (a : list (string * string)) : node :=
  mkNode (nodeType o) (name o) a (children o) (parentNode o) (data o).

(** The object store, and computations that read and update it. *)
Abbreviation heap := (list node).
Definition dom (A : Type) : Type := heap -> result (A * heap).

Definition dom_ret {A} (a : A) : dom A := fun h => Ok (a, h).
Definition dom_bind {A B} (m : dom A) (k : A -> dom B) : dom B :=
  fun h =>
    match m h with
    | Ok (a, h') => k a h'
    | Raise e => Raise e
    end.
Definition dom_raise {A} (e : exn) : dom A := fun _ => Raise e.

Notation "'do' x <- m ; k" := (dom_bind m (fun x => k))
  (at level 10, x name, m at level 100, k at level 200).

Definition alloc (o : node) : dom nat :=
  fun h => Ok (length h, (h ++ [o])%list).
Definition get (r : nat) : dom node :=
  fun h =>
    match h !! r with
    | Some o => Ok (o, h)
    | None => Raise BadReference
    end.
Definition put (r : nat) (o : node) : dom unit :=
  fun h => Ok (tt, <[r := o]> h).

(** [minidom.Document()] *)
Definition Document : dom nat :=
  alloc (mkNode DOCUMENT_NODE "#document" [] [] None "").

(** [doc.createElement(tagName)] *)
Definition createElement (doc : nat) (tagName : string) : dom nat :=
  alloc (mkNode ELEMENT_NODE tagName [] [] None "").

(** [doc.createTextNode(data)] *)
Definition createTextNode (doc : nat) (data : string) : dom nat :=
  alloc (mkNode TEXT_NODE "#text" [] [] None data).

Fixpoint set_assoc (name value : string) (attrs : list (string * string))
    : list (string * string) :=
  match attrs with
  | [] => [(name, value)]
  | (n, v) :: rest =>
      if decide (n = name) then (n, value) :: rest
      else (n, v) :: set_assoc name value rest
  end.

(** [node.setAttribute(attname, value)] *)
Definition setAttribute (r : nat) (attname value : string) : dom unit :=
  do o <- get r;
  put r (with_attributes o (set_assoc attname value (attributes o))).

(** [_child_node_types] of the class of [parent]. *)
Definition child_allowed (parent child : node_type) : bool :=
  match parent, child with
  | DOCUMENT_NODE, (ELEMENT_NODE | COMMENT_NODE) => true
  | ELEMENT_NODE, (ELEMENT_NODE | TEXT_NODE | COMMENT_NODE) => true
  | _, _ => false
  end.

(** [l.remove(x)]: without the first occurrence of [x], [None] when [x] is
    not in [l]. *)
Fixpoint list_remove (x : nat) (l : list nat) : option (list nat) :=
  match l with
  | [] => None
  | y :: rest =>
      if decide (y = x) then Some rest else cons y <$> list_remove x rest
  end.

(** [parent.removeChild(oldChild)] *)
Definition removeChild (parent oldChild : nat) : dom unit :=
  do p <- get parent;
  match list_remove oldChild (children p) with
  | None => dom_raise NotFoundErr
  | Some cs =>
      do _ <- put parent (with_children p cs);
      do c <- get oldChild;
      put oldChild (with_parent c None)
  end.

(** [Node.appendChild(self, node)] *)
Definition Node_appendChild (self r : nat) : dom unit :=
  do s <- get self;
  do o <- get r;
  if negb (child_allowed (nodeType s) (nodeType o))
  then dom_raise (HierarchyRequestErr "node cannot be child of this node")
  else
    do _ <- match parentNode o with
            | Some p => removeChild p r
            | None => dom_ret tt
            end;
    (* _append_child(self, node) *)
    do s <- get self;
    do _ <- put self (with_children s (children s ++ [r]));
    do o <- get r;
    put r (with_parent o (Some self)).

(** [self._get_documentElement()] as a truth value. *)
Definition has_element (cs : list nat) : dom bool :=
  fun h =>
    Ok (existsb (fun c =>
          match h !! c with
          | Some o => bool_decide (nodeType o = ELEMENT_NODE)
          | None => false
          end) cs, h).

(** [Document.appendChild(self, node)] *)
Definition Document_appendChild (self r : nat) : dom unit :=
  do s <- get self;
  do o <- get r;
  if negb (child_allowed (nodeType s) (nodeType o))
  then dom_raise (HierarchyRequestErr "node cannot be child of this node")
  else
    do _ <- match parentNode o with
            | Some p => removeChild p r
            | None => dom_ret tt
            end;
    do s <- get self;
    do two <- has_element (children s);
    if bool_decide (nodeType o = ELEMENT_NODE) && two
    then dom_raise (HierarchyRequestErr "two document elements disallowed")
    else Node_appendChild self r.

(** [self.appendChild(node)]: the method of the class of [self]. *)
Definition appendChild (self r : nat) : dom unit :=
  do s <- get self;
  match nodeType s with
  | DOCUMENT_NODE => Document_appendChild self r
  | _ => Node_appendChild self r
  end.

(** The tree below a node of the store; [fuel] bounds its depth. *)
Fixpoint tree_of (fuel : nat) (h : heap) (r : nat) : option xnode :=
  match fuel with
  | O => None
  | S fuel =>
      match h !! r with
      | None => None
      | Some o =>
          match nodeType o with
          | DOCUMENT_NODE => XDocument <$> mapM (tree_of fuel h) (children o)
          | ELEMENT_NODE =>
              XElement (name o) (attributes o)
                <$> mapM (tree_of fuel h) (children o)
          | TEXT_NODE => Some (XText (data o))
          | COMMENT_NODE => Some (XComment (data o))
          end
      end
  end.

(** A 7-bit character. *)
Definition is_ascii (c : ascii) : bool := (N_of_ascii c <? 128)%N.

(** [doc.toxml(encoding)].  The strings of the model are byte strings, and
    the stream writer of a codec decodes a byte string as ASCII before it
    encodes it: a character that is not a 7-bit character raises
    [UnicodeDecodeError]. *)
Definition toxml (doc : nat) (encoding : string) : dom string :=
  fun h =>
    match tree_of (S (length h)) h doc with
    | Some tree =>
        let text := xml_declaration encoding +:+ writexml tree in
        if Py.all_chars is_ascii text then Ok (text, h)
        else Raise UnicodeDecodeError
    | None => Raise OutOfFuel
    end.

(** *** Documents as they are read *)

Inductive pnode : Type :=
  | PDocument (children : list pnode)
  | PElement (tagName : string) (attrs : list (string * string))
             (children : list pnode)
  | PText (data : string)
  | PComment (data : string)
  | PCDATASection (data : string)
  | PProcessingInstruction (target data : string)
  | PDocumentType (name : string).

(** [node.childNodes]: a document and an element have children. *)
Definition childNodes (n : pnode) : list pnode :=
  match n with
  | PDocument children | PElement _ _ children => children
  | _ => []
  end.

(** [node.nodeName]: the name of a processing instruction is its target,
    that of a document type its name. *)
Definition nodeName (n : pnode) : string :=
  match n with
  | PDocument _ => "#document"
  | PElement tagName _ _ => tagName
  | PText _ => "#text"
  | PComment _ => "#comment"
  | PCDATASection _ => "#cdata-section"
  | PProcessingInstruction target _ => target
  | PDocumentType name => name
  end.

(** [node.getAttribute(attname)]: a method of elements only, which gives
    the empty string when the attribute is missing. *)
Definition getAttribute (n : pnode) (attname : string) : result string :=
  match n with
  | PElement _ attrs _ => Ok (default "" (assoc attname attrs))
  | _ => Raise (AttributeError "getAttribute")
  end.

Definition is_element (n : pnode) : bool :=
  match n with PElement _ _ _ => true | _ => false end.

(** *** Reading *)

Definition is_letter (c : ascii) : bool :=
  let n := N_of_ascii c in
  (((97 <=? n) && (n <=? 122)) || ((65 <=? n) && (n <=? 90)))%N.

(** The names that are read hold no colon. *)
Definition is_name_start (c : ascii) : bool :=
  is_letter c || Ascii.eqb c "_".

Definition is_name_char (c : ascii) : bool :=
  is_name_start c || Py.isdigit c || Ascii.eqb c "-" || Ascii.eqb c ".".

Definition is_space (c : ascii) : bool :=
  Ascii.eqb c " " || Ascii.eqb c "009" || Ascii.eqb c "010"
  || Ascii.eqb c "013".

(** The characters that a document may contain. *)
Definition is_char (c : ascii) : bool :=
  (32 <=? N_of_ascii c)%N || Ascii.eqb c "009" || Ascii.eqb c "010"
  || Ascii.eqb c "013".

(** The characters of the documents that are read. *)
Definition readable_char (c : ascii) : bool := is_ascii c && is_char c.

Fixpoint skip_space (s : string) : string :=
  match s with
  | String c s' => if is_space c then skip_space s' else s
  | EmptyString => EmptyString
  end.

Definition starts_space (s : string) : bool :=
  match s with
  | String c _ => is_space c
  | EmptyString => false
  end.

(** [s] without the text [p] at its start, when it starts with it. *)
Fixpoint strip_prefix (p s : string) : option string :=
  match p, s with
  | EmptyString, _ => Some s
  | String a p', String b s' =>
      if Ascii.eqb a b then strip_prefix p' s' else None
  | String _ _, EmptyString => None
  end.

(** A line end, [CR LF] or [CR], is read as [LF]. *)
Fixpoint normalize_newlines (s : string) : string :=
  match s with
  | EmptyString => EmptyString
  | String c s' =>
      if Ascii.eqb c "013" then
        String "010"
          match s' with
          | String c' s'' =>
              if Ascii.eqb c' "010" then normalize_newlines s''
              else normalize_newlines s'
          | EmptyString => EmptyString
          end
      else String c (normalize_newlines s')
  end.

Definition expect (c : ascii) (s : string) : result string :=
  match s with
  | String c' s' => if Ascii.eqb c' c then Ok s' else Raise OutsideModel
  | EmptyString => Raise OutsideModel
  end.

Definition parse_name (s : string) : result (string * string) :=
  let '(name, rest) := Py.break (fun c => negb (is_name_char c)) s in
  match name with
  | String c _ =>
      if is_name_start c then Ok (name, rest) else Raise OutsideModel
  | EmptyString => Raise OutsideModel
  end.

(** The predefined entities. *)
Definition entity (name : string) : option ascii :=
  if decide (name = "lt") then Some "<"%char
  else if decide (name = "gt") then Some ">"%char
  else if decide (name = "amp") then Some "&"%char
  else if decide (name = "quot") then Some "034"%char
  else if decide (name = "apos") then Some "'"%char
  else None.

(** Character data with its references replaced; [pending] is the name of
    the reference being read. *)
Fixpoint unescape (pending : option string) (s : string) : result string :=
  match s with
  | EmptyString =>
      match pending with
      | None => Ok EmptyString
      | Some _ => Raise OutsideModel
      end
  | String c s' =>
      match pending with
      | None =>
          if Ascii.eqb c "&" then unescape (Some EmptyString) s'
          else if is_char c then
            text ← unescape None s'; Ok (String c text)
          else Raise OutsideModel
      | Some name =>
          if Ascii.eqb c ";" then
            match entity name with
            | Some e => text ← unescape None s'; Ok (String e text)
            | None => Raise OutsideModel
            end
          else unescape (Some (name +:+ String c EmptyString)) s'
      end
  end.

(** White space in an attribute value is read as a space. *)
Fixpoint normalize_attr (s : string) : string :=
  match s with
  | EmptyString => EmptyString
  | String c s' =>
      String (if is_space c then " "%char else c) (normalize_attr s')
  end.

(** The name spaces that every version of the parser accepts in a
    declaration [xmlns="..."]: without a space (the parser joins a name
    space and a name with a space, and a later version refuses a name space
    that holds one) and not one of the two reserved ones. *)
Definition reserved_namespaces : list string :=
  ["http://www.w3.org/XML/1998/namespace"; "http://www.w3.org/2000/xmlns/"].

Definition namespace_ok (uri : string) : bool :=
  negb (Py.contains " " uri)
  && negb (bool_decide (uri ∈ reserved_namespaces)).

(** One attribute of a start tag, [name="value"], and what follows it. *)
Definition parse_attribute (s : string)
    : result ((string * string) * string) :=
  '(name, rest) ← parse_name s;
  rest ← expect "=" (skip_space rest);
  match skip_space rest with
  | String q rest =>
      if Ascii.eqb q "034" || Ascii.eqb q "'" then
        let '(raw, rest) := Py.break (Ascii.eqb q) rest in
        rest ← expect q rest;
        if Py.contains "<" raw then Raise OutsideModel
        else
          value ← unescape None (normalize_attr raw);
          if bool_decide (name = "xmlns") && negb (namespace_ok value)
          then Raise OutsideModel
          else Ok ((name, value), rest)
      else Raise OutsideModel
  | EmptyString => Raise OutsideModel
  end.

Definition starts_name (s : string) : bool :=
  match s with
  | String c _ => is_name_start c
  | EmptyString => false
  end.

(** The attributes of a start tag, up to its [>] or [/>]: white space comes
    before each attribute, and an attribute name may occur once. *)
Fixpoint parse_attributes (fuel : nat) (s : string)
    (seen : list (string * string))
    : result (list (string * string) * string) :=
  match fuel with
  | O => Raise OutOfFuel
  | S fuel =>
      let s' := skip_space s in
      if starts_name s' then
        if starts_space s then
          '(attr, rest) ← parse_attribute s';
          if bool_decide (fst attr ∈ seen.*1) then Raise OutsideModel
          else parse_attributes fuel rest (seen ++ [attr])%list
        else Raise OutsideModel
      else Ok (seen, s')
  end.

(** The text of a comment, after its [<!--], and what follows its [-->]. *)
Fixpoint parse_comment (s : string) : result (string * string) :=
  match s with
  | String c1 s1 =>
      match s1 with
      | String c2 (String c3 s3) =>
          if Ascii.eqb c1 "-" && Ascii.eqb c2 "-" then
            if Ascii.eqb c3 ">" then Ok (EmptyString, s3)
            else Raise OutsideModel
          else
            '(text, rest) ← parse_comment s1;
            Ok (String c1 text, rest)
      | _ => Raise OutsideModel
      end
  | EmptyString => Raise OutsideModel
  end.

(** The end tag [</name>]. *)
Definition parse_end_tag (name : string) (s : string) : result string :=
  rest ← expect "<" s;
  rest ← expect "/" rest;
  '(found, rest) ← parse_name rest;
  if decide (found = name) then expect ">" (skip_space rest)
  else Raise OutsideModel.

(** A start tag after its [<]: the name, the attributes, whether the tag is
    an empty-element tag, and what follows the tag. *)
Definition parse_start_tag (fuel : nat) (s : string)
    : result (string * list (string * string) * bool * string) :=
  '(name, rest) ← parse_name s;
  '(attrs, rest) ← parse_attributes fuel rest [];
  match rest with
  | String d rest =>
      if Ascii.eqb d "/" then
        rest ← expect ">" rest;
        Ok (name, attrs, true, rest)
      else if Ascii.eqb d ">" then Ok (name, attrs, false, rest)
      else Raise OutsideModel
  | EmptyString => Raise OutsideModel
  end.

(** Character data up to the next [<]; the data that are read hold no [>]
    of their own, so that they do not hold the end of a CDATA section. *)
Definition parse_text (s : string) : result (string * string) :=
  let '(raw, rest) := Py.break (Ascii.eqb "<") s in
  if Py.contains ">" raw then Raise OutsideModel
  else
    text ← unescape None raw;
    Ok (text, rest).

(** A sequence of nodes, up to an end tag or to the end of the input. *)
Fixpoint parse_nodes (fuel : nat) (s : string)
    : result (list pnode * string) :=
  match fuel with
  | O => Raise OutOfFuel
  | S fuel =>
      match s with
      | EmptyString => Ok ([], s)
      | String c s1 =>
          if Ascii.eqb c "<" then
            match s1 with
            | EmptyString => Raise OutsideModel
            | String c1 s2 =>
                if Ascii.eqb c1 "/" then Ok ([], s)
                else if Ascii.eqb c1 "!" then
                  rest ← expect "-" s2;
                  rest ← expect "-" rest;
                  '(text, rest) ← parse_comment rest;
                  '(siblings, rest) ← parse_nodes fuel rest;
                  Ok (PComment text :: siblings, rest)
                else
                  '(name, attrs, empty, rest) ← parse_start_tag fuel s1;
                  '(children, rest) ←
                    (if empty : bool then Ok ([], rest)
                     else
                       '(children, rest) ← parse_nodes fuel rest;
                       rest ← parse_end_tag name rest;
                       Ok (children, rest));
                  '(siblings, rest) ← parse_nodes fuel rest;
                  Ok (PElement name attrs children :: siblings, rest)
            end
          else
            '(text, rest) ← parse_text s;
            '(siblings, rest) ← parse_nodes fuel rest;
            Ok (PText text :: siblings, rest)
      end
  end.

(** The XML declaration, when the document starts with the one that
    [toxml] writes. *)
Definition skip_declaration (s : string) : string :=
  match strip_prefix (xml_declaration "UTF-8") s with
  | Some rest => rest
  | None => s
  end.

(** The document type declaration [<!DOCTYPE name>], when there is one. *)
Definition parse_doctype (s : string) : result (list pnode * string) :=
  match strip_prefix "<!DOCTYPE" (skip_space s) with
  | Some rest =>
      if starts_space rest then
        '(name, rest) ← parse_name (skip_space rest);
        rest ← expect ">" (skip_space rest);
        Ok ([PDocumentType name], rest)
      else Raise OutsideModel
  | None => Ok ([], s)
  end.

(** Outside the document element only white space and comments may occur;
    the white space is not part of the document. *)
Fixpoint top_level (nodes : list pnode) : result (list pnode) :=
  match nodes with
  | [] => Ok []
  | PText text :: rest =>
      if Py.all_chars is_space text then top_level rest
      else Raise OutsideModel
  | n :: rest => nodes ← top_level rest; Ok (n :: nodes)
  end.

(** [minidom.parseString(datastring)], on the part of XML described
    above. *)
Definition parseString (datastring : string) : result pnode :=
  if negb (Py.all_chars readable_char datastring) then Raise OutsideModel
  else
    let s := skip_declaration (normalize_newlines datastring) in
    '(doctype, s) ← parse_doctype s;
    '(nodes, rest) ← parse_nodes (S (String.length s)) s;
    if Py.nonempty rest then Raise OutsideModel
    else
      nodes ← top_level nodes;
      if decide (length (filter (fun n => is_element n = true) nodes) = 1%nat)
      then Ok (PDocument (doctype ++ nodes))
      else Raise OutsideModel.

End Minidom.

(** ** The metadata codec *)

(** Modelled from the spec: [find_first_child_named] belongs to
    [wsgi.XMLDeserializer], which is not among the sources; it locates the
    first immediate child of [parent] that has the given name. *)
Definition find_first_child_named (parent : Minidom.pnode) (name : string)
    : option Minidom.pnode :=
  List.find (fun node => bool_decide (Minidom.nodeName node = name))
            (Minidom.childNodes parent).

(** Modelled from the spec: [find_children_named] belongs to
    [wsgi.XMLDeserializer], which is not among the sources; it yields, in
    document order, the immediate children of [parent] that have the given
    name. *)
Definition find_children_named (parent : Minidom.pnode) (name : string)
    : list Minidom.pnode :=
  List.filter (fun node => bool_decide (Minidom.nodeName node = name))
              (Minidom.childNodes parent).

Section deserializer.

(** Two functions that the deserializer calls are parameters of it: the
    parser of the library, [minidom.parseString], whose result on an input
    is a document or an exception, and [extract_text] of
    [wsgi.XMLDeserializer], which is not among the sources and gives the
    text of a node.  What is proved of the deserializer holds whatever they
    return. *)
Context (parseString : string -> result Minidom.pnode)
        (extract_text : Minidom.pnode -> string).

(** The loop [for meta_node in ...] of [extract_metadata]. *)
Fixpoint extract_metadata_loop (meta_nodes : list Minidom.pnode)
    (metadata : gmap string string) : result (gmap string string) :=
  match meta_nodes with
  | [] => Ok metadata
  | meta_node :: rest =>
      key ← Minidom.getAttribute meta_node "key";
      extract_metadata_loop rest (<[key := extract_text meta_node]> metadata)
  end.

(** [MetadataXMLDeserializer.extract_metadata]; the argument is [None] or a
    node. *)
Definition extract_metadata (metadata_node : option Minidom.pnode)
    : result (gmap string string) :=
  match metadata_node with
  | None => Ok ∅
  | Some metadata_node =>
      extract_metadata_loop (find_children_named metadata_node "meta") ∅
  end.

(** [MetadataXMLDeserializer._extract_metadata_container] *)
Definition _extract_metadata_container (datastring : string)
    : result (gmap string (gmap string (gmap string string))) :=
  dom ← parseString datastring;
  let metadata_node := find_first_child_named dom "metadata" in
  metadata ← extract_metadata metadata_node;
  Ok {[ "body" := {[ "metadata" := metadata ]} ]}.

End deserializer.

(** Modelled from the spec: [extract_text] belongs to
    [wsgi.XMLDeserializer], which is not among the sources; the spec calls
    what it reads the text content of the node.  [text_content] is the text
    content in the sense of the DOM, the character data below the node in
    document order; it stands for [extract_text] in the examples. *)
Fixpoint text_content (node : Minidom.pnode) : string :=
  match node with
  | Minidom.PDocument children | Minidom.PElement _ _ children =>
      String.concat "" (List.map text_content children)
  | Minidom.PText data | Minidom.PCDATASection data => data
  | _ => ""
  end.

Notation "'do' x <- m ; k" := (Minidom.dom_bind m (fun x => k))
  (at level 10, x name, m at level 100, k at level 200).

(** [MetadataXMLSerializer._meta_item_to_xml] *)
Definition _meta_item_to_xml (doc : nat) (key value : string)
    : Minidom.dom nat :=
  do node <- Minidom.createElement doc "meta";
  do _ <- Minidom.appendChild doc node;
  do _ <- Minidom.setAttribute node "key" key;
  do text <- Minidom.createTextNode doc value;
  do _ <- Minidom.appendChild node text;
  Minidom.dom_ret node.

(** The loop [for (key, value) in meta_items] of [meta_list_to_xml]. *)
Fixpoint meta_list_loop (xml_doc container_node : nat)
    (meta_items : list (string * string)) : Minidom.dom unit :=
  match meta_items with
  | [] => Minidom.dom_ret tt
  | (key, value) :: rest =>
      do item_node <- _meta_item_to_xml xml_doc key value;
      do _ <- Minidom.appendChild container_node item_node;
      meta_list_loop xml_doc container_node rest
  end.

(** [MetadataXMLSerializer.meta_list_to_xml] *)
Definition meta_list_to_xml (xml_doc : nat)
    (meta_items : list (string * string)) : Minidom.dom nat :=
  do container_node <- Minidom.createElement xml_doc "metadata";
  do _ <- meta_list_loop xml_doc container_node meta_items;
  Minidom.dom_ret container_node.

(** Modelled from the spec: [_add_xmlns] belongs to
    [wsgi.XMLDictSerializer], which is not among the sources; it attaches
    the namespace declaration of the serializer to the node. *)
Definition _add_xmlns (xmlns : string) (node : nat) : Minidom.dom unit :=
  Minidom.setAttribute node "xmlns" xmlns.

(** [MetadataXMLSerializer._meta_list_to_xml_string] of a serializer whose
    name space is [xmlns]; the document is built in a store of its own. *)
Definition _meta_list_to_xml_string (xmlns : string)
    (metadata_dict : gmap string (gmap string string)) : result string :=
  metadata ← getitem metadata_dict "metadata";
  let items := map_to_list metadata in
  fst <$>
    (do xml_doc <- Minidom.Document;
     do container_node <- meta_list_to_xml xml_doc items;
     do _ <- Minidom.appendChild xml_doc container_node;
     do _ <- _add_xmlns xmlns container_node;
     Minidom.toxml xml_doc "UTF-8") [].

(** The name space of version 1.1 of the API. *)
Definition XML_NS_V11 : string :=
  "http://docs.openstack.org/compute/api/v1.1".

(** ** Vocabulary of the properties *)

(** An item that carries an ['id'] different from the marker. *)
Definition other_id (marker : Z) (it : item) : Prop :=
  exists v, it !! "id" = Some v /\ v <> PyInt marker.

(** The text that follows the last ['/'] of a path, the whole path when it
    has none. *)
Definition is_last_segment (path segment : string) : Prop :=
  Py.contains "/" segment = false
  /\ (path = segment \/ exists before, path = before +:+ "/" +:+ segment).

(** A non-empty run of decimal digits. *)
Definition is_digits (d : string) : bool :=
  Py.nonempty d && Py.all_chars Py.isdigit d.

(** What may follow the version segment for [$] or ['/'] to match: nothing,
    a newline that ends the path, or a slash. *)
Definition version_end (tail : string) : Prop :=
  tail = "" \/ tail = String "010" "" \/ exists t, tail = "/" +:+ t.

(** [path] is [/v<digits>.<digits>] followed by [tail]. *)
Definition version_then (path tail : string) : Prop :=
  exists d1 d2,
    is_digits d1 = true /\ is_digits d2 = true
    /\ path = "/v" +:+ d1 +:+ "." +:+ d2 +:+ tail.

(** [path] starts with a version segment that [version_prefix_re]
    recognises, and [tail] is what remains of it without that segment. *)
Definition leading_version (path tail : string) : Prop :=
  version_then path tail /\ version_end tail.

(** The leading version segment as the specification words it: followed by
    ['/'] or by the end of the path. *)
Definition spec_leading_version (path tail : string) : Prop :=
  version_then path tail /\ (tail = "" \/ exists t, tail = "/" +:+ t).

(** The segment the specification of [get_id_from_href] names: the last
    non-empty segment of the path. *)
Definition spec_last_nonempty_segment (path : string) : option string :=
  last (filter (fun segment => segment <> EmptyString) (Py.split "/" path)).


(** The texts of the nodes named [meta] whose [key] attribute is [key], in
    document order. *)
Definition has_key (key : string) (node : Minidom.pnode) : bool :=
  match Minidom.getAttribute node "key" with
  | Ok found => bool_decide (found = key)
  | Raise _ => false
  end.

Definition meta_values (extract_text : Minidom.pnode -> string)
    (key : string) (children : list Minidom.pnode) : list string :=
  extract_text <$>
    filter (fun node => Minidom.nodeName node = "meta"
                        /\ has_key key node = true) children.

(** What the properties of a round trip need of [extract_text]: for an
    element without a child it gives the empty string, and for an element
    whose only child is a text it gives the data of that text. *)
Definition reads_text (extract_text : Minidom.pnode -> string) : Prop :=
  forall tagName attrs,
    extract_text (Minidom.PElement tagName attrs []) = ""
    /\ forall data,
         extract_text (Minidom.PElement tagName attrs [Minidom.PText data])
         = data.

(** The characters of a key that is written and read back as it is: the
    7-bit characters from the space on.  A tab, a line feed and a carriage
    return are written as they are in an attribute value and read as a
    space. *)
Definition attr_char (c : ascii) : bool :=
  let n := N_of_ascii c in ((32 <=? n) && (n <? 128))%N.

(** The characters of a value that is written and read back as it is: those
    of a key, the tab and the line feed. *)
Definition text_char (c : ascii) : bool :=
  attr_char c || Ascii.eqb c "009" || Ascii.eqb c "010".

Definition xml_key (s : string) : Prop := Py.all_chars attr_char s = true.

Definition xml_value (s : string) : Prop := Py.all_chars text_char s = true.

(** The name spaces of the round trips: made of the characters of a key,
    and accepted by the parser in a declaration. *)
Definition namespace_name (xmlns : string) : Prop :=
  xml_key xmlns /\ Minidom.namespace_ok xmlns = true.

Definition xml_entry (entry : string * string) : Prop :=
  xml_key (fst entry) /\ xml_value (snd entry).

(** The element that the encoder builds for one entry. *)
Definition meta_element (entry : string * string) : Minidom.xnode :=
  Minidom.XElement "meta" [("key", fst entry)] [Minidom.XText (snd entry)].

(** The document that the encoder builds for a list of entries. *)
Definition metadata_document (xmlns : string)
    (entries : list (string * string)) : Minidom.xnode :=
  Minidom.XDocument
    [Minidom.XElement "metadata" [("xmlns", xmlns)] (meta_element <$> entries)].

(** The objects of the store while the encoder runs: the document at
    reference 0, the [metadata] element at reference 1, then, for each
    entry, its [meta] element followed by its text. *)
Definition document_node (children : list nat) : Minidom.node :=
  Minidom.mkNode Minidom.DOCUMENT_NODE "#document" [] children None "".

Definition container_node (attrs : list (string * string))
    (children : list nat) (parent : option nat) : Minidom.node :=
  Minidom.mkNode Minidom.ELEMENT_NODE "metadata" attrs children parent "".

Definition meta_node (key : string) (self : nat) : Minidom.node :=
  Minidom.mkNode Minidom.ELEMENT_NODE "meta" [("key", key)] [S self]
                 (Some 1%nat) "".

Definition text_node (value : string) (parent : nat) : Minidom.node :=
  Minidom.mkNode Minidom.TEXT_NODE "#text" [] [] (Some parent) value.

Fixpoint item_nodes (base : nat) (entries : list (string * string))
    : list Minidom.node :=
  match entries with
  | [] => []
  | (key, value) :: rest =>
      meta_node key base :: text_node value base
      :: item_nodes (S (S base)) rest
  end.

Fixpoint item_refs (base : nat) (entries : list (string * string))
    : list nat :=
  match entries with
  | [] => []
  | _ :: rest => base :: item_refs (S (S base)) rest
  end.

(** A character that ends a run of the class [p]. *)
Definition stops (p : ascii -> bool) (rest : string) : Prop :=
  match rest with
  | String c _ => p c = false
  | EmptyString => True
  end.

(** The part common to the three version patterns: [/v[0-9]+\.[0-9]+]
    followed by [r]. *)
Definition version_core (r : Re.regex) : Re.regex :=
  Re.Cat (Re.Lit "/") (Re.Cat (Re.Lit "v") (Re.Cat (Re.Plus Py.isdigit)
    (Re.Cat (Re.Lit ".") (Re.Cat (Re.Plus Py.isdigit) r)))).

(** What follows the last attribute of a tag: [>] or [/]. *)
Definition closes_tag (tail : string) : Prop :=
  exists t, tail = String ">" t \/ tail = String "/" t.


(** ** The codec of a single metadata item *)

Module MetadataXMLDeserializer.

Section update.

Context (parseString : string -> result Minidom.pnode)
        (extract_text : Minidom.pnode -> string).

(** [MetadataXMLDeserializer.update] *)
Definition update (datastring : string)
    : result (gmap string (gmap string (gmap string string))) :=
  dom ← parseString datastring;
  metadata_item ← extract_metadata extract_text (Some dom);
  Ok {[ "body" := {[ "meta" := metadata_item ]} ]}.

End update.

End MetadataXMLDeserializer.

Module MetadataXMLSerializer.

(** [MetadataXMLSerializer._meta_item_to_xml_string] of a serializer whose
    name space is [xmlns]; [meta_item_dict.items()[0]] raises [IndexError]
    on an empty dictionary. *)
Definition _meta_item_to_xml_string (xmlns : string)
    (meta_item_dict : gmap string string) : result string :=
  fst <$>
    (do xml_doc <- Minidom.Document;
     do entry <- match map_to_list meta_item_dict with
                 | entry :: _ => Minidom.dom_ret entry
                 | [] => Minidom.dom_raise IndexError
                 end;
     do item_node <- _meta_item_to_xml xml_doc (fst entry) (snd entry);
     do _ <- Minidom.appendChild xml_doc item_node;
     do _ <- _add_xmlns xmlns item_node;
     Minidom.toxml xml_doc "UTF-8") [].

(** [MetadataXMLSerializer.show] *)
Definition show (xmlns : string)
    (meta_item_dict : gmap string (gmap string string)) : result string :=
  meta ← getitem meta_item_dict "meta";
  _meta_item_to_xml_string xmlns meta.

(** [MetadataXMLSerializer.update] *)
Definition update (xmlns : string)
    (meta_item_dict : gmap string (gmap string string)) : result string :=
  meta ← getitem meta_item_dict "meta";
  _meta_item_to_xml_string xmlns meta.

End MetadataXMLSerializer.

(** ** Vocabulary of the further properties *)

(** A version as [get_version_from_href] returns it: a run of digits, a dot
    and one digit. *)
Definition one_minor_digit (version : string) : Prop :=
  exists d c,
    is_digits d = true /\ Py.isdigit c = true
    /\ version = d +:+ "." +:+ String c "".

(** Whether the text holds a slash, a ['v'] and a digit in a row: the only
    places where a version pattern can start to match. *)
Fixpoint version_starts (s : string) : bool :=
  match s with
  | EmptyString => false
  | String a s' =>
      (Ascii.eqb a "/"
       && match s' with
          | String b (String c _) => Ascii.eqb b "v" && Py.isdigit c
          | _ => false
          end)
      || version_starts s'
  end.

(** What the writer writes for one character, and for a string. *)
Definition escape_char (c : ascii) : string :=
  if Ascii.eqb c "&" then "&amp;"
  else if Ascii.eqb c "<" then "&lt;"
  else if Ascii.eqb c "034" then "&quot;"
  else if Ascii.eqb c ">" then "&gt;"
  else String c "".

Fixpoint escape (s : string) : string :=
  match s with
  | EmptyString => EmptyString
  | String c s' => escape_char c +:+ escape s'
  end.

(** The text of a [meta] element of a container, of a sequence of them, of
    the [metadata] element, and of the [meta] element of a single item. *)
Definition meta_xml (entry : string * string) : string :=
  "<meta key=" +:+ Minidom.quot +:+ escape (fst entry) +:+ Minidom.quot
  +:+ ">" +:+ escape (snd entry) +:+ "</meta>".

Fixpoint metas_xml (entries : list (string * string)) : string :=
  match entries with
  | [] => ""
  | entry :: rest => meta_xml entry +:+ metas_xml rest
  end.

Definition metadata_xml (xmlns : string) (entries : list (string * string))
    : string :=
  "<metadata xmlns=" +:+ Minidom.quot +:+ escape xmlns +:+ Minidom.quot
  +:+ match entries with
      | [] => "/>"
      | _ => ">" +:+ metas_xml entries +:+ "</metadata>"
      end.

Definition meta_item_xml (xmlns : string) (entry : string * string)
    : string :=
  "<meta key=" +:+ Minidom.quot +:+ escape (fst entry) +:+ Minidom.quot
  +:+ " xmlns=" +:+ Minidom.quot +:+ escape xmlns +:+ Minidom.quot
  +:+ ">" +:+ escape (snd entry) +:+ "</meta>".

(** The element that the parser returns for a [meta] element with the given
    attributes and text: an empty text leaves no text node. *)
Definition parsed_element (attrs : list (string * string)) (text : string)
    : Minidom.pnode :=
  Minidom.PElement "meta" attrs
    match text with
    | EmptyString => []
    | _ => [Minidom.PText text]
    end.

Definition parsed_meta (entry : string * string) : Minidom.pnode :=
  parsed_element [("key", fst entry)] (snd entry).

(** The 7-bit strings. *)
Definition is_ascii_string (s : string) : bool :=
  Py.all_chars Minidom.is_ascii s.

Definition is_ascii_entry (entry : string * string) : bool :=
  is_ascii_string (fst entry) && is_ascii_string (snd entry).

(** The parts of an [http] href: a network location holds no ['/'], ['?'],
    ['#'] and no bracket; a path holds no ['?'] and no ['#'] and, unless it
    is empty, starts with a slash; a query that is not empty follows a
    ['?']. *)
Definition host_char (c : ascii) : bool :=
  negb (Ascii.eqb c "/" || Ascii.eqb c "?" || Ascii.eqb c "#"
        || Ascii.eqb c "[" || Ascii.eqb c "]").

Definition path_char (c : ascii) : bool :=
  negb (Ascii.eqb c "?" || Ascii.eqb c "#").

Definition is_path (path : string) : Prop :=
  (path = "" \/ Urlparse.starts_with_slash path = true)
  /\ Py.all_chars path_char path = true.

Definition query_suffix (query : string) : string :=
  if Py.nonempty query then "?" +:+ query else "".
(** ** Properties of pagination *)

Section slices.
Context {A : Type}.
Implicit Types l : list A.

(** With a non-negative start and a non-negative width, a Python slice is
    [take] after [drop]: the window is clipped, never out of range. *)
Lemma slice_window l (i n : Z) :
  0 <= i -> 0 <= n ->
  Py.slice l i (i + n) = take (Z.to_nat n) (drop (Z.to_nat i) l).
Proof.
  intros Hi Hn. unfold Py.slice, Py.clip_index.
  assert (Hlo : (i <? 0) = false) by (apply Z.ltb_ge; lia).
  assert (Hhi : (i + n <? 0) = false) by (apply Z.ltb_ge; lia).
  rewrite Hlo, Hhi.
  destruct (Z_le_gt_dec (Z.of_nat (length l)) i) as [Hout | Hin].
  - rewrite !drop_ge by lia. by rewrite !take_nil.
  - replace (Z.min i (Z.of_nat (length l))) with i by lia.
    destruct (Z_le_gt_dec (i + n) (Z.of_nat (length l))) as [Hfit | Hover].
    + f_equal. lia.
    + rewrite !take_ge; [done | rewrite length_drop; lia ..].
Qed.

Lemma slice_prefix l (n : Z) :
  0 <= n -> Py.slice l 0 (0 + n) = take (Z.to_nat n) l.
Proof. intros Hn. by rewrite slice_window by lia. Qed.

Lemma window_length l (i n : Z) :
  0 <= i -> 0 <= n ->
  Z.of_nat (length (take (Z.to_nat n) (drop (Z.to_nat i) l)))
  = Z.min n (Z.max 0 (Z.of_nat (length l) - i)).
Proof. intros Hi Hn. rewrite length_take, length_drop. lia. Qed.
End slices.

Lemma try_except_ok {A} (m : result A) c h a :
  m = Ok a -> try_except m c h = Ok a.
Proof. by intros ->. Qed.

(** C2. [limited] with valid parameters never raises: the effective limit is
    [min max_limit (limit if limit != 0 else max_limit)], the window is
    [items[offset : offset + effective limit]] clipped to the list, and a
    limit of exactly 0 selects [items[offset : offset + max_limit]]. *)
Theorem limited_window {A} (items : list A) (GET : query_params)
    (max_limit offset limit : Z) :
  0 < max_limit ->
  get_int GET "offset" 0 = Ok offset -> 0 <= offset ->
  get_int GET "limit" max_limit = Ok limit -> 0 <= limit ->
  let effective := Z.min max_limit (if decide (limit = 0) then max_limit else limit) in
  let window := take (Z.to_nat effective) (drop (Z.to_nat offset) items) in
  limited items GET max_limit = Ok window
  /\ window = Py.slice items offset (offset + effective)
  /\ Z.of_nat (length window)
     = Z.min effective (Z.max 0 (Z.of_nat (length items) - offset))
  /\ (limit = 0 ->
      limited items GET max_limit
      = Ok (take (Z.to_nat max_limit) (drop (Z.to_nat offset) items))).
Proof.
  intros Hmax Hoff Hoff0 Hlim Hlim0 effective window.
  assert (Heff : 0 <= effective) by (unfold effective; case_decide; lia).
  assert (Hrun : limited items GET max_limit = Ok window).
  { unfold limited. rewrite (try_except_ok _ _ _ _ Hoff),
      (try_except_ok _ _ _ _ Hlim). simpl.
    replace (limit <? 0) with false by (symmetry; apply Z.ltb_ge; lia).
    replace (offset <? 0) with false by (symmetry; apply Z.ltb_ge; lia).
    f_equal. unfold window, effective.
    destruct (Z.eqb_spec limit 0); case_decide; try lia;
      apply slice_window; lia. }
  split; [done |]. split; [| split].
  - unfold window. symmetry. by apply slice_window.
  - by apply window_length.
  - intros ->. rewrite Hrun. unfold window, effective.
    rewrite decide_True by done. by rewrite Z.min_id.
Qed.

Lemma limited_window_witness :
  limited [10; 20; 30; 40; 50] {[ "offset" := "3"; "limit" := "0" ]} 4
  = Ok [40; 50].
Proof.
  destruct (limited_window [10; 20; 30; 40; 50]
    {[ "offset" := "3"; "limit" := "0" ]} 4 3 0) as [H _];
    [lia | reflexivity | lia | reflexivity | lia | exact H].
Defined.

(** *** The parameters seen by [limited_by_marker] *)

Lemma pagination_loop_absent param rest (GET : query_params) (params : gmap string Z) :
  GET !! param = None ->
  pagination_loop (param :: rest) GET params = pagination_loop rest GET params.
Proof. intros H. simpl. by rewrite H. Qed.

Lemma pagination_loop_valid param rest (GET : query_params) (params : gmap string Z)
    s (v : Z) :
  GET !! param = Some s -> Py.int s = Ok v -> 0 <= v ->
  pagination_loop (param :: rest) GET params
  = pagination_loop rest GET (<[param := v]> params).
Proof.
  intros H Hint Hv. simpl. rewrite H, Hint. simpl.
  by replace (v <? 0) with false by (symmetry; apply Z.ltb_ge; lia).
Qed.

Lemma pagination_loop_invalid param rest (GET : query_params)
    (params : gmap string Z) s :
  GET !! param = Some s ->
  (forall v, Py.int s = Ok v -> v < 0) ->
  exists e, pagination_loop (param :: rest) GET params = Raise e.
Proof.
  intros H Hbad. simpl. rewrite H.
  destruct (Py.int s) as [v|e]; simpl.
  - specialize (Hbad v eq_refl).
    replace (v <? 0) with true by (symmetry; apply Z.ltb_lt; lia). eauto.
  - destruct (is_ValueError e); eauto.
Qed.

Lemma get_int_limit_param (GET : query_params) (max_limit limit : Z)
    (params : gmap string Z) :
  get_int GET "limit" max_limit = Ok limit -> 0 <= limit ->
  params !! "limit" = None ->
  exists params',
    pagination_loop ["limit"] GET params = Ok params'
    /\ params' !! "marker" = params !! "marker"
    /\ default max_limit (params' !! "limit") = limit.
Proof.
  unfold get_int. intros Hlim Hpos Hfresh.
  destruct (GET !! "limit") as [s|] eqn:Hs.
  - rewrite (pagination_loop_valid _ _ _ _ _ _ Hs Hlim Hpos). simpl.
    eexists; split; [done |]. by simplify_map_eq.
  - rewrite (pagination_loop_absent _ _ _ _ Hs). simpl.
    eexists; split; [done |]. split; [done |]. rewrite Hfresh.
    by inversion Hlim.
Qed.

Lemma params_without_marker (GET : query_params) (max_limit limit : Z) :
  GET !! "marker" = None ->
  get_int GET "limit" max_limit = Ok limit -> 0 <= limit ->
  exists params,
    get_pagination_params GET = Ok params
    /\ params !! "marker" = None
    /\ default max_limit (params !! "limit") = limit.
Proof.
  intros Hm Hlim Hpos. unfold get_pagination_params.
  rewrite (pagination_loop_absent _ _ _ _ Hm).
  destruct (get_int_limit_param GET max_limit limit ∅ Hlim Hpos)
    as (p & -> & Hpm & Hpl); [done |].
  exists p. by rewrite Hpm, Hpl.
Qed.

Lemma params_with_marker (GET : query_params) (max_limit limit : Z) s (m : Z) :
  GET !! "marker" = Some s -> Py.int s = Ok m -> 0 <= m ->
  get_int GET "limit" max_limit = Ok limit -> 0 <= limit ->
  exists params,
    get_pagination_params GET = Ok params
    /\ params !! "marker" = Some m
    /\ default max_limit (params !! "limit") = limit.
Proof.
  intros Hm Hint Hm0 Hlim Hpos. unfold get_pagination_params.
  rewrite (pagination_loop_valid _ _ _ _ _ _ Hm Hint Hm0).
  destruct (get_int_limit_param GET max_limit limit (<["marker" := m]> ∅)
              Hlim Hpos) as (p & -> & Hpm & Hpl); [done |].
  exists p. rewrite Hpm, Hpl. by simplify_map_eq.
Qed.

(** What [limited_by_marker] does once the parameters are known. *)
Lemma limited_by_marker_params (items : list item) (GET : query_params)
    (max_limit : Z) (params : gmap string Z) :
  get_pagination_params GET = Ok params ->
  limited_by_marker items GET max_limit
  = (start_index ←
       (if truthy (params !! "marker") then
          start_index ← marker_scan items (default 0 (params !! "marker")) 0;
          if start_index <? 0
          then Raise (HTTPBadRequest
                 ("marker [" +:+ Py.str (default 0 (params !! "marker"))
                  +:+ "] not found"))
          else Ok start_index
        else Ok 0);
     Ok (Py.slice items start_index
           (start_index
            + Z.min max_limit (default max_limit (params !! "limit"))))).
Proof. intros H. unfold limited_by_marker. by rewrite H. Qed.

(** *** The scan for the marker *)

Lemma marker_scan_found (pre post : list item) (it : item) (marker i : Z) :
  Forall (other_id marker) pre -> it !! "id" = Some (PyInt marker) ->
  marker_scan (pre ++ it :: post) marker i
  = Ok (i + Z.of_nat (length pre) + 1).
Proof.
  intros Hpre Hit. revert i.
  induction Hpre as [| x pre (v & Hx & Hv) _ IH]; intros i; simpl.
  - unfold getitem. rewrite Hit. simpl. rewrite decide_True by done.
    f_equal. lia.
  - unfold getitem. rewrite Hx. simpl. rewrite decide_False by done.
    rewrite IH. f_equal. lia.
Qed.

Lemma marker_scan_missing (items : list item) (marker i : Z) :
  Forall (other_id marker) items -> marker_scan items marker i = Ok (-1).
Proof.
  intros Hall. revert i.
  induction Hall as [| x l (v & Hx & Hv) _ IH]; intros i; simpl; [done |].
  unfold getitem. rewrite Hx. simpl. by rewrite decide_False by done.
Qed.

(** Without a marker the window is a prefix of the list. *)
Lemma limited_by_marker_no_marker (items : list item) (GET : query_params)
    (max_limit limit : Z) :
  0 < max_limit ->
  get_int GET "limit" max_limit = Ok limit -> 0 <= limit ->
  GET !! "marker" = None ->
  limited_by_marker items GET max_limit
  = Ok (take (Z.to_nat (Z.min max_limit limit)) items).
Proof.
  intros Hmax Hlim Hpos Hm.
  destruct (params_without_marker _ _ _ Hm Hlim Hpos) as (p & Hp & Hpm & Hpl).
  rewrite (limited_by_marker_params _ _ _ _ Hp), Hpm, Hpl.
  cbn [truthy mbind result_bind]. f_equal.
  apply slice_prefix. lia.
Qed.

(** C3. In [limited_by_marker] the effective limit is [min max_limit limit],
    without the zero-means-maximum case of [limited]: every window it returns
    has at most that many items, without a marker it is the first
    [min max_limit limit] items, and with a limit of exactly 0 it is empty,
    where [limited] returns the first [max_limit] items. *)
Theorem limited_by_marker_limit (items : list item) (GET : query_params)
    (max_limit limit : Z) :
  0 < max_limit ->
  get_int GET "limit" max_limit = Ok limit -> 0 <= limit ->
  let effective := Z.min max_limit limit in
  (GET !! "marker" = None ->
     limited_by_marker items GET max_limit
     = Ok (take (Z.to_nat effective) items))
  /\ (forall window, limited_by_marker items GET max_limit = Ok window ->
        exists start : nat,
          window = take (Z.to_nat effective) (drop start items))
  /\ (limit = 0 ->
        (GET !! "marker" = None ->
           limited_by_marker items GET max_limit = Ok [])
        /\ (forall window,
              limited_by_marker items GET max_limit = Ok window ->
              window = [])
        /\ (GET !! "offset" = None ->
              limited items GET max_limit
              = Ok (take (Z.to_nat max_limit) items))).
Proof.
  intros Hmax Hlim Hpos effective.
  assert (Hnomarker : GET !! "marker" = None ->
            limited_by_marker items GET max_limit
            = Ok (take (Z.to_nat effective) items)).
  { intros Hm. by apply limited_by_marker_no_marker. }
  assert (Hwin : forall window,
            limited_by_marker items GET max_limit = Ok window ->
            exists start : nat,
              window = take (Z.to_nat effective) (drop start items)).
  { intros window Hrun.
    destruct (GET !! "marker") as [s|] eqn:Hm.
    - destruct (Py.int s) as [m|e] eqn:Hint.
      2: { destruct (pagination_loop_invalid "marker" ["limit"] GET ∅ s Hm)
             as [e' He']; [by rewrite Hint |].
           unfold limited_by_marker, get_pagination_params in Hrun.
           by rewrite He' in Hrun. }
      destruct (Z_lt_ge_dec m 0) as [Hneg | Hm0].
      { destruct (pagination_loop_invalid "marker" ["limit"] GET ∅ s Hm)
          as [e' He']; [rewrite Hint; intros v [= <-]; lia |].
        unfold limited_by_marker, get_pagination_params in Hrun.
        by rewrite He' in Hrun. }
      destruct (params_with_marker _ _ _ _ _ Hm Hint ltac:(lia) Hlim Hpos)
        as (p & Hp & Hpm & Hpl).
      rewrite (limited_by_marker_params _ _ _ _ Hp), Hpm, Hpl in Hrun.
      fold effective in Hrun. cbn [truthy default from_option id] in Hrun.
      destruct (negb (m =? 0)).
      + destruct (marker_scan items m 0) as [start|e]; [| done].
        cbn [mbind result_bind] in Hrun.
        destruct (Z.ltb_spec start 0) as [Hs | Hs]; [done |].
        inversion Hrun as [Hw].
        exists (Z.to_nat start).
        apply slice_window; unfold effective; lia.
      + cbn [mbind result_bind] in Hrun. inversion Hrun as [Hw]. exists 0%nat.
        apply slice_prefix. unfold effective; lia.
    - rewrite (Hnomarker eq_refl) in Hrun. inversion Hrun. by exists 0%nat. }
  split; [done |]. split; [done |].
  intros ->. replace effective with 0 in * by (unfold effective; lia).
  split; [| split].
  - intros Hm. by rewrite (Hnomarker Hm).
  - intros window Hrun. by destruct (Hwin window Hrun) as [start ->].
  - intros Hoff.
    assert (Hoff' : get_int GET "offset" 0 = Ok 0)
      by (unfold get_int; by rewrite Hoff).
    unfold limited. rewrite Hoff', Hlim.
    cbn [try_except mbind result_bind]. rewrite Z.min_id.
    change (0 <? 0) with false. change (0 =? 0) with true. cbv iota.
    f_equal. apply slice_prefix. lia.
Qed.

Lemma limited_by_marker_limit_witness :
  limited_by_marker [with_id 1; with_id 2] {[ "limit" := "0" ]} 50 = Ok []
  /\ limited [with_id 1; with_id 2] {[ "limit" := "0" ]} 50
     = Ok [with_id 1; with_id 2].
Proof.
  destruct (limited_by_marker_limit [with_id 1; with_id 2]
    {[ "limit" := "0" ]} 50 0) as (_ & _ & H);
    [lia | reflexivity | lia |].
  destruct (H eq_refl) as (Hempty & _ & Hlimited).
  split; [apply Hempty | apply Hlimited]; reflexivity.
Defined.

(** A marker of value 0 is not searched for: no item has id 0, the marker
    parameter is present, and the call returns the first items instead of
    raising "marker [0] not found". *)
Lemma limited_by_marker_zero_marker_not_searched :
  let items := [with_id 5; with_id 7] in
  let GET : query_params := {[ "marker" := "0" ]} in
  GET !! "marker" = Some "0"
  /\ Py.int "0" = Ok 0
  /\ Forall (other_id 0) items
  /\ limited_by_marker items GET 50 = Ok items
  /\ limited_by_marker items GET 50
     <> Raise (HTTPBadRequest ("marker [" +:+ Py.str 0 +:+ "] not found")).
Proof.
  cbv zeta. split; [reflexivity |]. split; [reflexivity |].
  split; [| split; [reflexivity | discriminate]].
  repeat constructor; eexists; (split; [reflexivity | discriminate]).
Qed.

(** C4 (amended). With a marker parameter of positive value [m] and a valid
    limit: when the first item whose id equals [m] is followed by [post], the
    window is the first [min max_limit limit] items of [post] (so it is
    empty, without an error, when that item is the last one); when every item
    has an id different from [m], the call raises
    [HTTPBadRequest "marker [m] not found"]. *)
Theorem limited_by_marker_positive_marker (items : list item) (GET : query_params)
    (max_limit limit : Z) (s : string) (m : Z) :
  0 < max_limit ->
  GET !! "marker" = Some s -> Py.int s = Ok m -> 0 < m ->
  get_int GET "limit" max_limit = Ok limit -> 0 <= limit ->
  (forall (pre : list item) it post,
     items = (pre ++ it :: post)%list ->
     Forall (other_id m) pre -> it !! "id" = Some (PyInt m) ->
     limited_by_marker items GET max_limit
     = Ok (take (Z.to_nat (Z.min max_limit limit)) post))
  /\ (forall (pre : list item) it,
        items = (pre ++ [it])%list ->
        Forall (other_id m) pre -> it !! "id" = Some (PyInt m) ->
        limited_by_marker items GET max_limit = Ok [])
  /\ (Forall (other_id m) items ->
        limited_by_marker items GET max_limit
        = Raise (HTTPBadRequest ("marker [" +:+ Py.str m +:+ "] not found"))).
Proof.
  intros Hmax Hm Hint Hm0 Hlim Hpos.
  destruct (params_with_marker _ _ _ _ _ Hm Hint ltac:(lia) Hlim Hpos)
    as (p & Hp & Hpm & Hpl).
  assert (Hfound : forall (pre : list item) it post,
     items = (pre ++ it :: post)%list ->
     Forall (other_id m) pre -> it !! "id" = Some (PyInt m) ->
     limited_by_marker items GET max_limit
     = Ok (take (Z.to_nat (Z.min max_limit limit)) post)).
  { intros pre it post -> Hpre Hit.
    rewrite (limited_by_marker_params _ _ _ _ Hp), Hpm, Hpl.
    cbn [truthy default from_option id].
    replace (m =? 0) with false by (symmetry; apply Z.eqb_neq; lia).
    cbn [negb]. rewrite (marker_scan_found _ _ _ _ _ Hpre Hit).
    cbn [mbind result_bind].
    replace (0 + Z.of_nat (length pre) + 1 <? 0) with false
      by (symmetry; apply Z.ltb_ge; lia).
    cbn [mbind result_bind].
    f_equal. rewrite slice_window by lia. f_equal.
    replace (Z.to_nat (0 + Z.of_nat (length pre) + 1))
      with (S (length pre)) by lia.
    rewrite cons_middle, app_assoc. apply drop_app_length'.
    rewrite length_app. simpl. lia. }
  split; [done |]. split.
  - intros pre it -> Hpre Hit.
    rewrite (Hfound pre it [] eq_refl Hpre Hit). by rewrite take_nil.
  - intros Hall.
    rewrite (limited_by_marker_params _ _ _ _ Hp), Hpm, Hpl.
    cbn [truthy default from_option id].
    replace (m =? 0) with false by (symmetry; apply Z.eqb_neq; lia).
    cbn [negb]. by rewrite (marker_scan_missing _ _ _ Hall).
Qed.

Lemma limited_by_marker_positive_marker_witness :
  limited_by_marker [with_id 3; with_id 8; with_id 3; with_id 4]
    {[ "marker" := "3"; "limit" := "2" ]} 50
  = Ok [with_id 8; with_id 3]
  /\ limited_by_marker [with_id 3; with_id 8]
       {[ "marker" := "9"; "limit" := "2" ]} 50
     = Raise (HTTPBadRequest "marker [9] not found").
Proof.
  split.
  - destruct (limited_by_marker_positive_marker
      [with_id 3; with_id 8; with_id 3; with_id 4]
      {[ "marker" := "3"; "limit" := "2" ]} 50 2 "3" 3) as (H & _ & _);
      [lia | reflexivity | reflexivity | lia | reflexivity | lia |].
    apply (H [] (with_id 3) [with_id 8; with_id 3; with_id 4]);
      [reflexivity | constructor | reflexivity].
  - destruct (limited_by_marker_positive_marker [with_id 3; with_id 8]
      {[ "marker" := "9"; "limit" := "2" ]} 50 2 "9" 9) as (_ & _ & H);
      [lia | reflexivity | reflexivity | lia | reflexivity | lia |].
    apply H.
    repeat constructor; eexists; (split; [reflexivity | discriminate]).
Defined.

(** C10. A marker parameter whose integer value is 0 is treated as absent:
    [limited_by_marker] returns what it returns without that parameter, the
    only errors it can raise are those of the limit parameter (never "marker
    not found"), and with a valid limit the window starts at index 0. *)
Theorem limited_by_marker_zero_marker (items : list item) (GET : query_params)
    (max_limit : Z) (s : string) :
  GET !! "marker" = Some s -> Py.int s = Ok 0 ->
  limited_by_marker items GET max_limit
  = limited_by_marker items (delete "marker" GET) max_limit
  /\ (forall e, limited_by_marker items GET max_limit = Raise e ->
        e = HTTPBadRequest "limit param must be an integer"
        \/ e = HTTPBadRequest "limit param must be positive")
  /\ (forall limit,
        0 < max_limit ->
        get_int GET "limit" max_limit = Ok limit -> 0 <= limit ->
        limited_by_marker items GET max_limit
        = Ok (take (Z.to_nat (Z.min max_limit limit)) items)).
Proof.
  intros Hm Hint.
  assert (Hdel : delete "marker" GET !! "marker" = None)
    by apply lookup_delete_eq.
  assert (Hlimit : delete "marker" GET !! "limit" = GET !! "limit")
    by (by apply lookup_delete_ne).
  assert (Hsame : limited_by_marker items GET max_limit
                  = limited_by_marker items (delete "marker" GET) max_limit).
  { unfold limited_by_marker, get_pagination_params.
    rewrite (pagination_loop_valid _ _ _ _ _ _ Hm Hint ltac:(lia)).
    rewrite (pagination_loop_absent _ _ _ _ Hdel).
    cbn [pagination_loop]. rewrite Hlimit.
    destruct (GET !! "limit") as [l|]; [| by simplify_map_eq].
    destruct (Py.int l) as [v|e]; cbn [try_except mbind result_bind];
      [| by destruct (is_ValueError e)].
    destruct (v <? 0); [done |]. by simplify_map_eq. }
  assert (Hstart : forall limit,
            0 < max_limit ->
            get_int (delete "marker" GET) "limit" max_limit = Ok limit ->
            0 <= limit ->
            limited_by_marker items (delete "marker" GET) max_limit
            = Ok (take (Z.to_nat (Z.min max_limit limit)) items)).
  { intros limit Hmax Hlim Hpos.
    by apply limited_by_marker_no_marker. }
  split; [done |]. split.
  - intros e. rewrite Hsame.
    unfold limited_by_marker, get_pagination_params.
    rewrite (pagination_loop_absent _ _ _ _ Hdel).
    cbn [pagination_loop]. rewrite Hlimit.
    destruct (GET !! "limit") as [l|]; [| by simplify_map_eq].
    destruct (Py.int l) as [v|e'] eqn:Hl;
      cbn [try_except mbind result_bind].
    + destruct (v <? 0); [intros [= <-]; by right |].
      by simplify_map_eq.
    + unfold Py.int in Hl.
      destruct (match Py.strip l with
                | String "-"%char d => Z.opp <$> Py.unsigned_value d
                | String "+"%char d => Py.unsigned_value d
                | _ => Py.unsigned_value (Py.strip l)
                end); [done |].
      injection Hl as <-. cbn [is_ValueError mbind result_bind].
      intros [= <-]. by left.
  - intros limit Hmax Hlim Hpos. rewrite Hsame. apply Hstart; [done | | done].
    unfold get_int in *. by rewrite Hlimit.
Qed.

Lemma limited_by_marker_zero_marker_witness :
  limited_by_marker [with_id 5; with_id 7] {[ "marker" := "0" ]} 50
  = limited_by_marker [with_id 5; with_id 7] ∅ 50.
Proof.
  destruct (limited_by_marker_zero_marker [with_id 5; with_id 7]
    {[ "marker" := "0" ]} 50 "0") as (H & _ & _);
    [reflexivity | reflexivity |].
  exact H.
Defined.

(** ** Properties of the status mapping *)

Lemma power_states_loop_skips_None entries status :
  None ∉ power_states_loop entries status.
Proof.
  induction entries as [| [[p|] sm] rest IH]; simpl.
  - apply not_elem_of_nil.
  - case_decide; [| done]. by apply not_elem_of_cons.
  - done.
Qed.

Lemma power_states_loop_matches entries status p :
  p ∈ power_states_loop entries status ->
  exists status_map,
    (p, status_map) ∈ entries /\ Py.lower status = Py.lower status_map.
Proof.
  induction entries as [| [[q|] sm] rest IH]; simpl.
  - by intros ?%elem_of_nil.
  - case_decide as Hlow.
    + intros [-> | Hin]%elem_of_cons.
      * exists sm. split; [apply elem_of_cons; by left | done].
      * destruct (IH Hin) as (sm' & ? & ?). exists sm'.
        split; [apply elem_of_cons; by right | done].
    + intros Hin. destruct (IH Hin) as (sm' & ? & ?). exists sm'.
      split; [apply elem_of_cons; by right | done].
  - intros Hin. destruct (IH Hin) as (sm' & ? & ?). exists sm'.
    split; [apply elem_of_cons; by right | done].
Qed.

(** C9. For a status string [s] of the closed set, every power state that
    [power_states_from_status s] returns maps back to [s] under
    [status_from_power_state], and [None] is not among them, although
    [status_from_power_state None] is ["BUILD"]. *)
Theorem power_states_from_status_sound (s : string) :
  s ∈ status_strings ->
  (forall p, p ∈ power_states_from_status s ->
             status_from_power_state p = Ok s)
  /\ (None ∉ power_states_from_status s)
  /\ status_from_power_state None = Ok "BUILD".
Proof.
  intros Hs. split; [| split].
  - intros p Hp.
    apply power_states_loop_matches in Hp as (sm & Hentry & Hlow).
    unfold status_strings in Hs.
    repeat (apply elem_of_cons in Hs as [-> | Hs]);
      try (by apply elem_of_nil in Hs);
      unfold _STATUS_MAP in Hentry;
      repeat (apply elem_of_cons in Hentry as [[= -> ->] | Hentry]);
      try (by apply elem_of_nil in Hentry);
      first [ reflexivity | by vm_compute in Hlow ].
  - apply power_states_loop_skips_None.
  - reflexivity.
Qed.

Lemma power_states_from_status_sound_witness :
  status_from_power_state (Some CRASHED) = Ok "ERROR".
Proof.
  destruct (power_states_from_status_sound "ERROR") as (H & _ & _).
  - unfold status_strings. repeat first [ by left | right ].
  - apply H. change (Some CRASHED ∈ [Some CRASHED; Some FAILED]). left.
Defined.

(** ** Strings *)

Lemma append_cons (c : ascii) (s t : string) :
  String c s +:+ t = String c (s +:+ t).
Proof. reflexivity. Qed.

Lemma append_nil_l (s : string) : "" +:+ s = s.
Proof. reflexivity. Qed.

(** Push [+:+] under the characters of a literal prefix. *)
Ltac push_append := rewrite ?append_cons, ?append_nil_l.

Lemma append_nil_r (s : string) : s +:+ "" = s.
Proof.
  induction s as [| c s IH]; [done |]. by rewrite append_cons, IH.
Qed.

Lemma append_assoc (a b c : string) : (a +:+ b) +:+ c = a +:+ (b +:+ c).
Proof.
  induction a as [| x a IH]; [done |]. by rewrite !append_cons, IH.
Qed.

Lemma length_append (a b : string) :
  String.length (a +:+ b) = (String.length a + String.length b)%nat.
Proof.
  induction a as [| x a IH]; [done |]. rewrite append_cons. simpl.
  by rewrite IH.
Qed.

Lemma substring_prefix (a b : string) :
  substring 0 (String.length a) (a +:+ b) = a.
Proof.
  induction a as [| x a IH]; [by destruct b |].
  rewrite append_cons. simpl. by rewrite IH.
Qed.

Lemma consumed_append (a b : string) : Re.consumed (a +:+ b) b = a.
Proof.
  unfold Re.consumed. rewrite length_append.
  replace (String.length a + String.length b - String.length b)%nat
    with (String.length a) by lia.
  apply substring_prefix.
Qed.

Lemma int_raises_ValueError (s : string) (e : exn) :
  Py.int s = Raise e -> is_ValueError e = true.
Proof.
  unfold Py.int.
  destruct (match Py.strip s with
            | String "-"%char d => Z.opp <$> Py.unsigned_value d
            | String "+"%char d => Py.unsigned_value d
            | _ => Py.unsigned_value (Py.strip s)
            end); [done |].
  by intros [= <-].
Qed.

(** ** Properties of the href helpers *)

Lemma split_shape (s : string) :
  exists (init : list string) (segment : string),
    Py.split "/" s = (init ++ [segment])%list
    /\ Py.contains "/" segment = false
    /\ (init = [] -> s = segment)
    /\ (init <> [] -> exists before, s = before +:+ "/" +:+ segment).
Proof.
  induction s as [| c s (init & seg & Hsplit & Hfree & Hwhole & Hcut)];
    simpl.
  - exists [], "". by repeat split.
  - destruct (Ascii.eqb_spec c "/") as [-> | Hc].
    + exists ("" :: init), seg. rewrite Hsplit.
      split; [done |]. split; [done |]. split; [done |]. intros _.
      destruct init as [| w init].
      * exists "". by rewrite (Hwhole eq_refl).
      * destruct Hcut as [before ->]; [done |]. by exists (String "/" before).
    + rewrite Hsplit. destruct init as [| w init]; simpl.
      * exists [], (String c seg). split; [done |]. split.
        -- simpl. rewrite Hfree. by destruct (Ascii.eqb_spec c "/").
        -- split; [| done]. intros _. by rewrite (Hwhole eq_refl).
      * exists (String c w :: init), seg.
        split; [done |]. split; [done |]. split; [done |]. intros _.
        destruct Hcut as [before ->]; [done |]. by exists (String c before).
Qed.

Lemma last_split (s : string) :
  exists segment,
    Py.last_item (Py.split "/" s) = Ok segment /\ is_last_segment s segment.
Proof.
  destruct (split_shape s) as (init & seg & Hsplit & Hfree & Hwhole & Hcut).
  exists seg. unfold Py.last_item. rewrite Hsplit, last_snoc.
  split; [done |]. split; [done |].
  destruct init; [left; by apply Hwhole | right; by apply Hcut].
Qed.

(** The href ends with a slash: the last segment of its path is empty and
    the call raises, although the last non-empty segment, ["123"], is an
    integer. *)
Lemma get_id_from_href_trailing_slash :
  let href := "http://host/bar/123/" in
  Py.int href = Raise (ValueError (Py.invalid_literal href))
  /\ Urlparse.urlsplit href
     = Ok (Urlparse.mkSplitResult "http" "host" "/bar/123/" "" "")
  /\ spec_last_nonempty_segment "/bar/123/" = Some "123"
  /\ Py.int "123" = Ok 123
  /\ get_id_from_href href = Raise (ValueError (Py.invalid_literal "")).
Proof. cbv zeta. repeat split; reflexivity. Qed.

(** C6 (amended). An href that [int] accepts is returned as that integer;
    otherwise the href is split as a URL and the result is [int] of the last
    segment of its path, the text after the last ['/'], which may be empty;
    when neither parse succeeds the call raises. *)
Theorem get_id_from_href_last_segment (href : string) :
  (forall n, Py.int href = Ok n -> get_id_from_href href = Ok n)
  /\ (forall e, Py.int href = Raise e ->
        match Urlparse.urlsplit href with
        | Ok parsed =>
            exists segment,
              is_last_segment (Urlparse.path parsed) segment
              /\ get_id_from_href href = Py.int segment
        | Raise e' => get_id_from_href href = Raise e'
        end)
  /\ (forall n, get_id_from_href href = Ok n ->
        Py.int href = Ok n
        \/ exists parsed segment,
             Urlparse.urlsplit href = Ok parsed
             /\ is_last_segment (Urlparse.path parsed) segment
             /\ Py.int segment = Ok n).
Proof.
  assert (Hsecond : forall e, Py.int href = Raise e ->
        match Urlparse.urlsplit href with
        | Ok parsed =>
            exists segment,
              is_last_segment (Urlparse.path parsed) segment
              /\ get_id_from_href href = Py.int segment
        | Raise e' => get_id_from_href href = Raise e'
        end).
  { intros e He. unfold get_id_from_href. rewrite He.
    cbn [try_except]. rewrite (int_raises_ValueError _ _ He).
    destruct (Urlparse.urlsplit href) as [parsed | e'];
      cbn [mbind result_bind try_except].
    - destruct (last_split (Urlparse.path parsed)) as (seg & -> & Hseg).
      exists seg. split; [done |]. cbn [mbind result_bind].
      destruct (Py.int seg) as [n | e''] eqn:Hint; [done |].
      cbn [try_except]. by rewrite (int_raises_ValueError _ _ Hint).
    - by destruct (is_ValueError e'). }
  split; [| split; [done |]].
  - intros n Hn. unfold get_id_from_href. by rewrite Hn.
  - intros n Hrun. destruct (Py.int href) as [k | e] eqn:Hint.
    + left. unfold get_id_from_href in Hrun. rewrite Hint in Hrun.
      by injection Hrun as ->.
    + right. specialize (Hsecond e eq_refl).
      destruct (Urlparse.urlsplit href) as [parsed | e'];
        [| congruence].
      destruct Hsecond as (seg & Hseg & Heq). exists parsed, seg.
      split; [done |]. split; [done |]. congruence.
Qed.

Lemma get_id_from_href_last_segment_witness :
  get_id_from_href "123" = Ok 123
  /\ exists segment,
       is_last_segment "/bar/123" segment
       /\ get_id_from_href "http://www.foo.com/bar/123?q=4" = Py.int segment.
Proof.
  split.
  - apply (get_id_from_href_last_segment "123"). reflexivity.
  - destruct (get_id_from_href_last_segment "http://www.foo.com/bar/123?q=4")
      as (_ & H & _).
    exact (H _ eq_refl).
Defined.

(** *** The matcher on [version_prefix_re] *)

Lemma many_inv {R} (p : ascii -> bool) (s : string)
    (k : string -> option R) (r : R) :
  Re.many p s k = Some r ->
  exists d rest,
    s = d +:+ rest /\ Py.all_chars p d = true /\ k rest = Some r.
Proof.
  induction s as [| c s IH]; simpl.
  - intros Hk. by exists "", "".
  - destruct (p c) eqn:Hc; [| intros Hk; by exists "", (String c s)].
    destruct (Re.many p s k) as [r' |] eqn:Hmany.
    + intros [= ->]. destruct (IH eq_refl) as (d & rest & -> & Hd & Hk).
      exists (String c d), rest. split; [done |]. simpl. by rewrite Hc.
    + intros Hk. by exists "", (String c s).
Qed.

Lemma many_greedy {R} (p : ascii -> bool) (d rest : string)
    (k : string -> option R) (r : R) :
  Py.all_chars p d = true -> stops p rest -> k rest = Some r ->
  Re.many p (d +:+ rest) k = Some r.
Proof.
  intros Hd Hstop Hk. induction d as [| c d IH].
  - rewrite append_nil_l. destruct rest as [| c rest]; [done |].
    simpl in *. by rewrite Hstop.
  - simpl in Hd. apply andb_prop in Hd as [Hc Hd].
    rewrite append_cons. simpl. by rewrite Hc, (IH Hd).
Qed.

Lemma is_digits_cons (d : string) :
  is_digits d = true ->
  exists c d', d = String c d' /\ Py.isdigit c = true
               /\ Py.all_chars Py.isdigit d' = true.
Proof.
  destruct d as [| c d']; [done |]. unfold is_digits. simpl.
  intros [Hc Hd]%andb_prop. by exists c, d'.
Qed.

Lemma version_core_match (r : Re.regex) (bos : bool) (g d1 d2 tail : string)
    (k : Re.mstate -> option Re.mstate) (res : Re.mstate) :
  is_digits d1 = true -> is_digits d2 = true -> stops Py.isdigit tail ->
  Re.rmatch r (Re.mkState false tail g) k = Some res ->
  Re.rmatch (version_core r)
    (Re.mkState bos ("/v" +:+ d1 +:+ "." +:+ d2 +:+ tail) g) k = Some res.
Proof.
  intros (c1 & d1' & -> & Hc1 & Hd1)%is_digits_cons
         (c2 & d2' & -> & Hc2 & Hd2)%is_digits_cons Hstop Hr.
  unfold version_core, Re.Lit. push_append.
  cbn [Re.rmatch Re.input Re.group1 Ascii.eqb Bool.eqb]. rewrite Hc1.
  apply many_greedy; [done | done |].
  cbn [Re.rmatch Re.input Re.group1 Ascii.eqb Bool.eqb]. rewrite Hc2.
  by apply many_greedy.
Qed.

Lemma version_core_inv (r : Re.regex) (bos : bool) (g s : string)
    (k : Re.mstate -> option Re.mstate) (res : Re.mstate) :
  Re.rmatch (version_core r) (Re.mkState bos s g) k = Some res ->
  exists d1 d2 tail,
    is_digits d1 = true /\ is_digits d2 = true
    /\ s = "/v" +:+ d1 +:+ "." +:+ d2 +:+ tail
    /\ Re.rmatch r (Re.mkState false tail g) k = Some res.
Proof.
  unfold version_core, Re.Lit. cbn [Re.rmatch Re.input Re.group1].
  destruct s as [| a s]; [done |].
  destruct (Ascii.eqb_spec "/" a) as [<- | _]; [| done].
  destruct s as [| a s]; [done |].
  destruct (Ascii.eqb_spec "v" a) as [<- | _]; [| done].
  destruct s as [| c1 s]; [done |].
  destruct (Py.isdigit c1) eqn:Hc1; [| done].
  intros (d1 & rest & -> & Hd1 & Hk)%many_inv.
  cbn [Re.rmatch Re.input Re.group1] in Hk.
  destruct rest as [| a rest]; [done |].
  destruct (Ascii.eqb_spec "." a) as [<- | _]; [| done].
  destruct rest as [| c2 rest]; [done |].
  destruct (Py.isdigit c2) eqn:Hc2; [| done].
  apply many_inv in Hk as (d2 & tail & -> & Hd2 & Hk).
  exists (String c1 d1), (String c2 d2), tail.
  unfold is_digits. simpl. rewrite Hc1, Hd1, Hc2, Hd2.
  split; [done |]. split; [done |]. split; [| done]. by push_append.
Qed.

Lemma version_end_stops (tail : string) :
  version_end tail -> stops Py.isdigit tail.
Proof. by intros [-> | [-> | [t ->]]]. Qed.

Lemma version_end_match (tail g : string) (bos : bool) :
  version_end tail ->
  exists st,
    Re.rmatch (Re.Group (Re.Alt (Re.Lit "/") Re.Eol))
      (Re.mkState bos tail g) Some = Some st
    /\ Re.group1 st +:+ Re.input st = tail.
Proof.
  intros [-> | [-> | [t ->]]]; unfold Re.Lit.
  - eexists. split; [reflexivity | done].
  - eexists. split; [reflexivity | done].
  - push_append. cbn [Re.rmatch Re.input Re.group1 Re.at_start].
    change (Ascii.eqb "/" "/") with true. cbv iota.
    eexists. split; [reflexivity |].
    cbn [Re.group1 Re.input].
    change (String "/" t) with ("/" +:+ t). by rewrite consumed_append.
Qed.

Lemma version_end_inv (tail g : string) (bos : bool) (st : Re.mstate) :
  Re.rmatch (Re.Group (Re.Alt (Re.Lit "/") Re.Eol))
    (Re.mkState bos tail g) Some = Some st ->
  version_end tail.
Proof.
  unfold Re.Lit. cbn [Re.rmatch Re.input Re.group1 Re.at_start].
  destruct tail as [| c t]; [by left |].
  destruct (Ascii.eqb_spec "/" c) as [<- | Hc].
  - intros _. right. right. by exists t.
  - unfold Re.at_end.
    destruct (Ascii.eqb_spec c "010") as [-> | Hnl].
    + destruct t; [| done]. intros _. right. by left.
    + intros H. exfalso.
      by destruct c as [[] [] [] [] [] [] [] []].
Qed.

Lemma version_prefix_re_core :
  version_prefix_re
  = Re.Cat Re.Bol (version_core (Re.Group (Re.Alt (Re.Lit "/") Re.Eol))).
Proof. reflexivity. Qed.

Lemma match_at_version_prefix (p tail : string) :
  leading_version p tail ->
  exists m,
    Re.match_at version_prefix_re true p = Some m
    /\ Re.group_1 m +:+ Re.after m = tail.
Proof.
  intros [(d1 & d2 & Hd1 & Hd2 & ->) Hend].
  destruct (version_end_match tail "" false Hend) as (st & Hst & Htail).
  unfold Re.match_at. rewrite version_prefix_re_core.
  cbn [Re.rmatch Re.at_start].
  rewrite (version_core_match _ _ _ _ _ _ _ _ Hd1 Hd2
             (version_end_stops _ Hend) Hst).
  by eexists.
Qed.

Lemma match_at_version_prefix_inv (p : string) (bos : bool) (m : Re.rmatched) :
  Re.match_at version_prefix_re bos p = Some m ->
  bos = true /\ exists tail, leading_version p tail.
Proof.
  unfold Re.match_at. rewrite version_prefix_re_core.
  cbn [Re.rmatch Re.at_start]. destruct bos; [| done].
  destruct (Re.rmatch _ _ _) as [st |] eqn:Hst; [| done]. intros _.
  apply version_core_inv in Hst as (d1 & d2 & tail & Hd1 & Hd2 & -> & Hend).
  apply version_end_inv in Hend. split; [done |].
  exists tail. split; [| done]. by exists d1, d2.
Qed.

Lemma search_unfold (r : Re.regex) (bos : bool) (s : string) :
  Re.search r bos s
  = match Re.match_at r bos s with
    | Some m => Some ("", m)
    | None =>
        match s with
        | String c s' =>
            match Re.search r false s' with
            | Some (skipped, m) => Some (String c skipped, m)
            | None => None
            end
        | EmptyString => None
        end
    end.
Proof. by destruct s. Qed.

Lemma search_version_prefix_later (s : string) :
  Re.search version_prefix_re false s = None.
Proof.
  induction s as [| c s IH]; rewrite search_unfold.
  - destruct (Re.match_at version_prefix_re false "") as [m |] eqn:Hm;
      [| done].
    by apply match_at_version_prefix_inv in Hm as [? _].
  - destruct (Re.match_at version_prefix_re false (String c s)) as [m |] eqn:Hm.
    + by apply match_at_version_prefix_inv in Hm as [? _].
    + by rewrite IH.
Qed.

Lemma sub_version_prefix (p tail : string) :
  leading_version p tail -> Re.sub_group1_once version_prefix_re p = tail.
Proof.
  intros (m & Hm & Htail)%match_at_version_prefix.
  unfold Re.sub_group1_once. by rewrite search_unfold, Hm.
Qed.

Lemma sub_version_prefix_none (p : string) :
  (forall tail, ~ leading_version p tail) ->
  Re.sub_group1_once version_prefix_re p = p.
Proof.
  intros Hnone. unfold Re.sub_group1_once.
  assert (Hm : Re.match_at version_prefix_re true p = None).
  { destruct (Re.match_at version_prefix_re true p) as [m |] eqn:Hm; [| done].
    apply match_at_version_prefix_inv in Hm as [_ [tail Htail]].
    by destruct (Hnone tail). }
  rewrite search_unfold, Hm. destruct p; [done |].
  by rewrite search_version_prefix_later.
Qed.

Lemma version_then_shorter (p tail : string) :
  version_then p tail -> tail <> p.
Proof.
  intros (d1 & d2 & _ & _ & ->) Heq.
  apply (f_equal String.length) in Heq.
  rewrite !length_append in Heq. simpl in Heq. lia.
Qed.

(** Two ways of cutting a string after a run of class [p] agree when both
    remainders stop the run. *)
Lemma run_unique (p : ascii -> bool) (d d' rest rest' : string) :
  Py.all_chars p d = true -> Py.all_chars p d' = true ->
  stops p rest -> stops p rest' ->
  d +:+ rest = d' +:+ rest' -> d = d' /\ rest = rest'.
Proof.
  revert d'. induction d as [| c d IH]; intros [| c' d'] Hd Hd' Hs Hs' Heq.
  - done.
  - exfalso. rewrite append_nil_l, append_cons in Heq. subst rest.
    simpl in Hs, Hd'. by rewrite Hs in Hd'.
  - exfalso. rewrite append_nil_l, append_cons in Heq. subst rest'.
    simpl in Hs', Hd. by rewrite Hs' in Hd.
  - rewrite !append_cons in Heq. injection Heq as <- Heq.
    simpl in Hd, Hd'. apply andb_prop in Hd as [_ Hd], Hd' as [_ Hd'].
    destruct (IH d' Hd Hd' Hs Hs' Heq) as [-> ->]. done.
Qed.

Lemma is_digits_all (d : string) :
  is_digits d = true -> Py.all_chars Py.isdigit d = true.
Proof. by intros [_ ?]%andb_prop. Qed.

Lemma version_then_unique (p tail tail' : string) :
  version_then p tail -> version_then p tail' ->
  stops Py.isdigit tail -> stops Py.isdigit tail' -> tail = tail'.
Proof.
  intros (d1 & d2 & Hd1 & Hd2 & ->) (e1 & e2 & He1 & He2 & Heq) Hs Hs'.
  apply is_digits_all in Hd1, Hd2, He1, He2.
  revert Heq. push_append. intros [= Heq].
  apply (run_unique Py.isdigit) in Heq as [-> Heq]; [| done ..].
  revert Heq. push_append. intros [= Heq].
  by apply (run_unique Py.isdigit) in Heq as [_ ->].
Qed.

Lemma leading_version_dec (p : string) :
  (exists tail, leading_version p tail)
  \/ (forall tail, ~ leading_version p tail).
Proof.
  destruct (Re.match_at version_prefix_re true p) as [m |] eqn:Hm.
  - left. by apply match_at_version_prefix_inv in Hm as [_ ?].
  - right. intros tail (m & Hm' & _)%match_at_version_prefix. congruence.
Qed.

(** The path ends with a newline after the version: the version segment is
    followed neither by ['/'] nor by the end of the path, and the call
    returns instead of raising. *)
Lemma remove_version_from_href_final_newline :
  let href := "http://host/v1.1" +:+ String "010" "" in
  Urlparse.urlsplit href
  = Ok (Urlparse.mkSplitResult "http" "host"
          ("/v1.1" +:+ String "010" "") "" "")
  /\ (forall tail,
        ~ spec_leading_version ("/v1.1" +:+ String "010" "") tail)
  /\ remove_version_from_href href = Ok ("http://host/" +:+ String "010" "").
Proof.
  cbv zeta. split; [reflexivity |]. split; [| reflexivity].
  intros tail [Hthen Hend].
  assert (Hnl : version_then ("/v1.1" +:+ String "010" "") (String "010" ""))
    by (by exists "1", "1").
  assert (Hstop : stops Py.isdigit tail)
    by (destruct Hend as [-> | [t ->]]; done).
  assert (Hstop' : stops Py.isdigit (String "010" "")) by reflexivity.
  pose proof (version_then_unique _ _ _ Hthen Hnl Hstop Hstop') as ->.
  by destruct Hend as [? | [t ?]].
Qed.

(** C7 (amended). [remove_version_from_href] removes a leading path segment
    [/v<digits>.<digits>] that is followed by ['/'], by the end of the path
    or by a newline that ends the path: the result is the URL put together
    again from the same scheme, network location, query and fragment and the
    rest of the path. It raises [ValueError] exactly when the path has no
    such leading segment. *)
Theorem remove_version_from_href_leading_version (href : string)
    (parsed : Urlparse.SplitResult) :
  Urlparse.urlsplit href = Ok parsed ->
  (forall tail,
     leading_version (Urlparse.path parsed) tail ->
     remove_version_from_href href
     = Ok (Urlparse.urlunsplit
             (Urlparse.mkSplitResult
                (Urlparse.scheme parsed) (Urlparse.netloc parsed) tail
                (Urlparse.query parsed) (Urlparse.fragment parsed))))
  /\ ((forall tail, ~ leading_version (Urlparse.path parsed) tail) ->
      remove_version_from_href href
      = Raise (ValueError ("href " +:+ href +:+ " does not contain version")))
  /\ (forall url, remove_version_from_href href = Ok url ->
        exists tail, leading_version (Urlparse.path parsed) tail)
  /\ (forall e, remove_version_from_href href = Raise e ->
        forall tail, ~ leading_version (Urlparse.path parsed) tail).
Proof.
  intros Hsplit.
  assert (Hfound : forall tail,
     leading_version (Urlparse.path parsed) tail ->
     remove_version_from_href href
     = Ok (Urlparse.urlunsplit
             (Urlparse.mkSplitResult
                (Urlparse.scheme parsed) (Urlparse.netloc parsed) tail
                (Urlparse.query parsed) (Urlparse.fragment parsed)))).
  { intros tail Hlead. unfold remove_version_from_href. rewrite Hsplit.
    cbn [mbind result_bind]. rewrite (sub_version_prefix _ _ Hlead).
    rewrite decide_False; [done |].
    apply version_then_shorter, Hlead. }
  assert (Hnone : (forall tail, ~ leading_version (Urlparse.path parsed) tail) ->
      remove_version_from_href href
      = Raise (ValueError ("href " +:+ href +:+ " does not contain version"))).
  { intros Hno. unfold remove_version_from_href. rewrite Hsplit.
    cbn [mbind result_bind]. rewrite (sub_version_prefix_none _ Hno).
    by rewrite decide_True. }
  split; [done |]. split; [done |]. split.
  - intros url Hrun.
    destruct (leading_version_dec (Urlparse.path parsed)) as [? | Hno];
      [done |].
    rewrite (Hnone Hno) in Hrun. discriminate.
  - intros e Hrun tail Hlead. rewrite (Hfound tail Hlead) in Hrun.
    discriminate.
Qed.

Lemma remove_version_from_href_leading_version_witness :
  remove_version_from_href "http://host/v1.1/123" = Ok "http://host/123"
  /\ remove_version_from_href "http://host/v1.1" = Ok "http://host"
  /\ remove_version_from_href "http://host/123"
     = Raise (ValueError "href http://host/123 does not contain version").
Proof.
  split; [| split].
  - destruct (remove_version_from_href_leading_version "http://host/v1.1/123"
      (Urlparse.mkSplitResult "http" "host" "/v1.1/123" "" "") eq_refl)
      as (H & _).
    apply (H "/123"). split; [by exists "1", "1" |].
    right. right. by exists "123".
  - destruct (remove_version_from_href_leading_version "http://host/v1.1"
      (Urlparse.mkSplitResult "http" "host" "/v1.1" "" "") eq_refl)
      as (H & _).
    apply (H ""). split; [by exists "1", "1" | by left].
  - destruct (remove_version_from_href_leading_version "http://host/123"
      (Urlparse.mkSplitResult "http" "host" "/123" "" "") eq_refl)
      as (_ & H & _).
    apply H. intros tail [(d1 & d2 & _ & _ & Heq) _].
    revert Heq. push_append. discriminate.
Defined.

(** [get_version_from_href] always returns: the only exception its body can
    raise is the [IndexError] that it catches. *)
Lemma get_version_from_href_total (href : string) :
  exists version, get_version_from_href href = Ok version.
Proof.
  unfold get_version_from_href. cbv zeta.
  destruct (match Re.findall version_inside_re href with
            | [] => Re.findall version_at_end_re href
            | _ => Re.findall version_inside_re href
            end) as [| matched rest].
  - by exists "1.0".
  - cbn [Py.first_item mbind result_bind].
    destruct (Re.findall version_digits_re matched) as [| v vs];
      [by exists "1.0" | by exists v].
Qed.

(** C8. On an href whose version has a minor part of two digits the call
    returns the major part and the first digit of the minor part only. *)
Theorem get_version_from_href_minor_digits :
  Re.findall version_inside_re "http://host/v1.10/123" = ["/v1.10/"]
  /\ Re.findall version_digits_re "/v1.10/" = ["1.1"]
  /\ get_version_from_href "http://host/v1.10/123" = Ok "1.1"
  /\ get_version_from_href "http://host/v1.1/123" = Ok "1.1"
  /\ get_version_from_href "http://host/123" = Ok "1.0".
Proof. repeat split; reflexivity. Qed.

(** ** Properties of the metadata codec *)

(** *** Decoding a document *)

Section decoding.
Import Minidom.

Context (extract_text : pnode -> string).

(** The loop of [extract_metadata] over nodes that are elements: each key
    ends up with the text of the last node that carries it. *)
Lemma extract_metadata_loop_lookup (children : list pnode)
    (metadata : gmap string string) :
  Forall (fun node => is_element node = true)
         (List.filter (fun node => bool_decide (nodeName node = "meta"))
                      children) ->
  exists found : gmap string string,
    extract_metadata_loop extract_text
      (List.filter (fun node => bool_decide (nodeName node = "meta")) children)
      metadata
    = Ok found
    /\ forall key,
         found !! key
         = match last (meta_values extract_text key children) with
           | Some value => Some value
           | None => metadata !! key
           end.
Proof.
  revert metadata.
  induction children as [| c cs IH]; intros metadata Helements.
  - exists metadata. by split.
  - unfold meta_values in *. cbn [List.filter] in *.
    destruct (decide (nodeName c = "meta")) as [Hname | Hname].
    + rewrite (bool_decide_eq_true_2 _ Hname) in *.
      apply Forall_cons in Helements as [Hc Hcs].
      destruct c as [| tagName attrs kids | | | | |]; try discriminate Hc.
      cbn [extract_metadata_loop getAttribute mbind result_bind].
      destruct (IH (<[default "" (assoc "key" attrs)
                      := extract_text (PElement tagName attrs kids)]> metadata)
                   Hcs) as (found & Hrun & Hlookup).
      exists found. split; [exact Hrun |]. intros key.
      rewrite Hlookup, filter_cons. unfold has_key. cbn [getAttribute].
      destruct (decide (default "" (assoc "key" attrs) = key)) as [Hkey | Hkey].
      * rewrite decide_True
          by (split; [done | by apply bool_decide_eq_true_2]).
        rewrite fmap_cons, last_cons.
        destruct (last _); [done |]. by rewrite Hkey, lookup_insert_eq.
      * rewrite decide_False
          by (intros [_ Hfound]; by apply bool_decide_eq_true_1 in Hfound).
        destruct (last _); [done |]. by rewrite lookup_insert_ne.
    + rewrite (bool_decide_eq_false_2 _ Hname) in *.
      destruct (IH metadata Helements) as (found & Hrun & Hlookup).
      exists found. split; [exact Hrun |]. intros key.
      rewrite Hlookup, filter_cons. by rewrite decide_False by (by intros [? _]).
Qed.

(** The loop stops at the first node that is not an element. *)
Lemma extract_metadata_loop_raises (meta_nodes : list pnode)
    (metadata : gmap string string) :
  Exists (fun node => is_element node = false) meta_nodes ->
  extract_metadata_loop extract_text meta_nodes metadata
  = Raise (AttributeError "getAttribute").
Proof.
  intros Hnode. revert metadata.
  induction Hnode as [node rest Hnode | node rest _ IH]; intros metadata.
  - by destruct node.
  - destruct node; cbn [extract_metadata_loop getAttribute mbind result_bind];
      first [ reflexivity | apply IH ].
Qed.

(** What [extract_metadata] gives for a node. *)
Lemma extract_metadata_node (node : pnode) :
  (Forall (fun meta_node => is_element meta_node = true)
          (find_children_named node "meta") ->
   exists metadata : gmap string string,
     extract_metadata extract_text (Some node) = Ok metadata
     /\ forall key,
          metadata !! key
          = last (meta_values extract_text key (childNodes node)))
  /\ (Exists (fun meta_node => is_element meta_node = false)
             (find_children_named node "meta") ->
      extract_metadata extract_text (Some node)
      = Raise (AttributeError "getAttribute")).
Proof.
  unfold extract_metadata, find_children_named. split.
  - intros Helements.
    destruct (extract_metadata_loop_lookup (childNodes node) ∅ Helements)
      as (metadata & Hrun & Hlookup).
    exists metadata. split; [exact Hrun |]. intros key.
    rewrite Hlookup. by destruct (last _).
  - apply extract_metadata_loop_raises.
Qed.

End decoding.







(** *** Building a document *)

Section store.
Import Minidom.

Lemma bind_ok {A B} (m : dom A) (k : A -> dom B) (h h' : heap) (a : A) :
  m h = Ok (a, h') -> dom_bind m k h = k a h'.
Proof. unfold dom_bind. by intros ->. Qed.

Lemma get_ok (h : heap) (r : nat) (o : node) :
  h !! r = Some o -> get r h = Ok (o, h).
Proof. unfold get. by intros ->. Qed.

Lemma setAttribute_ok (h : heap) (r : nat) (o : node) (attname value : string) :
  h !! r = Some o ->
  setAttribute r attname value h
  = Ok (tt, <[r := with_attributes o
                     (set_assoc attname value (attributes o))]> h).
Proof.
  intros Ho. unfold setAttribute. by rewrite (bind_ok _ _ _ _ _ (get_ok _ _ _ Ho)).
Qed.

(** Appending a node that has no parent: the node becomes the last child. *)
Lemma Node_appendChild_fresh (h : heap) (self r : nat) (s o : node) :
  h !! self = Some s -> h !! r = Some o -> self <> r ->
  child_allowed (nodeType s) (nodeType o) = true ->
  parentNode o = None ->
  Node_appendChild self r h
  = Ok (tt, <[r := with_parent o (Some self)]>
              (<[self := with_children s (children s ++ [r])]> h)).
Proof.
  intros Hs Ho Hne Hallowed Hparent. unfold Node_appendChild.
  rewrite (bind_ok _ _ _ _ _ (get_ok _ _ _ Hs)).
  rewrite (bind_ok _ _ _ _ _ (get_ok _ _ _ Ho)).
  rewrite Hallowed, Hparent. cbn [negb].
  unfold dom_bind at 1. unfold dom_ret at 1.
  rewrite (bind_ok _ _ _ _ _ (get_ok _ _ _ Hs)).
  unfold dom_bind at 1. unfold put at 1.
  assert (Hr : <[self := with_children s (children s ++ [r])]> h !! r = Some o)
    by (by rewrite list_lookup_insert_ne).
  by rewrite (bind_ok _ _ _ _ _ (get_ok _ _ _ Hr)).
Qed.

(** Appending a node that is a child of [p]: the node leaves [p] first. *)
Lemma Node_appendChild_move (h : heap) (self r p : nat) (s o po : node)
    (cs : list nat) :
  h !! self = Some s -> h !! r = Some o -> h !! p = Some po ->
  self <> r -> p <> r -> p <> self ->
  child_allowed (nodeType s) (nodeType o) = true ->
  parentNode o = Some p -> list_remove r (children po) = Some cs ->
  Node_appendChild self r h
  = Ok (tt, <[r := with_parent o (Some self)]>
              (<[self := with_children s (children s ++ [r])]>
                 (<[p := with_children po cs]> h))).
Proof.
  intros Hs Ho Hp Hsr Hpr Hps Hallowed Hparent Hremove.
  unfold Node_appendChild.
  rewrite (bind_ok _ _ _ _ _ (get_ok _ _ _ Hs)).
  rewrite (bind_ok _ _ _ _ _ (get_ok _ _ _ Ho)).
  rewrite Hallowed, Hparent. cbn [negb].
  assert (Hrm : removeChild p r h
                = Ok (tt, <[r := with_parent o None]>
                            (<[p := with_children po cs]> h))).
  { unfold removeChild. rewrite (bind_ok _ _ _ _ _ (get_ok _ _ _ Hp)).
    rewrite Hremove. unfold dom_bind at 1. unfold put at 1.
    assert (Hr : <[p := with_children po cs]> h !! r = Some o)
      by (by rewrite list_lookup_insert_ne).
    by rewrite (bind_ok _ _ _ _ _ (get_ok _ _ _ Hr)). }
  rewrite (bind_ok _ _ _ _ _ Hrm).
  assert (Hlen : (r < length h)%nat) by (by apply lookup_lt_Some in Ho).
  assert (Hs' : <[r := with_parent o None]> (<[p := with_children po cs]> h)
                !! self = Some s)
    by (by rewrite !list_lookup_insert_ne).
  rewrite (bind_ok _ _ _ _ _ (get_ok _ _ _ Hs')).
  unfold dom_bind at 1. unfold put at 1.
  assert (Hr' : <[self := with_children s (children s ++ [r])]>
                  (<[r := with_parent o None]>
                     (<[p := with_children po cs]> h)) !! r
                = Some (with_parent o None)).
  { rewrite list_lookup_insert_ne by done.
    apply list_lookup_insert_eq. by rewrite length_insert. }
  rewrite (bind_ok _ _ _ _ _ (get_ok _ _ _ Hr')).
  unfold put. do 2 f_equal.
  rewrite (list_insert_insert_ne _ self r) by done.
  by rewrite list_insert_insert_eq.
Qed.

(** Appending an element to a document that has no child. *)
Lemma Document_appendChild_fresh (h : heap) (self r : nat) (s o : node) :
  h !! self = Some s -> h !! r = Some o -> self <> r ->
  nodeType s = DOCUMENT_NODE -> nodeType o = ELEMENT_NODE ->
  children s = [] -> parentNode o = None ->
  appendChild self r h
  = Ok (tt, <[r := with_parent o (Some self)]>
              (<[self := with_children s [r]]> h)).
Proof.
  intros Hs Ho Hne Hdoc Helem Hchildren Hparent. unfold appendChild.
  rewrite (bind_ok _ _ _ _ _ (get_ok _ _ _ Hs)), Hdoc.
  unfold Document_appendChild.
  rewrite (bind_ok _ _ _ _ _ (get_ok _ _ _ Hs)).
  rewrite (bind_ok _ _ _ _ _ (get_ok _ _ _ Ho)).
  rewrite Hdoc, Helem, Hparent. cbn [child_allowed negb].
  unfold dom_bind at 1. unfold dom_ret at 1.
  rewrite (bind_ok _ _ _ _ _ (get_ok _ _ _ Hs)).
  rewrite Hchildren. unfold dom_bind at 1. unfold has_element at 1.
  cbn [existsb]. rewrite andb_false_r.
  rewrite (Node_appendChild_fresh h self r s o) by
    (try done; by rewrite Hdoc, Helem).
  by rewrite Hchildren.
Qed.

End store.

Section encoder.
Import Minidom.

Lemma lookup_new (d c x : node) (T r : list node) :
  (d :: c :: T ++ x :: r) !! S (S (length T)) = Some x.
Proof. simpl. by apply list_lookup_middle. Qed.

Lemma lookup_new1 (d c x y : node) (T r : list node) :
  (d :: c :: T ++ x :: y :: r) !! S (S (S (length T))) = Some y.
Proof.
  simpl. rewrite (cons_middle x), app_assoc.
  apply list_lookup_middle. rewrite length_app. simpl. lia.
Qed.

Lemma insert_new (d c x z : node) (T r : list node) :
  <[S (S (length T)) := z]> (d :: c :: T ++ x :: r) = d :: c :: T ++ z :: r.
Proof.
  simpl. do 2 f_equal.
  replace (length T) with (length T + 0)%nat by lia.
  by rewrite insert_app_r.
Qed.

Lemma insert_new1 (d c x y z : node) (T r : list node) :
  <[S (S (S (length T))) := z]> (d :: c :: T ++ x :: y :: r)
  = d :: c :: T ++ x :: z :: r.
Proof.
  simpl. do 2 f_equal.
  replace (S (length T)) with (length T + 1)%nat by lia.
  by rewrite insert_app_r.
Qed.

Lemma insert_0 (x a : node) (l : list node) :
  <[0%nat := x]> (a :: l) = x :: l.
Proof. reflexivity. Qed.

Lemma insert_1 (x a b : node) (l : list node) :
  <[1%nat := x]> (a :: b :: l) = a :: x :: l.
Proof. reflexivity. Qed.

(** One turn of the loop of [meta_list_to_xml]: the new element is first a
    child of the document, then moved under the [metadata] element, which
    leaves the document without a child again. *)
Lemma meta_item_step (key value : string) (cs : list nat) (T : list node) :
  let h := document_node [] :: container_node [] cs None :: T in
  let n := S (S (length T)) in
  (do item_node <- _meta_item_to_xml 0 key value;
   appendChild 1 item_node) h
  = Ok (tt, document_node [] :: container_node [] (cs ++ [n]) None
            :: T ++ [meta_node key n; text_node value n]).
Proof.
  intros h n. unfold _meta_item_to_xml.
  set (d := document_node []). set (c := container_node [] cs None).
  (* node = doc.createElement('meta') *)
  set (e0 := mkNode ELEMENT_NODE "meta" [] [] None "").
  assert (E1 : createElement 0 "meta" h = Ok (n, d :: c :: T ++ [e0]))
    by reflexivity.
  (* doc.appendChild(node) *)
  assert (E2 : appendChild 0 n (d :: c :: T ++ [e0])
               = Ok (tt, document_node [n] :: c
                         :: T ++ [with_parent e0 (Some 0%nat)])).
  { rewrite (Document_appendChild_fresh _ 0 n d e0);
      [| done | apply lookup_new | done ..].
    rewrite insert_0. unfold n. by rewrite insert_new. }
  (* node.setAttribute('key', key) *)
  set (e1 := mkNode ELEMENT_NODE "meta" [("key", key)] [] (Some 0%nat) "").
  assert (E3 : setAttribute n "key" key
                 (document_node [n] :: c :: T ++ [with_parent e0 (Some 0%nat)])
               = Ok (tt, document_node [n] :: c :: T ++ [e1])).
  { rewrite (setAttribute_ok _ n (with_parent e0 (Some 0%nat)))
      by apply lookup_new.
    unfold n. by rewrite insert_new. }
  (* text = doc.createTextNode(value) *)
  set (t0 := mkNode TEXT_NODE "#text" [] [] None value).
  assert (E4 : createTextNode 0 value (document_node [n] :: c :: T ++ [e1])
               = Ok (S n, document_node [n] :: c :: T ++ [e1; t0])).
  { unfold createTextNode, alloc. simpl. rewrite length_app. simpl.
    rewrite Nat.add_1_r. by rewrite <- app_assoc. }
  (* node.appendChild(text) *)
  set (e2 := mkNode ELEMENT_NODE "meta" [("key", key)] [S n] (Some 0%nat) "").
  assert (E5 : appendChild n (S n) (document_node [n] :: c :: T ++ [e1; t0])
               = Ok (tt, document_node [n] :: c
                         :: T ++ [e2; text_node value n])).
  { unfold appendChild, n.
    rewrite (bind_ok _ _ _ _ _ (get_ok _ _ _ (lookup_new _ _ e1 _ _))).
    cbn [nodeType e1].
    rewrite (Node_appendChild_fresh _ _ _ e1 t0);
      [| apply lookup_new | apply lookup_new1 | lia | done | done].
    rewrite insert_new. by rewrite insert_new1. }
  (* container_node.appendChild(item_node) *)
  assert (E6 : appendChild 1 n
                 (document_node [n] :: c :: T ++ [e2; text_node value n])
               = Ok (tt, d :: container_node [] (cs ++ [n]) None
                         :: T ++ [meta_node key n; text_node value n])).
  { unfold appendChild, n.
    rewrite (bind_ok _ _ _ _ c
               (get_ok (document_node [S (S (length T))] :: c
                        :: T ++ [e2; text_node value (S (S (length T)))])
                       1 c eq_refl)).
    change (nodeType c) with ELEMENT_NODE. cbv iota.
    rewrite (Node_appendChild_move _ 1 _ 0 c e2
               (document_node [S (S (length T))]) []);
      [| done | apply lookup_new | done | lia | lia | lia | done | done |].
    - rewrite insert_0, insert_1. by rewrite insert_new.
    - simpl. by rewrite decide_True. }
  assert (Eitem : _meta_item_to_xml 0 key value h
                  = Ok (n, document_node [n] :: c
                           :: T ++ [e2; text_node value n])).
  { unfold _meta_item_to_xml.
    rewrite (bind_ok _ _ _ _ _ E1), (bind_ok _ _ _ _ _ E2),
      (bind_ok _ _ _ _ _ E3), (bind_ok _ _ _ _ _ E4),
      (bind_ok _ _ _ _ _ E5).
    reflexivity. }
  rewrite (bind_ok _ _ _ _ _ Eitem). exact E6.
Qed.

Lemma bind_assoc {A B C} (m : dom A) (f : A -> dom B) (g : B -> dom C)
    (h : heap) :
  dom_bind m (fun x => dom_bind (f x) g) h = dom_bind (dom_bind m f) g h.
Proof. unfold dom_bind. by destruct (m h) as [[a h'] | e]. Qed.

(** The loop of [meta_list_to_xml] adds, for each entry, a [meta] element
    with its text to the store and a reference to the [metadata] element. *)
Lemma meta_list_loop_run (entries : list (string * string)) (cs : list nat)
    (T : list node) :
  meta_list_loop 0 1 entries
    (document_node [] :: container_node [] cs None :: T)
  = Ok (tt, document_node []
            :: container_node []
                 (cs ++ item_refs (S (S (length T))) entries) None
            :: T ++ item_nodes (S (S (length T))) entries).
Proof.
  revert cs T. induction entries as [| [key value] rest IH]; intros cs T.
  - simpl. by rewrite !app_nil_r.
  - cbn [meta_list_loop item_refs item_nodes].
    rewrite bind_assoc.
    rewrite (bind_ok _ _ _ _ _ (meta_item_step key value cs T)).
    rewrite IH.
    replace (length (T ++ [meta_node key (S (S (length T)));
                           text_node value (S (S (length T)))]))
      with (S (S (length T))) by (rewrite length_app; simpl; lia).
    by rewrite <- !app_assoc.
Qed.

Lemma tree_of_text (fuel : nat) (h : heap) (r : nat) (o : node) :
  h !! r = Some o -> nodeType o = TEXT_NODE ->
  tree_of (S fuel) h r = Some (XText (data o)).
Proof. intros Ho Ht. simpl. by rewrite Ho, Ht. Qed.

Lemma tree_of_element (fuel : nat) (h : heap) (r : nat) (o : node) :
  h !! r = Some o -> nodeType o = ELEMENT_NODE ->
  tree_of (S fuel) h r
  = XElement (name o) (attributes o) <$> mapM (tree_of fuel h) (children o).
Proof. intros Ho Ht. simpl. by rewrite Ho, Ht. Qed.

Lemma tree_of_document (fuel : nat) (h : heap) (r : nat) (o : node) :
  h !! r = Some o -> nodeType o = DOCUMENT_NODE ->
  tree_of (S fuel) h r = XDocument <$> mapM (tree_of fuel h) (children o).
Proof. intros Ho Ht. simpl. by rewrite Ho, Ht. Qed.

Lemma mapM_cons_eq {A B} (f : A -> option B) (x : A) (l : list A) :
  mapM f (x :: l) = y ← f x; k ← mapM f l; Some (y :: k).
Proof. reflexivity. Qed.

(** The trees below the [meta] elements of a store. *)
Lemma item_trees (entries : list (string * string)) (P Q : list node)
    (fuel : nat) :
  mapM (tree_of (S (S fuel)) (P ++ item_nodes (length P) entries ++ Q))
       (item_refs (length P) entries)
  = Some (meta_element <$> entries).
Proof.
  revert P. induction entries as [| [key value] rest IH]; intros P.
  - done.
  - cbn [item_refs item_nodes].
    set (m := meta_node key (length P)).
    set (t := text_node value (length P)).
    assert (Hsplit : (P ++ (m :: t :: item_nodes (S (S (length P))) rest) ++ Q
                      = (P ++ [m; t])
                        ++ item_nodes (length (P ++ [m; t])) rest ++ Q)%list).
    { rewrite <- !app_assoc. simpl. do 4 f_equal.
      f_equal. rewrite length_app. simpl. lia. }
    assert (Hm : (P ++ (m :: t :: item_nodes (S (S (length P))) rest) ++ Q)%list
                 !! length P = Some m)
      by (by apply list_lookup_middle).
    assert (Ht : (P ++ (m :: t :: item_nodes (S (S (length P))) rest) ++ Q)%list
                 !! S (length P) = Some t).
    { simpl. rewrite (cons_middle m), app_assoc.
      apply list_lookup_middle. rewrite length_app. simpl. lia. }
    rewrite mapM_cons_eq, (tree_of_element _ _ _ m Hm eq_refl).
    change (children m) with [S (length P)].
    rewrite mapM_cons_eq, (tree_of_text _ _ _ t Ht eq_refl).
    replace (item_refs (S (S (length P))) rest)
      with (item_refs (length (P ++ [m; t])) rest)
      by (f_equal; rewrite length_app; simpl; lia).
    rewrite Hsplit, IH. reflexivity.
Qed.

(** The document that [_meta_list_to_xml_string] writes, when all its
    characters are 7-bit characters. *)
Lemma meta_list_to_xml_string_document (xmlns : string)
    (metadata : gmap string string) :
  _meta_list_to_xml_string xmlns {[ "metadata" := metadata ]}
  = (if Py.all_chars is_ascii
          (xml_declaration "UTF-8"
           +:+ writexml (metadata_document xmlns (map_to_list metadata)))
     then Ok (xml_declaration "UTF-8"
              +:+ writexml (metadata_document xmlns (map_to_list metadata)))
     else Raise UnicodeDecodeError).
Proof.
  unfold _meta_list_to_xml_string, getitem.
  rewrite lookup_singleton_eq. cbn [mbind result_bind].
  set (entries := map_to_list metadata).
  set (H := document_node [1%nat]
            :: container_node [("xmlns", xmlns)] (item_refs 2 entries)
                 (Some 0%nat)
            :: item_nodes 2 entries).
  assert (Ebuild :
    (do xml_doc <- Document;
     do container_node <- meta_list_to_xml xml_doc entries;
     do _ <- appendChild xml_doc container_node;
     do _ <- _add_xmlns xmlns container_node;
     dom_ret xml_doc) [] = Ok (0%nat, H)).
  { assert (E1 : Document [] = Ok (0%nat, [document_node []])) by reflexivity.
    assert (E2 : meta_list_to_xml 0 entries [document_node []]
                 = Ok (1%nat, document_node []
                              :: container_node [] (item_refs 2 entries) None
                              :: item_nodes 2 entries)).
    { unfold meta_list_to_xml.
      assert (E : createElement 0 "metadata" [document_node []]
                  = Ok (1%nat,
                        [document_node []; container_node [] [] None]))
        by reflexivity.
      rewrite (bind_ok _ _ _ _ _ E).
      by rewrite (bind_ok _ _ _ _ _ (meta_list_loop_run entries [] [])). }
    assert (E3 : appendChild 0 1
                   (document_node []
                    :: container_node [] (item_refs 2 entries) None
                    :: item_nodes 2 entries)
                 = Ok (tt, document_node [1%nat]
                           :: container_node [] (item_refs 2 entries)
                                (Some 0%nat)
                           :: item_nodes 2 entries)).
    { by rewrite (Document_appendChild_fresh _ 0 1 (document_node [])
                    (container_node [] (item_refs 2 entries) None)). }
    assert (E4 : _add_xmlns xmlns 1
                   (document_node [1%nat]
                    :: container_node [] (item_refs 2 entries) (Some 0%nat)
                    :: item_nodes 2 entries)
                 = Ok (tt, H)).
    { unfold _add_xmlns.
      by rewrite (setAttribute_ok _ 1
                    (container_node [] (item_refs 2 entries) (Some 0%nat))). }
    by rewrite (bind_ok _ _ _ _ _ E1), (bind_ok _ _ _ _ _ E2),
      (bind_ok _ _ _ _ _ E3), (bind_ok _ _ _ _ _ E4). }
  assert (Etree : tree_of (S (length H)) H 0
                  = Some (metadata_document xmlns entries)).
  { unfold metadata_document.
    rewrite (tree_of_document _ H 0 (document_node [1%nat]) eq_refl eq_refl).
    change (children (document_node [1%nat])) with [1%nat].
    rewrite mapM_cons_eq.
    destruct (length H) as [| [| fuel]] eqn:Hlen; [done | |].
    - destruct entries as [| [key value] rest]; [| done]. reflexivity.
    - rewrite (tree_of_element _ H 1
                 (container_node [("xmlns", xmlns)] (item_refs 2 entries)
                    (Some 0%nat)) eq_refl eq_refl).
      cbn [children container_node name attributes].
      destruct fuel as [| fuel].
      + destruct entries as [| [key value] rest]; [| done]. reflexivity.
      + pose proof (item_trees entries
                      [document_node [1%nat];
                       container_node [("xmlns", xmlns)]
                         (item_refs 2 entries) (Some 0%nat)]
                      [] fuel) as Htrees.
        rewrite app_nil_r in Htrees. cbn [app length] in Htrees.
        fold H in Htrees. rewrite Htrees. reflexivity. }
  revert Ebuild. unfold dom_bind, dom_ret.
  destruct (Document []) as [[doc h1] |]; [| done].
  destruct (meta_list_to_xml doc entries h1) as [[cn h2] |]; [| done].
  destruct (appendChild doc cn h2) as [[[] h3] |]; [| done].
  destruct (_add_xmlns xmlns cn h3) as [[[] h4] |]; [| done].
  intros [= -> ->]. unfold toxml. rewrite Etree.
  by destruct (Py.all_chars is_ascii _).
Qed.

End encoder.

(** *** Strings *)

Lemma contains_append (c : ascii) (a b : string) :
  Py.contains c (a +:+ b) = Py.contains c a || Py.contains c b.
Proof.
  induction a as [| x a IH]; [done |].
  rewrite append_cons. simpl. by rewrite IH, orb_assoc.
Qed.

Lemma all_chars_append (p : ascii -> bool) (a b : string) :
  Py.all_chars p (a +:+ b) = Py.all_chars p a && Py.all_chars p b.
Proof.
  induction a as [| c a IH]; [done |].
  rewrite append_cons. simpl. by rewrite IH, andb_assoc.
Qed.

Lemma all_chars_weaken (p q : ascii -> bool) (s : string) :
  (forall c, p c = true -> q c = true) ->
  Py.all_chars p s = true -> Py.all_chars q s = true.
Proof.
  intros Hpq. induction s as [| c s IH]; [done |]. simpl.
  intros [Hc Hs]%andb_prop. by rewrite (Hpq c Hc), (IH Hs).
Qed.

Lemma all_chars_contains (p : ascii -> bool) (d : ascii) (s : string) :
  p d = false -> Py.all_chars p s = true -> Py.contains d s = false.
Proof.
  intros Hd. induction s as [| c s IH]; [done |]. simpl.
  intros [Hc Hs]%andb_prop. rewrite (IH Hs), orb_false_r.
  destruct (Ascii.eqb_spec c d) as [-> |]; [congruence | done].
Qed.

Lemma break_at (d : ascii) (a rest : string) :
  Py.contains d a = false ->
  Py.break (Ascii.eqb d) (a +:+ String d rest) = (a, String d rest).
Proof.
  induction a as [| c a IH].
  - intros _. rewrite append_nil_l. simpl. by rewrite Ascii.eqb_refl.
  - intros Hc. simpl in Hc. apply orb_false_elim in Hc as [Hc Ha].
    rewrite append_cons. simpl.
    by rewrite Ascii.eqb_sym, Hc, (IH Ha).
Qed.

Lemma concat_cons (x : string) (l : list string) :
  String.concat "" (x :: l) = x +:+ String.concat "" l.
Proof. destruct l; [by rewrite append_nil_r | done]. Qed.

(** *** What the writer writes *)

Section escaping.
Import Minidom.

Lemma replace_append (old : ascii) (new a b : string) :
  replace old new (a +:+ b) = replace old new a +:+ replace old new b.
Proof.
  induction a as [| c a IH]; [done |].
  rewrite append_cons. cbn [replace]. rewrite IH.
  destruct (Ascii.eqb c old); [by rewrite append_assoc | done].
Qed.

Lemma write_data_cons (c : ascii) (s : string) :
  _write_data (String c s) = escape_char c +:+ _write_data s.
Proof.
  unfold _write_data, escape_char. cbn [replace].
  destruct (Ascii.eqb c "&"); [by rewrite !replace_append |].
  cbn [replace].
  destruct (Ascii.eqb c "<"); [by rewrite !replace_append |].
  cbn [replace].
  destruct (Ascii.eqb c "034"); [by rewrite !replace_append |].
  cbn [replace].
  by destruct (Ascii.eqb c ">").
Qed.

(** The writer replaces [&], [<], the double quote and [>] by references,
    character by character. *)
Lemma write_data_escape (s : string) : _write_data s = escape s.
Proof.
  induction s as [| c s IH]; [done |].
  by rewrite write_data_cons, IH.
Qed.

Lemma writexml_meta_xml (entry : string * string) :
  writexml (meta_element entry) = meta_xml entry.
Proof.
  unfold meta_element, meta_xml.
  cbn [writexml List.map String.concat sorted_attrs foldr insert_sorted].
  unfold write_attr. cbn [fst snd].
  rewrite !write_data_escape, !append_assoc. reflexivity.
Qed.

Lemma writexml_metas_xml (entries : list (string * string)) :
  String.concat "" (List.map writexml (meta_element <$> entries))
  = metas_xml entries.
Proof.
  induction entries as [| entry rest IH]; [done |].
  rewrite fmap_cons. cbn [List.map]. rewrite concat_cons.
  by rewrite writexml_meta_xml, IH.
Qed.

Lemma writexml_metadata_xml (xmlns : string)
    (entries : list (string * string)) :
  writexml (metadata_document xmlns entries) = metadata_xml xmlns entries.
Proof.
  unfold metadata_document, metadata_xml.
  cbn [writexml List.map]. rewrite concat_cons, append_nil_r.
  cbn [writexml sorted_attrs foldr insert_sorted List.map].
  rewrite concat_cons, append_nil_r. unfold write_attr. cbn [fst snd].
  rewrite write_data_escape, writexml_metas_xml.
  destruct entries as [| entry rest].
  - rewrite !append_assoc. reflexivity.
  - rewrite fmap_cons. rewrite !append_assoc. reflexivity.
Qed.

(** A reference is made of 7-bit characters, and a character that is
    written as it is stays what it was. *)
Lemma escape_char_is_ascii (c : ascii) :
  Py.all_chars is_ascii (escape_char c) = is_ascii c.
Proof. by destruct c as [[] [] [] [] [] [] [] []]. Qed.

Lemma escape_is_ascii (s : string) :
  is_ascii_string (escape s) = is_ascii_string s.
Proof.
  unfold is_ascii_string. induction s as [| c s IH]; [done |].
  cbn [escape Py.all_chars].
  by rewrite all_chars_append, escape_char_is_ascii, IH.
Qed.

Lemma metas_xml_is_ascii (entries : list (string * string)) :
  is_ascii_string (metas_xml entries) = forallb is_ascii_entry entries.
Proof.
  induction entries as [| entry rest IH]; [done |].
  cbn [metas_xml forallb]. unfold is_ascii_string in *.
  rewrite all_chars_append, IH. f_equal.
  unfold meta_xml, is_ascii_entry, is_ascii_string.
  rewrite !all_chars_append.
  pose proof (escape_is_ascii (fst entry)) as Hk.
  pose proof (escape_is_ascii (snd entry)) as Hv.
  unfold is_ascii_string in Hk, Hv. rewrite Hk, Hv.
  cbn. by rewrite !andb_true_r.
Qed.

Lemma metadata_xml_is_ascii (xmlns : string)
    (entries : list (string * string)) :
  is_ascii_string (xml_declaration "UTF-8" +:+ metadata_xml xmlns entries)
  = is_ascii_string xmlns && forallb is_ascii_entry entries.
Proof.
  pose proof (escape_is_ascii xmlns) as Hns.
  pose proof (metas_xml_is_ascii entries) as Hmetas.
  unfold is_ascii_string in *. unfold metadata_xml.
  rewrite !all_chars_append, Hns.
  destruct entries as [| entry rest].
  - cbn. by rewrite !andb_true_r.
  - rewrite !all_chars_append, Hmetas. cbn. by rewrite !andb_true_r.
Qed.

End escaping.

(** *** What the parser reads back *)

Section unescaping.
Import Minidom.

Lemma xml_value_cons (c : ascii) (s : string) :
  xml_value (String c s) <-> text_char c = true /\ xml_value s.
Proof. unfold xml_value. simpl. by rewrite andb_true_iff. Qed.

Lemma xml_key_cons (c : ascii) (s : string) :
  xml_key (String c s) <-> attr_char c = true /\ xml_key s.
Proof. unfold xml_key. simpl. by rewrite andb_true_iff. Qed.

(** A character of a value is one of the four that are written as
    references, or is written as it is and read as it is. *)
Lemma text_char_cases (c : ascii) :
  text_char c = true ->
  c = "&"%char \/ c = "<"%char \/ c = "034"%char \/ c = ">"%char
  \/ (escape_char c = String c "" /\ Ascii.eqb c "&" = false
      /\ is_char c = true).
Proof.
  destruct c as [[] [] [] [] [] [] [] []]; intros H;
    first [ discriminate H
          | by left | by right; left | by do 2 right; left
          | by do 3 right; left | do 4 right; by repeat split ].
Qed.

Lemma text_char_spec (c : ascii) :
  text_char c = true ->
  Ascii.eqb c "013" = false /\ readable_char c = true /\ is_ascii c = true.
Proof.
  destruct c as [[] [] [] [] [] [] [] []]; intros H;
    first [ discriminate H | by repeat split ].
Qed.

Lemma attr_char_spec (c : ascii) :
  attr_char c = true ->
  text_char c = true /\ (if is_space c then " "%char else c) = c.
Proof.
  destruct c as [[] [] [] [] [] [] [] []]; intros H;
    first [ discriminate H | by split ].
Qed.

Lemma xml_key_value (s : string) : xml_key s -> xml_value s.
Proof.
  apply all_chars_weaken. intros c Hc. by apply attr_char_spec.
Qed.

(** Reading what the writer wrote gives the string back. *)
Lemma unescape_escape (s : string) :
  xml_value s -> unescape None (escape s) = Ok s.
Proof.
  induction s as [| c s IH]; [done |].
  intros [Hc Hs]%xml_value_cons. cbn [escape].
  destruct (text_char_cases c Hc)
    as [-> | [-> | [-> | [-> | (Hplain & Hamp & Hchar)]]]].
  - change (unescape None (escape_char "&" +:+ escape s))
      with (text ← unescape None (escape s); Ok (String "&" text)).
    by rewrite (IH Hs).
  - change (unescape None (escape_char "<" +:+ escape s))
      with (text ← unescape None (escape s); Ok (String "<" text)).
    by rewrite (IH Hs).
  - change (unescape None (escape_char "034" +:+ escape s))
      with (text ← unescape None (escape s); Ok (String "034" text)).
    by rewrite (IH Hs).
  - change (unescape None (escape_char ">" +:+ escape s))
      with (text ← unescape None (escape s); Ok (String ">" text)).
    by rewrite (IH Hs).
  - rewrite Hplain. push_append.
    cbn [unescape]. by rewrite Hamp, Hchar, (IH Hs).
Qed.

(** What the writer wrote holds no [<], no double quote and no [>]. *)
Lemma escape_contains (d : ascii) (s : string) :
  d = "<"%char \/ d = "034"%char \/ d = ">"%char ->
  Py.contains d (escape s) = false.
Proof.
  intros Hd. induction s as [| c s IH]; [done |].
  cbn [escape]. rewrite contains_append, IH, orb_false_r.
  unfold escape_char.
  destruct (Ascii.eqb_spec c "&") as [-> | _];
    [by destruct Hd as [-> | [-> | ->]] |].
  destruct (Ascii.eqb_spec c "<") as [-> | Hlt];
    [by destruct Hd as [-> | [-> | ->]] |].
  destruct (Ascii.eqb_spec c "034") as [-> | Hquot];
    [by destruct Hd as [-> | [-> | ->]] |].
  destruct (Ascii.eqb_spec c ">") as [-> | Hgt];
    [by destruct Hd as [-> | [-> | ->]] |].
  simpl. rewrite orb_false_r.
  destruct Hd as [-> | [-> | ->]]; by apply Ascii.eqb_neq.
Qed.

(** What the writer wrote is made of the characters it was given and of
    those of the references. *)
Lemma all_chars_escape (p : ascii -> bool) (s : string) :
  Py.all_chars p "&amp;" = true -> Py.all_chars p "&lt;" = true ->
  Py.all_chars p "&quot;" = true -> Py.all_chars p "&gt;" = true ->
  Py.all_chars p s = true -> Py.all_chars p (escape s) = true.
Proof.
  intros Hamp Hlt Hquot Hgt. induction s as [| c s IH]; [done |]. simpl.
  intros [Hc Hs]%andb_prop. rewrite all_chars_append, (IH Hs), andb_true_r.
  unfold escape_char.
  destruct (Ascii.eqb c "&"); [done |].
  destruct (Ascii.eqb c "<"); [done |].
  destruct (Ascii.eqb c "034"); [done |].
  destruct (Ascii.eqb c ">"); [done |].
  simpl. by rewrite Hc.
Qed.

Lemma escape_key (s : string) : xml_key s -> xml_key (escape s).
Proof. by apply all_chars_escape. Qed.

Lemma escape_value (s : string) : xml_value s -> xml_value (escape s).
Proof. by apply all_chars_escape. Qed.

Lemma normalize_attr_key (s : string) : xml_key s -> normalize_attr s = s.
Proof.
  induction s as [| c s IH]; [done |].
  intros [Hc Hs]%xml_key_cons. simpl.
  destruct (attr_char_spec c Hc) as [_ Hspace].
  by rewrite Hspace, (IH Hs).
Qed.

Lemma xml_value_no_cr (s : string) :
  xml_value s -> Py.contains "013" s = false.
Proof. by apply all_chars_contains. Qed.

Lemma xml_value_readable (s : string) :
  xml_value s -> Py.all_chars readable_char s = true.
Proof. apply all_chars_weaken. intros c Hc. by apply text_char_spec. Qed.

Lemma xml_value_is_ascii (s : string) :
  xml_value s -> is_ascii_string s = true.
Proof. apply all_chars_weaken. intros c Hc. by apply text_char_spec. Qed.

Lemma normalize_newlines_id (s : string) :
  Py.contains "013" s = false -> normalize_newlines s = s.
Proof.
  induction s as [| c s IH]; [done |]. simpl.
  intros [Hc Hs]%orb_false_elim. by rewrite Hc, (IH Hs).
Qed.

(** An attribute as the writer wrote it.  A name space declaration is read
    when the parser accepts the name space. *)
Lemma parse_attribute_escaped (name value tail : string) :
  (forall r, parse_name (name +:+ String "=" r) = Ok (name, String "=" r)) ->
  xml_key value ->
  (name = "xmlns" -> namespace_ok value = true) ->
  parse_attribute (name +:+ "=" +:+ quot +:+ escape value +:+ quot +:+ tail)
  = Ok ((name, value), tail).
Proof.
  intros Hname Hvalue Hns. unfold parse_attribute, quot. push_append.
  rewrite Hname. cbn [mbind result_bind skip_space is_space Ascii.eqb Bool.eqb
                      orb expect].
  rewrite (break_at "034" (escape value) tail)
    by (apply escape_contains; by right; left).
  cbn [expect Ascii.eqb Bool.eqb mbind result_bind].
  rewrite (escape_contains "<" value) by (by left).
  rewrite (normalize_attr_key _ (escape_key _ Hvalue)).
  rewrite (unescape_escape _ (xml_key_value _ Hvalue)).
  cbn [mbind result_bind].
  destruct (bool_decide (name = "xmlns")) eqn:Hxmlns; [| done].
  apply bool_decide_eq_true_1 in Hxmlns. by rewrite (Hns Hxmlns).
Qed.

Lemma parse_attributes_done (fuel : nat) (tail : string)
    (seen : list (string * string)) :
  closes_tag tail ->
  parse_attributes (S fuel) tail seen = Ok (seen, tail).
Proof. by intros [t [-> | ->]]. Qed.

(** One more attribute of a start tag. *)
Lemma parse_attributes_next (fuel : nat) (name value tail : string)
    (seen : list (string * string)) :
  (forall r, parse_name (name +:+ String "=" r) = Ok (name, String "=" r)) ->
  (forall r, skip_space (name +:+ r) = name +:+ r) ->
  (forall r, starts_name (name +:+ r) = true) ->
  xml_key value -> (name = "xmlns" -> namespace_ok value = true) ->
  name ∉ seen.*1 ->
  parse_attributes (S fuel)
    (" " +:+ name +:+ "=" +:+ quot +:+ escape value +:+ quot +:+ tail) seen
  = parse_attributes fuel tail (seen ++ [(name, value)]).
Proof.
  intros Hname Hskip Hstart Hvalue Hns Hfresh.
  cbn [parse_attributes].
  change (" " +:+ ?s) with (String " " s).
  cbn [skip_space starts_space is_space Ascii.eqb Bool.eqb orb].
  rewrite Hskip, Hstart.
  rewrite (parse_attribute_escaped name value tail Hname Hvalue Hns).
  cbn [mbind result_bind fst].
  by rewrite bool_decide_eq_false_2.
Qed.

Lemma parse_nodes_S (fuel : nat) (s : string) :
  parse_nodes (S fuel) s
  = match s with
    | EmptyString => Ok ([], s)
    | String c s1 =>
        if Ascii.eqb c "<" then
          match s1 with
          | EmptyString => Raise OutsideModel
          | String c1 s2 =>
              if Ascii.eqb c1 "/" then Ok ([], s)
              else if Ascii.eqb c1 "!" then
                rest ← expect "-" s2;
                rest ← expect "-" rest;
                '(text, rest) ← parse_comment rest;
                '(siblings, rest) ← parse_nodes fuel rest;
                Ok (PComment text :: siblings, rest)
              else
                '(name, attrs, empty, rest) ← parse_start_tag fuel s1;
                '(children, rest) ←
                  (if empty : bool then Ok ([], rest)
                   else
                     '(children, rest) ← parse_nodes fuel rest;
                     rest ← parse_end_tag name rest;
                     Ok (children, rest));
                '(siblings, rest) ← parse_nodes fuel rest;
                Ok (PElement name attrs children :: siblings, rest)
          end
        else
          '(text, rest) ← parse_text s;
          '(siblings, rest) ← parse_nodes fuel rest;
          Ok (PText text :: siblings, rest)
    end.
Proof. reflexivity. Qed.

(** The content of a [meta] element, up to its end tag. *)
Lemma parse_escaped_text (fuel : nat) (value rest : string) :
  xml_value value ->
  parse_nodes (S (S fuel)) (escape value +:+ "</" +:+ rest)
  = Ok (match value with
        | EmptyString => []
        | _ => [PText value]
        end, "</" +:+ rest).
Proof.
  intros Hvalue. destruct value as [| c value]; [reflexivity |].
  assert (Hhead : exists x t,
            escape (String c value) = String x t
            /\ Ascii.eqb x "<" = false).
  { cbn [escape]. unfold escape_char.
    destruct (Ascii.eqb c "&"); [by eexists _, _ |].
    destruct (Ascii.eqb c "<") eqn:Hlt; [by eexists _, _ |].
    destruct (Ascii.eqb c "034"); [by eexists _, _ |].
    destruct (Ascii.eqb c ">"); by eexists _, _. }
  destruct Hhead as (x & t & Hescape & Hx).
  rewrite parse_nodes_S, Hescape, append_cons, Hx, <- append_cons, <- Hescape.
  unfold parse_text.
  change ("</" +:+ rest) with (String "<" ("/" +:+ rest)).
  rewrite (break_at "<" (escape (String c value)) ("/" +:+ rest))
    by (apply escape_contains; by left).
  rewrite (escape_contains ">" (String c value)) by (by do 2 right).
  cbn [mbind result_bind]. rewrite (unescape_escape _ Hvalue).
  reflexivity.
Qed.

(** A [meta] element whose start tag holds the attributes [attrs]. *)
Lemma parse_meta_element (fuel : nat) (tag : string)
    (attrs : list (string * string)) (value rest : string)
    (siblings : list pnode) (after : string) :
  (forall r,
     parse_attributes (S (S fuel)) (" " +:+ tag +:+ ">" +:+ r) []
     = Ok (attrs, ">" +:+ r)) ->
  xml_value value ->
  parse_nodes (S (S fuel)) rest = Ok (siblings, after) ->
  parse_nodes (S (S (S fuel)))
    ("<meta " +:+ tag +:+ ">" +:+ escape value +:+ "</meta>" +:+ rest)
  = Ok (parsed_element attrs value :: siblings, after).
Proof.
  intros Htag Hvalue Hrest.
  assert (Hstart :
    parse_start_tag (S (S fuel))
      ("meta " +:+ tag +:+ ">" +:+ escape value +:+ "</meta>" +:+ rest)
    = Ok ("meta", attrs, false, escape value +:+ "</meta>" +:+ rest)).
  { unfold parse_start_tag.
    change (parse_name
              ("meta " +:+ tag +:+ ">" +:+ escape value +:+ "</meta>"
               +:+ rest))
      with (Ok ("meta", " " +:+ tag +:+ ">" +:+ escape value +:+ "</meta>"
                        +:+ rest) : result (string * string)).
    cbn [mbind result_bind]. by rewrite Htag. }
  change ("<meta " +:+ ?s) with (String "<" (String "m" ("eta " +:+ s))).
  rewrite parse_nodes_S. cbn [Ascii.eqb Bool.eqb].
  change (String "m" ("eta " +:+ ?s)) with ("meta " +:+ s).
  rewrite Hstart. cbn [mbind result_bind].
  change ("</meta>" +:+ rest) with ("</" +:+ "meta>" +:+ rest).
  rewrite (parse_escaped_text fuel value _ Hvalue).
  cbn [mbind result_bind].
  change (parse_end_tag "meta" ("</" +:+ "meta>" +:+ rest))
    with (Ok rest : result string).
  cbn [mbind result_bind]. rewrite Hrest. reflexivity.
Qed.

Lemma parse_attributes_single (fuel : nat) (name value tail : string) :
  (forall r, parse_name (name +:+ String "=" r) = Ok (name, String "=" r)) ->
  (forall r, skip_space (name +:+ r) = name +:+ r) ->
  (forall r, starts_name (name +:+ r) = true) ->
  xml_key value -> (name = "xmlns" -> namespace_ok value = true) ->
  closes_tag tail ->
  parse_attributes (S (S fuel))
    (" " +:+ name +:+ "=" +:+ quot +:+ escape value +:+ quot +:+ tail) []
  = Ok ([(name, value)], tail).
Proof.
  intros Hname Hskip Hstart Hvalue Hns Htail.
  rewrite (parse_attributes_next _ _ _ _ _ Hname Hskip Hstart Hvalue Hns)
    by apply not_elem_of_nil.
  by apply parse_attributes_done.
Qed.

Lemma parse_attributes_key (fuel : nat) (key r : string) :
  xml_key key ->
  parse_attributes (S (S fuel))
    (" " +:+ ("key=" +:+ quot +:+ escape key +:+ quot) +:+ ">" +:+ r) []
  = Ok ([("key", key)], ">" +:+ r).
Proof.
  intros Hkey.
  replace (" " +:+ ("key=" +:+ quot +:+ escape key +:+ quot) +:+ ">" +:+ r)
    with (" " +:+ "key" +:+ "=" +:+ quot +:+ escape key +:+ quot
          +:+ ">" +:+ r)
    by (by rewrite !append_assoc).
  apply parse_attributes_single; try done. exists r. by left.
Qed.

(** The text of one entry of a container, read as a [meta] element. *)
Lemma parse_meta_xml (fuel : nat) (entry : string * string) (rest : string)
    (siblings : list pnode) (after : string) :
  xml_entry entry ->
  parse_nodes (S (S fuel)) rest = Ok (siblings, after) ->
  parse_nodes (S (S (S fuel))) (meta_xml entry +:+ rest)
  = Ok (parsed_meta entry :: siblings, after).
Proof.
  intros [Hkey Hvalue] Hrest.
  replace (meta_xml entry +:+ rest)
    with ("<meta " +:+ ("key=" +:+ quot +:+ escape (fst entry) +:+ quot)
          +:+ ">" +:+ escape (snd entry) +:+ "</meta>" +:+ rest)
    by (unfold meta_xml; by rewrite !append_assoc).
  apply parse_meta_element; [| done | done].
  intros r. by apply parse_attributes_key.
Qed.

Lemma parse_metas_xml (entries : list (string * string)) (fuel : nat)
    (rest : string) :
  Forall xml_entry entries -> (length entries <= fuel)%nat ->
  parse_nodes (S (S fuel)) (metas_xml entries +:+ "</" +:+ rest)
  = Ok (parsed_meta <$> entries, "</" +:+ rest).
Proof.
  intros Hentries. revert fuel.
  induction Hentries as [| entry entries Hentry _ IH]; intros fuel Hfuel.
  - reflexivity.
  - destruct fuel as [| fuel]; [simpl in Hfuel; lia |].
    cbn [metas_xml]. rewrite append_assoc, fmap_cons.
    apply parse_meta_xml; [done |]. apply IH. simpl in Hfuel. lia.
Qed.

Lemma parse_metadata_xml (xmlns : string) (entries : list (string * string))
    (fuel : nat) :
  namespace_name xmlns -> Forall xml_entry entries ->
  (length entries <= fuel)%nat ->
  parse_nodes (S (S (S fuel))) (metadata_xml xmlns entries)
  = Ok ([PElement "metadata" [("xmlns", xmlns)] (parsed_meta <$> entries)],
        "").
Proof.
  intros [Hns Hok] Hentries Hfuel. unfold metadata_xml.
  set (tail := match entries with
               | [] => "/>"
               | _ :: _ => ">" +:+ metas_xml entries +:+ "</metadata>"
               end).
  assert (Htag : parse_start_tag (S (S fuel))
                   ("metadata xmlns=" +:+ quot +:+ escape xmlns +:+ quot
                    +:+ tail)
                 = Ok ("metadata", [("xmlns", xmlns)],
                       match entries with [] => true | _ => false end,
                       match entries with
                       | [] => ""
                       | _ => metas_xml entries +:+ "</metadata>"
                       end)).
  { unfold parse_start_tag.
    change (parse_name ("metadata xmlns=" +:+ quot +:+ escape xmlns +:+ quot
                        +:+ tail))
      with (Ok ("metadata", " " +:+ "xmlns" +:+ "=" +:+ quot
                            +:+ escape xmlns +:+ quot +:+ tail)
            : result (string * string)).
    cbn [mbind result_bind].
    rewrite (parse_attributes_single fuel "xmlns" xmlns); try done.
    - unfold tail. by destruct entries.
    - unfold tail. destruct entries; [by exists ">"; right | ].
      eexists. by left. }
  change ("<metadata xmlns=" +:+ ?s)
    with (String "<" (String "m" ("etadata xmlns=" +:+ s))).
  rewrite parse_nodes_S. cbn [Ascii.eqb Bool.eqb].
  change (String "m" ("etadata xmlns=" +:+ ?s)) with ("metadata xmlns=" +:+ s).
  rewrite Htag. cbn [mbind result_bind].
  destruct entries as [| entry rest]; [reflexivity |].
  change (metas_xml (entry :: rest) +:+ "</metadata>")
    with (metas_xml (entry :: rest) +:+ "</" +:+ "metadata>").
  rewrite (parse_metas_xml (entry :: rest) fuel "metadata>" Hentries Hfuel).
  reflexivity.
Qed.

Lemma metas_xml_length (entries : list (string * string)) :
  (length entries <= String.length (metas_xml entries))%nat.
Proof.
  induction entries as [| entry rest IH]; [done |].
  cbn [metas_xml]. unfold meta_xml. rewrite !length_append. simpl. lia.
Qed.

Lemma metadata_xml_length (xmlns : string) (entries : list (string * string)) :
  (length entries + 3 <= String.length (metadata_xml xmlns entries))%nat.
Proof.
  unfold metadata_xml. rewrite !length_append.
  pose proof (metas_xml_length entries).
  destruct entries; rewrite ?length_append; simpl in *; lia.
Qed.

(** The characters of what the writer wrote. *)
Lemma metas_xml_chars (entries : list (string * string)) :
  Forall xml_entry entries -> xml_value (metas_xml entries).
Proof.
  unfold xml_value.
  induction 1 as [| entry rest [Hk Hv] _ IH]; [done |].
  cbn [metas_xml]. unfold meta_xml. rewrite !all_chars_append, IH.
  apply xml_key_value, escape_value in Hk. apply escape_value in Hv.
  unfold xml_value in Hk, Hv. by rewrite Hk, Hv.
Qed.

Lemma metadata_xml_chars (xmlns : string) (entries : list (string * string)) :
  xml_key xmlns -> Forall xml_entry entries ->
  xml_value (metadata_xml xmlns entries).
Proof.
  intros Hns Hentries. unfold xml_value, metadata_xml.
  rewrite !all_chars_append.
  apply xml_key_value, escape_value in Hns. unfold xml_value in Hns.
  rewrite Hns.
  destruct entries; [done |].
  pose proof (metas_xml_chars _ Hentries) as Hmetas.
  unfold xml_value in Hmetas. by rewrite !all_chars_append, Hmetas.
Qed.

Lemma strip_prefix_append (p s : string) :
  strip_prefix p (p +:+ s) = Some s.
Proof.
  induction p as [| c p IH]; [by destruct s |].
  rewrite append_cons. simpl. by rewrite Ascii.eqb_refl.
Qed.

Lemma skip_declaration_utf8 (rest : string) :
  skip_declaration (xml_declaration "UTF-8" +:+ rest) = rest.
Proof. unfold skip_declaration. by rewrite strip_prefix_append. Qed.

(** A document that the writer wrote, with its declaration and one
    element. *)
Lemma parse_document_element (element : pnode) (s : string) :
  is_element element = true ->
  xml_value s ->
  parse_doctype s = Ok ([], s) ->
  parse_nodes (S (String.length s)) s = Ok ([element], "") ->
  parseString (xml_declaration "UTF-8" +:+ s) = Ok (PDocument [element]).
Proof.
  intros Helement Hchars Hdoctype Hparse. unfold parseString.
  rewrite all_chars_append, (xml_value_readable _ Hchars).
  change (Py.all_chars readable_char (xml_declaration "UTF-8")) with true.
  cbn [andb negb].
  rewrite normalize_newlines_id
    by (by rewrite contains_append, (xml_value_no_cr _ Hchars)).
  rewrite skip_declaration_utf8. rewrite Hdoctype.
  cbn [mbind result_bind]. rewrite Hparse.
  cbn [mbind result_bind Py.nonempty].
  destruct element; try discriminate Helement. reflexivity.
Qed.

(** The container document, read back. *)
Lemma parse_metadata_xml_document (xmlns : string)
    (entries : list (string * string)) :
  namespace_name xmlns -> Forall xml_entry entries ->
  parseString (xml_declaration "UTF-8" +:+ metadata_xml xmlns entries)
  = Ok (PDocument
          [PElement "metadata" [("xmlns", xmlns)] (parsed_meta <$> entries)]).
Proof.
  intros Hns Hentries.
  apply parse_document_element; [done | | done |].
  - apply metadata_xml_chars; [apply Hns | done].
  - pose proof (metadata_xml_length xmlns entries) as Hlen.
    destruct (String.length (metadata_xml xmlns entries))
      as [| [| fuel]] eqn:Hfuel; [lia | lia |].
    apply parse_metadata_xml; [done | done | lia].
Qed.

End unescaping.

(** *** The round trip *)

Lemma foldl_insert_list_to_map (l : list (string * string)) :
  NoDup l.*1 ->
  foldl (fun (m : gmap string string) entry => <[fst entry := snd entry]> m)
        ∅ l
  = list_to_map l.
Proof.
  induction l as [| [key value] l IH] using rev_ind; [done |].
  rewrite fmap_app. intros [Hl [Hfresh _]]%NoDup_app.
  rewrite foldl_snoc, (IH Hl). cbn [fst snd].
  rewrite list_to_map_snoc; [done |].
  intros Hin. apply (Hfresh key Hin). simpl. by left.
Qed.

Lemma filter_parsed_meta (entries : list (string * string)) :
  List.filter (fun node => bool_decide (Minidom.nodeName node = "meta"))
              (parsed_meta <$> entries)
  = parsed_meta <$> entries.
Proof.
  induction entries as [| entry rest IH]; [done |].
  rewrite fmap_cons. simpl. by rewrite IH.
Qed.

(** What [extract_text] gives for an element that the parser returns. *)
Lemma extract_text_parsed_element (extract_text : Minidom.pnode -> string)
    (attrs : list (string * string)) (text : string) :
  reads_text extract_text ->
  extract_text (parsed_element attrs text) = text.
Proof.
  intros Hreads. destruct (Hreads "meta" attrs) as [Hempty Htext].
  destruct text as [| c text]; [exact Hempty | apply Htext].
Qed.

(** Decoding the elements read for a list of entries inserts the entries in
    order. *)
Lemma extract_parsed_metas (extract_text : Minidom.pnode -> string)
    (entries : list (string * string)) (metadata : gmap string string) :
  reads_text extract_text ->
  extract_metadata_loop extract_text (parsed_meta <$> entries) metadata
  = Ok (foldl (fun (m : gmap string string) entry =>
                 <[fst entry := snd entry]> m)
              metadata entries).
Proof.
  intros Hreads. revert metadata.
  induction entries as [| [key value] rest IH]; intros metadata; [done |].
  rewrite fmap_cons. cbn [extract_metadata_loop foldl].
  unfold parsed_meta at 1 2. cbn [fst snd].
  rewrite (extract_text_parsed_element _ _ _ Hreads).
  unfold parsed_element at 1. cbn [Minidom.getAttribute mbind result_bind].
  change (default "" (Minidom.assoc "key" [("key", key)])) with key.
  apply IH.
Qed.

Lemma extract_parsed_metadata (extract_text : Minidom.pnode -> string)
    (xmlns : string) (entries : list (string * string)) :
  reads_text extract_text ->
  extract_metadata extract_text
    (find_first_child_named
       (Minidom.PDocument
          [Minidom.PElement "metadata" [("xmlns", xmlns)]
             (parsed_meta <$> entries)])
       "metadata")
  = Ok (foldl (fun (m : gmap string string) entry =>
                 <[fst entry := snd entry]> m)
              ∅ entries).
Proof.
  intros Hreads.
  unfold find_first_child_named. cbn [Minidom.childNodes List.find].
  rewrite bool_decide_eq_true_2 by done.
  unfold extract_metadata, find_children_named. cbn [Minidom.childNodes].
  rewrite filter_parsed_meta. by apply extract_parsed_metas.
Qed.

Lemma text_content_reads_text : reads_text text_content.
Proof. intros tagName attrs. by split. Qed.

(** The container encoding of a mapping whose name space, keys and values
    the parser reads back as they are. *)
Lemma meta_list_to_xml_string_entries (xmlns : string)
    (metadata : gmap string string) :
  xml_key xmlns -> Forall xml_entry (map_to_list metadata) ->
  _meta_list_to_xml_string xmlns {[ "metadata" := metadata ]}
  = Ok (Minidom.xml_declaration "UTF-8"
        +:+ metadata_xml xmlns (map_to_list metadata)).
Proof.
  intros Hns Hentries.
  rewrite meta_list_to_xml_string_document, writexml_metadata_xml.
  pose proof (xml_value_is_ascii _ (metadata_xml_chars _ _ Hns Hentries))
    as Hascii.
  unfold is_ascii_string in Hascii.
  by rewrite all_chars_append, Hascii.
Qed.

(** A value with a carriage return holds none of the characters that need
    escaping; it is written as it is, and read back with a line feed in its
    place. *)
Lemma metadata_container_carriage_return :
  let value := String "a" (String "013" "b") in
  let read := String "a" (String "010" "b") in
  Forall (fun c => Py.contains c value = false)
         ["&"; "<"; ">"; "034"; "'"]%char
  /\ (document ← _meta_list_to_xml_string XML_NS_V11
                   {[ "metadata" := {[ "k" := value ]} ]};
      _extract_metadata_container Minidom.parseString text_content document)
     = Ok {[ "body" := {[ "metadata" := {[ "k" := read ]} ]} ]}
  /\ {[ "k" := read ]} <> ({[ "k" := value ]} : gmap string string).
Proof.
  cbv zeta. split; [by repeat constructor |]. split; [reflexivity |].
  intros Heq. apply (f_equal (fun m : gmap string string => m !! "k")) in Heq.
  rewrite !lookup_singleton_eq in Heq. discriminate.
Qed.

(** C1 (amended). For a mapping whose keys consist of 7-bit characters from
    the space on and whose values consist of such characters, tabs and line
    feeds, the characters that the writer escapes included, and for a name
    space that the parser accepts, the container encoding is the document
    with a [metadata] root element and one [meta] child for each entry, the
    key as its [key] attribute and the value as its text, and the container
    decode of this document is the mapping again, for every [extract_text]
    that gives the text of an element whose content is one text or
    nothing. *)
Theorem metadata_container_round_trip
    (extract_text : Minidom.pnode -> string) (xmlns : string)
    (metadata : gmap string string) :
  reads_text extract_text ->
  namespace_name xmlns ->
  map_Forall (fun key value => xml_key key /\ xml_value value) metadata ->
  exists document,
    _meta_list_to_xml_string xmlns {[ "metadata" := metadata ]} = Ok document
    /\ document
       = Minidom.xml_declaration "UTF-8"
         +:+ Minidom.writexml
               (metadata_document xmlns (map_to_list metadata))
    /\ _extract_metadata_container Minidom.parseString extract_text document
       = Ok {[ "body" := {[ "metadata" := metadata ]} ]}.
Proof.
  intros Hreads Hns Hchars.
  assert (Hentries : Forall xml_entry (map_to_list metadata)).
  { apply Forall_forall. intros [key value] Hin%elem_of_map_to_list.
    exact (Hchars key value Hin). }
  eexists. split; [by apply meta_list_to_xml_string_entries; [apply Hns |] |].
  split; [by rewrite writexml_metadata_xml |].
  unfold _extract_metadata_container.
  rewrite (parse_metadata_xml_document _ _ Hns Hentries).
  cbn [mbind result_bind]. rewrite (extract_parsed_metadata _ _ _ Hreads).
  cbn [mbind result_bind].
  rewrite foldl_insert_list_to_map by apply NoDup_fst_map_to_list.
  by rewrite list_to_map_to_list.
Qed.

Lemma metadata_container_round_trip_witness :
  exists document,
    _meta_list_to_xml_string XML_NS_V11
      {[ "metadata" := {[ "a<b" := "x & y > z"; "b" := "two words" ]} ]}
    = Ok document
    /\ _extract_metadata_container Minidom.parseString text_content document
       = Ok {[ "body" :=
                 {[ "metadata" :=
                      {[ "a<b" := "x & y > z"; "b" := "two words" ]} ]} ]}.
Proof.
  destruct (metadata_container_round_trip text_content XML_NS_V11
              {[ "a<b" := "x & y > z"; "b" := "two words" ]})
    as (document & Hwrite & _ & Hread).
  - apply text_content_reads_text.
  - by split.
  - apply map_Forall_insert_2; [by split |].
    apply map_Forall_singleton. by split.
  - exists document. by split.
Defined.

(** ** Further properties of pagination *)

(** [int] raises nothing but [ValueError], so the handler of
    [get_pagination_params] and of [limited] always runs. *)
Lemma try_int_raise (s : string) (e : exn) (h : exn -> result Z) :
  Py.int s = Raise e -> try_except (Py.int s) is_ValueError h = h e.
Proof.
  intros Hint. rewrite Hint. cbn [try_except].
  by rewrite (int_raises_ValueError _ _ Hint).
Qed.

(** The parameters collected by the loop: those of [names] that the query
    holds, with their integer values, on top of the ones collected before. *)
Lemma pagination_loop_entries (names : list string) (GET : query_params)
    (params0 params : gmap string Z) :
  pagination_loop names GET params0 = Ok params ->
  forall param v,
    params !! param = Some v
    <-> (param ∈ names
         /\ exists s, GET !! param = Some s /\ Py.int s = Ok v /\ 0 <= v)
        \/ ((param ∉ names \/ GET !! param = None)
            /\ params0 !! param = Some v).
Proof.
  revert params0. induction names as [| name rest IH]; intros params0 Hrun.
  - simpl in Hrun. injection Hrun as <-. intros param v. split.
    + intros Hv. right. split; [left; apply not_elem_of_nil | done].
    + intros [[Hin _] | [_ Hv]]; [by apply elem_of_nil in Hin | done].
  - simpl in Hrun. destruct (GET !! name) as [s |] eqn:Hs.
    + destruct (Py.int s) as [n | e] eqn:Hint.
      2: { cbn [try_except] in Hrun.
           by rewrite (int_raises_ValueError _ _ Hint) in Hrun. }
      cbn [try_except mbind result_bind] in Hrun.
      destruct (Z.ltb_spec n 0) as [Hneg | Hpos]; [done |].
      intros param v. rewrite (IH _ Hrun param v).
      rewrite !elem_of_cons.
      destruct (decide (param = name)) as [-> | Hne].
      * rewrite lookup_insert_eq, Hs. split.
        -- intros [[Hin (s' & [= <-] & Hs' & Hv)] | [_ [= <-]]];
             left; (split; [by left |]); by exists s.
        -- intros [[_ (s' & [= <-] & Hs' & Hv)] | [[Hn | Hn] _]];
             [| exfalso; apply Hn; by left | done].
           assert (v = n) as -> by congruence.
           destruct (decide (name ∈ rest)) as [Hin | Hnin].
           ++ left. split; [done |]. by exists s.
           ++ right. split; [by left | done].
      * rewrite lookup_insert_ne by done. split.
        -- intros [[Hin Hv] | [[Hnin | Hnone] Hv]].
           ++ left. split; [by right | done].
           ++ right. split; [| done]. left. by intros [-> | Hin].
           ++ right. split; [by right | done].
        -- intros [[[-> | Hin] Hv] | [[Hnin | Hnone] Hv]]; [done | | |].
           ++ left. by split.
           ++ right. split; [| done]. left. intros Hin. apply Hnin. by right.
           ++ right. split; [by right | done].
    + intros param v. rewrite (IH _ Hrun param v). rewrite !elem_of_cons.
      split.
      * intros [[Hin Hv] | [[Hnin | Hnone] Hv]].
        -- left. split; [by right | done].
        -- destruct (decide (param = name)) as [-> | Hne].
           ++ right. split; [by right | done].
           ++ right. split; [| done]. left. by intros [-> | Hin].
        -- right. split; [by right | done].
      * intros [[[-> | Hin] Hv] | [[Hnin | Hnone] Hv]].
        -- destruct Hv as (s' & Hs' & _). congruence.
        -- left. by split.
        -- right. split; [| done]. left. intros Hin. apply Hnin. by right.
        -- right. split; [by right | done].
Qed.

(** X1. When [get_pagination_params] returns, its result holds exactly the
    parameters among ['marker'] and ['limit'] that the query holds, each
    with the integer value of its text, and no value is negative. *)
Theorem get_pagination_params_entries (GET : query_params)
    (params : gmap string Z) :
  get_pagination_params GET = Ok params ->
  forall param v,
    params !! param = Some v
    <-> (param = "marker" \/ param = "limit")
        /\ exists s, GET !! param = Some s /\ Py.int s = Ok v /\ 0 <= v.
Proof.
  intros Hrun param v.
  rewrite (pagination_loop_entries _ _ _ _ Hrun param v).
  rewrite lookup_empty, !elem_of_cons, elem_of_nil. split.
  - intros [[[-> | [-> | []]] Hv] | [_ [=]]]; (split; [| done]); auto.
  - intros [[-> | ->] Hv]; left; (split; [| done]); auto.
Qed.

Lemma get_pagination_params_entries_witness :
  ({[ "limit" := 7 ]} : gmap string Z) !! "limit" = Some 7
  <-> ("limit" = "marker" \/ "limit" = "limit")
      /\ exists s,
           ({[ "limit" := " 07 "; "offset" := "x" ]} : query_params) !! "limit"
           = Some s
           /\ Py.int s = Ok 7 /\ 0 <= 7.
Proof.
  apply (get_pagination_params_entries
           {[ "limit" := " 07 "; "offset" := "x" ]} {[ "limit" := 7 ]}).
  reflexivity.
Defined.

(** The loop fails at the first name whose text is not an integer or is a
    negative integer. *)
Lemma pagination_loop_errors (names : list string) (GET : query_params)
    (params0 : gmap string Z) (e : exn) :
  pagination_loop names GET params0 = Raise e ->
  exists before param after s,
    names = (before ++ param :: after)%list
    /\ GET !! param = Some s
    /\ (forall name text,
          name ∈ before -> GET !! name = Some text ->
          exists m, Py.int text = Ok m /\ 0 <= m)
    /\ ((exists e', Py.int s = Raise e')
          /\ e = HTTPBadRequest (param +:+ " param must be an integer")
        \/ (exists v, Py.int s = Ok v /\ v < 0)
          /\ e = HTTPBadRequest (param +:+ " param must be positive")).
Proof.
  revert params0. induction names as [| name rest IH]; intros params0 Hrun;
    [done |].
  assert (Hlater :
    forall params1,
      (forall text, GET !! name = Some text ->
         exists m, Py.int text = Ok m /\ 0 <= m) ->
      pagination_loop rest GET params1 = Raise e ->
      exists before param after s,
        name :: rest = (before ++ param :: after)%list
        /\ GET !! param = Some s
        /\ (forall name text,
              name ∈ before -> GET !! name = Some text ->
              exists m, Py.int text = Ok m /\ 0 <= m)
        /\ ((exists e', Py.int s = Raise e')
              /\ e = HTTPBadRequest (param +:+ " param must be an integer")
            \/ (exists v, Py.int s = Ok v /\ v < 0)
              /\ e = HTTPBadRequest (param +:+ " param must be positive"))).
  { intros params1 Hname Hrest.
    destruct (IH _ Hrest) as (before & param & after & s & -> & Hs & Hb & Hc).
    exists (name :: before), param, after, s.
    split; [done |]. split; [done |]. split; [| done].
    intros name' text [-> | Hin]%elem_of_cons; [apply Hname | by apply Hb]. }
  simpl in Hrun. destruct (GET !! name) as [s |] eqn:Hs.
  - destruct (Py.int s) as [v | e'] eqn:Hint.
    + cbn [try_except mbind result_bind] in Hrun.
      destruct (Z.ltb_spec v 0) as [Hneg | Hpos].
      * injection Hrun as <-. exists [], name, rest, s.
        split; [done |]. split; [done |].
        split; [by intros ?? ?%elem_of_nil |].
        right. split; [by exists v | done].
      * apply (Hlater _ ltac:(intros text [= <-]; by exists v) Hrun).
    + cbn [try_except] in Hrun.
      rewrite (int_raises_ValueError _ _ Hint) in Hrun.
      injection Hrun as <-. exists [], name, rest, s.
      split; [done |]. split; [done |].
      split; [by intros ?? ?%elem_of_nil |].
      left. split; [by exists e' | done].
  - apply (Hlater _ ltac:(by intros text [=]) Hrun).
Qed.

(** X2. [get_pagination_params] fails only with [HTTPBadRequest], and the
    explanation names the first of ['marker'], ['limit'] whose text is not
    an integer or is a negative integer: ['limit'] is reported only when
    ['marker'] is absent or valid. *)
Theorem get_pagination_params_errors (GET : query_params) (e : exn) :
  get_pagination_params GET = Raise e ->
  exists param s,
    GET !! param = Some s
    /\ (param = "marker"
        \/ param = "limit"
           /\ forall text, GET !! "marker" = Some text ->
                exists m, Py.int text = Ok m /\ 0 <= m)
    /\ ((exists e', Py.int s = Raise e')
          /\ e = HTTPBadRequest (param +:+ " param must be an integer")
        \/ (exists v, Py.int s = Ok v /\ v < 0)
          /\ e = HTTPBadRequest (param +:+ " param must be positive")).
Proof.
  intros Hrun.
  destruct (pagination_loop_errors _ _ _ _ Hrun)
    as (before & param & after & s & Hnames & Hs & Hbefore & Hcase).
  exists param, s. split; [done |]. split; [| done].
  destruct before as [| name before]; [left; by injection Hnames |].
  injection Hnames as <- Hnames. right.
  destruct before as [| name' before].
  - injection Hnames as <- _. split; [done |].
    intros text Htext. apply (Hbefore "marker" text); [by left | done].
  - injection Hnames as _ Hnames. by destruct before.
Qed.

Lemma get_pagination_params_errors_witness :
  exists param s,
    ({[ "marker" := "-1"; "limit" := "x" ]} : query_params) !! param = Some s
    /\ (param = "marker"
        \/ param = "limit"
           /\ forall text,
                ({[ "marker" := "-1"; "limit" := "x" ]} : query_params)
                  !! "marker" = Some text ->
                exists m, Py.int text = Ok m /\ 0 <= m)
    /\ ((exists e', Py.int s = Raise e')
          /\ HTTPBadRequest "marker param must be positive"
             = HTTPBadRequest (param +:+ " param must be an integer")
        \/ (exists v, Py.int s = Ok v /\ v < 0)
          /\ HTTPBadRequest "marker param must be positive"
             = HTTPBadRequest (param +:+ " param must be positive")).
Proof.
  apply (get_pagination_params_errors {[ "marker" := "-1"; "limit" := "x" ]}).
  reflexivity.
Defined.




(** X4. Without an offset and without a marker, and with a limit that is
    absent or is not zero, [limited_by_marker] and [limited] do the same:
    they return the same window or raise the same error. *)
Theorem limited_by_marker_agrees_with_limited (items : list item)
    (GET : query_params) (max_limit : Z) :
  0 <= max_limit ->
  GET !! "offset" = None -> GET !! "marker" = None ->
  (forall s, GET !! "limit" = Some s -> Py.int s <> Ok 0) ->
  limited_by_marker items GET max_limit = limited items GET max_limit.
Proof.
  intros Hmax Hoffset Hmarker Hlimit.
  unfold limited_by_marker, limited, get_pagination_params, get_int.
  rewrite (pagination_loop_absent _ _ _ _ Hmarker), Hoffset.
  cbn [pagination_loop try_except mbind result_bind].
  destruct (GET !! "limit") as [s |] eqn:Hs.
  - destruct (Py.int s) as [limit | e] eqn:Hint.
    + cbn [try_except mbind result_bind].
      destruct (Z.ltb_spec limit 0) as [Hneg | Hpos]; [done |].
      cbn [mbind result_bind].
      rewrite (lookup_insert_ne _ "limit" "marker") by done.
      rewrite lookup_insert_eq, lookup_empty.
      cbn [truthy default from_option id mbind result_bind].
      change (0 <? 0) with false. cbv iota.
      destruct (Z.eqb_spec limit 0) as [-> | Hne]; [| done].
      by destruct (Hlimit s eq_refl).
    + cbn [try_except]. rewrite (int_raises_ValueError _ _ Hint).
      reflexivity.
  - cbn [try_except mbind result_bind]. rewrite !lookup_empty.
    cbn [truthy default from_option id mbind result_bind].
    destruct (Z.ltb_spec max_limit 0) as [Hneg | _]; [lia |].
    change (0 <? 0) with false. cbv iota.
    by destruct (max_limit =? 0).
Qed.

Lemma limited_by_marker_agrees_with_limited_witness :
  limited_by_marker [with_id 1; with_id 2; with_id 3] {[ "limit" := "2" ]} 50
  = limited [with_id 1; with_id 2; with_id 3] {[ "limit" := "2" ]} 50.
Proof.
  apply limited_by_marker_agrees_with_limited; [lia | done | done |].
  intros s Hs. by simplify_map_eq.
Defined.

(** [limited] with a valid offset and a limit between 1 and [max_limit]. *)
Lemma limited_valid {A} (items : list A) (GET : query_params)
    (max_limit offset limit : Z) :
  get_int GET "offset" 0 = Ok offset -> 0 <= offset ->
  get_int GET "limit" max_limit = Ok limit -> 0 < limit <= max_limit ->
  limited items GET max_limit
  = Ok (take (Z.to_nat limit) (drop (Z.to_nat offset) items)).
Proof.
  intros Hoffset Hoffset0 Hlimit Hlimit0. unfold limited.
  rewrite Hoffset, Hlimit. cbn [try_except mbind result_bind].
  destruct (Z.ltb_spec limit 0); [lia |].
  destruct (Z.ltb_spec offset 0); [lia |].
  destruct (Z.eqb_spec limit 0); [lia |].
  rewrite Z.min_r by lia. f_equal. apply slice_window; lia.
Qed.

(** X5. Pages of [limited] follow one another: the page at [offset] and the
    page at [offset + limit], of [limit] items each, make up the window of
    [2 * limit] items at [offset]; no item is skipped and none is
    repeated. *)
Theorem limited_consecutive_pages {A} (items : list A)
    (GET1 GET2 : query_params) (max_limit offset limit : Z) :
  0 <= offset -> 0 < limit <= max_limit ->
  get_int GET1 "offset" 0 = Ok offset ->
  get_int GET1 "limit" max_limit = Ok limit ->
  get_int GET2 "offset" 0 = Ok (offset + limit) ->
  get_int GET2 "limit" max_limit = Ok limit ->
  exists page1 page2,
    limited items GET1 max_limit = Ok page1
    /\ limited items GET2 max_limit = Ok page2
    /\ (page1 ++ page2)%list
       = take (Z.to_nat (2 * limit)) (drop (Z.to_nat offset) items).
Proof.
  intros Hoffset Hlimit Hoffset1 Hlimit1 Hoffset2 Hlimit2.
  eexists _, _.
  split; [by apply limited_valid |].
  split; [apply limited_valid; [done | lia | done | done] |].
  replace (Z.to_nat (offset + limit))
    with (Z.to_nat offset + Z.to_nat limit)%nat by lia.
  rewrite <- drop_drop, take_take_drop. f_equal. lia.
Qed.

Lemma limited_consecutive_pages_witness :
  exists page1 page2,
    limited [1; 2; 3; 4; 5] {[ "offset" := "1"; "limit" := "2" ]} 50 = Ok page1
    /\ limited [1; 2; 3; 4; 5] {[ "offset" := "3"; "limit" := "2" ]} 50
       = Ok page2
    /\ (page1 ++ page2)%list
       = take (Z.to_nat (2 * 2)) (drop (Z.to_nat 1) [1; 2; 3; 4; 5]).
Proof.
  apply (limited_consecutive_pages [1; 2; 3; 4; 5]
           {[ "offset" := "1"; "limit" := "2" ]}
           {[ "offset" := "3"; "limit" := "2" ]} 50 1 2);
    [lia | lia | reflexivity ..].
Defined.

(** The scan raises only when it meets an item without an ['id']. *)
Lemma marker_scan_raises (items : list item) (marker i : Z) (e : exn) :
  marker_scan items marker i = Raise e ->
  e = KeyError "id" /\ Exists (fun it : item => it !! "id" = None) items.
Proof.
  revert i. induction items as [| it rest IH]; intros i Hscan; [done |].
  simpl in Hscan. unfold getitem in Hscan.
  destruct (it !! "id") as [id |] eqn:Hid.
  - cbn [mbind result_bind] in Hscan.
    destruct (decide (id = PyInt marker)); [done |].
    destruct (IH _ Hscan) as [-> Hrest]. split; [done |]. by right.
  - injection Hscan as <-. split; [done |]. by left.
Qed.

(** X6. [limited_by_marker] fails only with [HTTPBadRequest], or with the
    [KeyError] of an item that has no ['id']; when every item has an ['id']
    the only failure is [HTTPBadRequest]. *)
Theorem limited_by_marker_errors (items : list item) (GET : query_params)
    (max_limit : Z) (e : exn) :
  limited_by_marker items GET max_limit = Raise e ->
  (exists explanation, e = HTTPBadRequest explanation)
  \/ (e = KeyError "id"
      /\ Exists (fun it : item => it !! "id" = None) items).
Proof.
  unfold limited_by_marker. intros Hrun.
  destruct (get_pagination_params GET) as [params | e'] eqn:Hparams.
  2: { injection Hrun as <-.
       destruct (pagination_loop_errors _ _ _ _ Hparams)
         as (_ & param & _ & _ & _ & _ & _ & [[_ ->] | [_ ->]]);
         left; by eexists. }
  cbn [mbind result_bind] in Hrun.
  destruct (truthy (params !! "marker")); [| done].
  destruct (marker_scan items (default 0 (params !! "marker")) 0)
    as [start | e'] eqn:Hscan.
  - cbn [mbind result_bind] in Hrun.
    destruct (start <? 0); [| done].
    injection Hrun as <-. left. by eexists.
  - injection Hrun as <-. right. by apply marker_scan_raises in Hscan.
Qed.

Lemma limited_by_marker_errors_witness :
  (exists explanation, KeyError "id" = HTTPBadRequest explanation)
  \/ (KeyError "id" = KeyError "id"
      /\ Exists (fun it : item => it !! "id" = None)
                [with_id 1; {[ "name" := PyStr "a" ]}; with_id 3]).
Proof.
  apply (limited_by_marker_errors
           [with_id 1; {[ "name" := PyStr "a" ]}; with_id 3]
           {[ "marker" := "3" ]} 50).
  reflexivity.
Defined.

(** The scan on items with distinct ['id']s stops after the item that
    carries the marker. *)
Lemma marker_scan_distinct (items : list item) (ids : list Z) (k : nat)
    (m i : Z) :
  Forall2 (fun (it : item) id => it !! "id" = Some (PyInt id)) items ids ->
  NoDup ids -> ids !! k = Some m ->
  marker_scan items m i = Ok (i + Z.of_nat k + 1).
Proof.
  intros Hids. revert k i.
  induction Hids as [| it id items ids Hid _ IH]; intros k i Hnodup Hk;
    [done |].
  apply NoDup_cons in Hnodup as [Hfresh Hnodup].
  simpl. unfold getitem. rewrite Hid. cbn [mbind result_bind].
  destruct k as [| k].
  - injection Hk as ->. rewrite decide_True by done. f_equal. lia.
  - simpl in Hk. rewrite decide_False.
    + rewrite (IH k _ Hnodup Hk). f_equal. lia.
    + intros [= ->]. apply Hfresh. by eapply list_elem_of_lookup_2.
Qed.

(** X7. Following the marker: when the items carry distinct ['id']s, the
    page asked for with the ['id'] of the last item of the first page as its
    marker holds the items that come next, so that the two pages together
    are the first [2 * min max_limit limit] items. *)
Theorem limited_by_marker_next_page (items : list item) (ids : list Z)
    (GET1 GET2 : query_params) (max_limit limit : Z) (page1 : list item)
    (last_item : item) (s : string) (m : Z) :
  0 < max_limit ->
  Forall2 (fun (it : item) id => it !! "id" = Some (PyInt id)) items ids ->
  NoDup ids ->
  GET1 !! "marker" = None ->
  get_int GET1 "limit" max_limit = Ok limit -> 0 <= limit ->
  limited_by_marker items GET1 max_limit = Ok page1 ->
  last page1 = Some last_item ->
  last_item !! "id" = Some (PyInt m) -> 0 < m ->
  GET2 !! "marker" = Some s -> Py.int s = Ok m ->
  get_int GET2 "limit" max_limit = Ok limit ->
  exists page2,
    limited_by_marker items GET2 max_limit = Ok page2
    /\ (page1 ++ page2)%list
       = take (2 * Z.to_nat (Z.min max_limit limit)) items.
Proof.
  intros Hmax Hids Hnodup Hmarker1 Hlimit1 Hlimit Hpage1 Hlast Hid Hm
    Hmarker2 Hint Hlimit2.
  rewrite (limited_by_marker_no_marker _ _ _ _ Hmax Hlimit1 Hlimit Hmarker1)
    in Hpage1.
  injection Hpage1 as <-.
  set (n := Z.to_nat (Z.min max_limit limit)) in *.
  assert (Hn : Z.min max_limit limit = Z.of_nat n) by lia.
  apply last_Some in Hlast as [front Hfront].
  set (k := length front).
  assert (Hk : items !! k = Some last_item).
  { assert (Htaken : take n items !! k = Some last_item)
      by (rewrite Hfront; by apply list_lookup_middle).
    by apply lookup_take_Some in Htaken as [? _]. }
  assert (Hlen : S k = length (take n items))
    by (rewrite Hfront, length_app; simpl; lia).
  rewrite length_take in Hlen.
  destruct (Forall2_lookup_l _ _ _ _ _ Hids Hk) as (m' & Hm' & Hid').
  assert (m' = m) as -> by congruence.
  destruct (params_with_marker _ _ _ _ _ Hmarker2 Hint ltac:(lia)
              Hlimit2 Hlimit) as (params & Hparams & Hpm & Hpl).
  rewrite (limited_by_marker_params _ _ _ _ Hparams), Hpm, Hpl.
  cbn [truthy default from_option id].
  destruct (Z.eqb_spec m 0); [lia |]. cbn [negb].
  rewrite (marker_scan_distinct _ _ _ _ _ Hids Hnodup Hm').
  cbn [mbind result_bind].
  destruct (Z.ltb_spec (0 + Z.of_nat k + 1) 0); [lia |].
  cbn [mbind result_bind]. eexists. split; [done |].
  rewrite slice_window, Hn by lia.
  replace (Z.to_nat (0 + Z.of_nat k + 1)) with (S k) by lia.
  rewrite Nat2Z.id.
  destruct (decide (n <= length items)%nat) as [Hfit | Hover].
  - replace (S k) with n by lia. rewrite take_take_drop. f_equal. lia.
  - rewrite (take_ge items n), (take_ge items (2 * n)) by lia.
    rewrite drop_ge by lia. by rewrite take_nil, app_nil_r.
Qed.

Lemma limited_by_marker_next_page_witness :
  exists page2,
    limited_by_marker [with_id 7; with_id 3; with_id 9; with_id 4; with_id 8]
      {[ "marker" := "3"; "limit" := "2" ]} 50 = Ok page2
    /\ ([with_id 7; with_id 3] ++ page2)%list
       = take (2 * Z.to_nat (Z.min 50 2))
              [with_id 7; with_id 3; with_id 9; with_id 4; with_id 8].
Proof.
  apply (limited_by_marker_next_page
           [with_id 7; with_id 3; with_id 9; with_id 4; with_id 8]
           [7; 3; 9; 4; 8]
           {[ "limit" := "2" ]} {[ "marker" := "3"; "limit" := "2" ]}
           50 2 [with_id 7; with_id 3] (with_id 3) "3" 3);
    [lia | by repeat constructor | | reflexivity | reflexivity | lia
     | reflexivity | reflexivity | reflexivity | lia | reflexivity
     | reflexivity | reflexivity].
  apply (bool_decide_unpack (NoDup [7; 3; 9; 4; 8])). by vm_compute.
Defined.

(** ** Further properties of the status mapping *)

(** A successful lookup returns an entry of the dictionary, and the first
    one with that key. *)
Lemma dict_getitem_entry {K V} `{EqDecision K} (d : list (K * V)) (key : K)
    (v : V) :
  dict_getitem d key = Ok v -> (key, v) ∈ d.
Proof.
  induction d as [| [k v'] rest IH]; [done |]. simpl. case_decide as Hk.
  - intros [= ->]. subst. by left.
  - intros Hrest. right. by apply IH.
Qed.

Lemma dict_getitem_unique {K V} `{EqDecision K} (d : list (K * V)) (key : K)
    (v : V) :
  NoDup d.*1 -> (key, v) ∈ d -> dict_getitem d key = Ok v.
Proof.
  induction d as [| [k v'] rest IH]; [by intros _ ?%elem_of_nil |].
  rewrite fmap_cons. intros [Hfresh Hnodup]%NoDup_cons. simpl.
  intros [[= -> ->] | Hin]%elem_of_cons.
  - by rewrite decide_True.
  - rewrite decide_False; [by apply IH |].
    intros ->. apply Hfresh. apply list_elem_of_fmap. by exists (key, v).
Qed.

Lemma power_states_loop_complete entries status (p : power_state)
    (status_map : string) :
  (Some p, status_map) ∈ entries ->
  Py.lower status = Py.lower status_map ->
  Some p ∈ power_states_loop entries status.
Proof.
  intros Hin Hlower.
  induction entries as [| [[q |] sm] rest IH]; [by apply elem_of_nil in Hin | |].
  - simpl. apply elem_of_cons in Hin as [[= -> ->] | Hin].
    + rewrite decide_True by done. by left.
    + case_decide; [right |]; by apply IH.
  - simpl. apply elem_of_cons in Hin as [[=] | Hin]. by apply IH.
Qed.

Lemma _STATUS_MAP_keys : NoDup _STATUS_MAP.*1.
Proof. apply (bool_decide_unpack (NoDup _STATUS_MAP.*1)). by vm_compute. Qed.

(** X9. [power_states_from_status] returns exactly the power states whose
    status is the given one, letter case apart; in particular the status of
    a power state gives back a list that holds the state. *)
Theorem power_states_from_status_complete (status : string)
    (p : power_state) :
  (Some p ∈ power_states_from_status status
   <-> exists s, status_from_power_state (Some p) = Ok s
                 /\ Py.lower status = Py.lower s)
  /\ (forall s, status_from_power_state (Some p) = Ok s ->
        Some p ∈ power_states_from_status s).
Proof.
  assert (Hcomplete : forall status' s,
            status_from_power_state (Some p) = Ok s ->
            Py.lower status' = Py.lower s ->
            Some p ∈ power_states_from_status status').
  { intros status' s Hs Hlower.
    apply (power_states_loop_complete _ _ _ s); [| done].
    by apply dict_getitem_entry. }
  split; [split |].
  - intros (s & Hentry & Hlower)%power_states_loop_matches.
    exists s. split; [| done].
    by apply dict_getitem_unique; [apply _STATUS_MAP_keys |].
  - intros (s & Hs & Hlower). by apply (Hcomplete _ s).
  - intros s Hs. by apply (Hcomplete _ s).
Qed.

(** X10. A status that is none of the seven status strings, letter case
    apart, has no power state: the result is the empty list, not an error;
    and only such a status has none. *)
Theorem power_states_from_status_unknown (status : string) :
  power_states_from_status status = []
  <-> forall s, s ∈ status_strings -> Py.lower status <> Py.lower s.
Proof.
  split.
  - intros Hnone s Hs Hlower.
    assert (Hp : exists p : power_state,
              status_from_power_state (Some p) = Ok s).
    { unfold status_strings in Hs.
      repeat (apply elem_of_cons in Hs as [-> | Hs]);
        [by exists NOSTATE | by exists RUNNING | by exists SUSPENDED
         | by exists PAUSED | by exists SHUTDOWN | by exists SHUTOFF
         | by exists CRASHED | by apply elem_of_nil in Hs]. }
    destruct Hp as [p Hp].
    assert (Hin : Some p ∈ power_states_from_status status).
    { apply (power_states_loop_complete _ _ _ s); [| done].
      by apply dict_getitem_entry. }
    rewrite Hnone in Hin. by apply elem_of_nil in Hin.
  - intros Hunknown.
    destruct (power_states_from_status status) as [| p rest] eqn:Hstates;
      [done |].
    assert (Hin : p ∈ power_states_from_status status)
      by (rewrite Hstates; by left).
    apply power_states_loop_matches in Hin as (s & Hentry & Hlower).
    destruct (Hunknown s); [| done].
    unfold _STATUS_MAP in Hentry. unfold status_strings.
    repeat (apply elem_of_cons in Hentry as [[= _ ->] | Hentry]);
      try (by apply elem_of_nil in Hentry);
      repeat first [ by left | right ].
Qed.

(** ** Further properties of the href helpers *)

Lemma findall_from_O (r : Re.regex) (bos : bool) (s : string) :
  Re.findall_from r bos s 0
  = match Re.match_at r bos s with
    | Some m =>
        Re.group0 m ::
        match s with
        | String _ s' =>
            Re.findall_from r false s' (String.length (Re.group0 m) - 1)
        | EmptyString => []
        end
    | None =>
        match s with
        | String _ s' => Re.findall_from r false s' 0
        | EmptyString => []
        end
    end.
Proof. by destruct s. Qed.

(** Every text that [findall] returns is the text of a match. *)
Lemma findall_from_Forall (r : Re.regex) (P : string -> Prop) (s : string)
    (bos : bool) (skip : nat) :
  (forall bos' s' m, Re.match_at r bos' s' = Some m -> P (Re.group0 m)) ->
  Forall P (Re.findall_from r bos s skip).
Proof.
  intros Hmatch. revert bos skip.
  induction s as [| c s IH]; intros bos [| skip].
  - rewrite findall_from_O.
    destruct (Re.match_at r bos "") as [m |] eqn:Hm; [| done].
    constructor; [by eapply Hmatch | done].
  - done.
  - rewrite findall_from_O.
    destruct (Re.match_at r bos (String c s)) as [m |] eqn:Hm; [| apply IH].
    constructor; [by eapply Hmatch | apply IH].
  - apply IH.
Qed.

(** The search passes a prefix at no position of which the pattern
    matches. *)
Lemma findall_from_unmatched (r : Re.regex) (pre rest : string) (bos : bool) :
  (forall bos' a b,
     pre = a +:+ b -> b <> "" -> Re.match_at r bos' (b +:+ rest) = None) ->
  exists bos',
    Re.findall_from r bos (pre +:+ rest) 0 = Re.findall_from r bos' rest 0.
Proof.
  revert bos. induction pre as [| c pre IH]; intros bos Hnone.
  - by exists bos.
  - rewrite findall_from_O, (Hnone bos "" (String c pre)) by done.
    rewrite append_cons. apply IH.
    intros bos' a b -> Hb. by apply (Hnone bos' (String c a) b).
Qed.

Lemma match_at_inv (r : Re.regex) (bos : bool) (s : string)
    (m : Re.rmatched) :
  Re.match_at r bos s = Some m ->
  exists st,
    Re.rmatch r (Re.mkState bos s "") Some = Some st
    /\ m = Re.mkMatch (Re.consumed s (Re.input st)) (Re.group1 st)
                      (Re.input st).
Proof.
  unfold Re.match_at.
  destruct (Re.rmatch r (Re.mkState bos s "") Some) as [st |]; [| done].
  intros [= <-]. by exists st.
Qed.

(** A match of [[0-9]+\.[0-9]] is a run of digits, a dot and one digit. *)
Lemma match_at_version_digits_inv (bos : bool) (s : string)
    (m : Re.rmatched) :
  Re.match_at version_digits_re bos s = Some m ->
  one_minor_digit (Re.group0 m).
Proof.
  intros (st & Hst & ->)%match_at_inv. cbn [Re.group0].
  revert Hst. unfold version_digits_re, Re.Lit, Re.Digit.
  cbn [Re.rmatch Re.input Re.group1].
  destruct s as [| c1 s]; [done |].
  destruct (Py.isdigit c1) eqn:Hc1; [| done].
  intros (d & rest & -> & Hd & Hk)%many_inv.
  cbn [Re.rmatch Re.input Re.group1] in Hk.
  destruct rest as [| a rest]; [done |].
  destruct (Ascii.eqb_spec "." a) as [<- | _]; [| done].
  destruct rest as [| c2 rest]; [done |].
  destruct (Py.isdigit c2) eqn:Hc2; [| done].
  injection Hk as <-. cbn [Re.input].
  exists (String c1 d), c2. unfold is_digits. simpl. rewrite Hc1, Hd.
  split; [done |]. split; [done |].
  replace (String c1 (d +:+ String "." (String c2 rest)))
    with ((String c1 d +:+ "." +:+ String c2 "") +:+ rest)
    by (rewrite !append_assoc; by push_append).
  apply consumed_append.
Qed.

Lemma match_at_version_digits (bos : bool) (d rest : string) (c : ascii) :
  is_digits d = true -> Py.isdigit c = true ->
  exists m,
    Re.match_at version_digits_re bos (d +:+ "." +:+ String c rest) = Some m
    /\ Re.group0 m = d +:+ "." +:+ String c "".
Proof.
  intros (c1 & d' & -> & Hc1 & Hd)%is_digits_cons Hc.
  unfold Re.match_at, version_digits_re, Re.Lit, Re.Digit. push_append.
  cbn [Re.rmatch Re.input Re.group1]. rewrite Hc1.
  rewrite (many_greedy Py.isdigit d' (String "." (String c rest)) _
             (Re.mkState false rest "") Hd eq_refl).
  2: { cbn [Re.rmatch Re.input Re.group1 Ascii.eqb Bool.eqb].
       by rewrite Hc. }
  eexists. split; [done |]. cbn [Re.group0 Re.input].
  replace (String c1 (d' +:+ String "." (String c rest)))
    with ((String c1 d' +:+ "." +:+ String c "") +:+ rest)
    by (rewrite !append_assoc; by push_append).
  rewrite consumed_append. by push_append.
Qed.

(** X11. [get_version_from_href] never raises, and what it returns is a run
    of digits, a dot and one digit: the default ["1.0"], or the major part
    of the version found with the first digit of its minor part. *)
Theorem get_version_from_href_shape (href : string) :
  exists version,
    get_version_from_href href = Ok version /\ one_minor_digit version.
Proof.
  assert (Hdefault : one_minor_digit "1.0") by (by exists "1", "0"%char).
  unfold get_version_from_href. cbv zeta.
  destruct (match Re.findall version_inside_re href with
            | [] => Re.findall version_at_end_re href
            | _ => Re.findall version_inside_re href
            end) as [| matched rest].
  - by exists "1.0".
  - cbn [Py.first_item mbind result_bind].
    pose proof (findall_from_Forall version_digits_re one_minor_digit
                  matched true 0 match_at_version_digits_inv) as Hall.
    fold (Re.findall version_digits_re matched) in Hall.
    destruct (Re.findall version_digits_re matched) as [| v vs];
      [by exists "1.0" |].
    exists v. split; [done |]. by apply Forall_cons in Hall as [? _].
Qed.

Lemma digits_no_slash (d : string) :
  Py.all_chars Py.isdigit d = true -> Py.contains "/" d = false.
Proof.
  induction d as [| c d IH]; [done |]. simpl.
  intros [Hc Hd]%andb_prop. rewrite (IH Hd), orb_false_r.
  destruct (Ascii.eqb_spec c "/") as [-> |]; [done | done].
Qed.

Ltac contains_norm :=
  repeat first
    [ rewrite contains_append
    | progress cbn [Py.contains Ascii.eqb Bool.eqb orb] ].

Lemma version_starts_append (a s : string) :
  version_starts s = true -> version_starts (a +:+ s) = true.
Proof.
  intros Hs. induction a as [| c a IH]; [done |].
  rewrite append_cons. cbn [version_starts]. by rewrite IH, orb_true_r.
Qed.

(** The version patterns match at no position of a text that holds no
    slash, ['v'] and digit in a row, when a slash follows the text. *)
Lemma version_core_unmatched (r : Re.regex) (pre a b t : string)
    (bos : bool) :
  version_starts pre = false -> pre = a +:+ b -> b <> "" ->
  Re.match_at (version_core r) bos (b +:+ String "/" t) = None.
Proof.
  intros Hpre -> Hb.
  destruct (Re.match_at (version_core r) bos (b +:+ String "/" t))
    as [m |] eqn:Hm; [| done].
  apply match_at_inv in Hm as (st & Hst & _).
  apply version_core_inv in Hst as (d1 & d2 & tail & Hd1 & _ & Heq & _).
  apply is_digits_cons in Hd1 as (c1 & d1' & -> & Hc1 & _).
  revert Heq. push_append.
  destruct b as [| x b]; [done |]. push_append. intros [= -> Heq].
  destruct b as [| y b]; [by revert Heq; push_append |].
  revert Heq. push_append. intros [= -> Heq].
  destruct b as [| z b].
  - revert Heq. push_append. intros [= <-]. done.
  - revert Heq. push_append. intros [= -> _].
    rewrite version_starts_append in Hpre; [done |].
    cbn [version_starts Ascii.eqb Bool.eqb andb]. by rewrite Hc1.
Qed.

(** The version patterns start with a slash: they match nowhere in a text
    without one. *)
Lemma findall_from_no_slash (r : Re.regex) (s : string) (bos : bool)
    (skip : nat) :
  Py.contains "/" s = false ->
  Re.findall_from (version_core r) bos s skip = [].
Proof.
  revert bos skip. induction s as [| c s IH]; intros bos skip Hs.
  - by destruct skip.
  - simpl in Hs. apply orb_false_elim in Hs as [Hc Hs].
    destruct skip as [| skip]; [| by apply IH].
    rewrite findall_from_O.
    assert (Hnone : Re.match_at (version_core r) bos (String c s) = None).
    { unfold Re.match_at, version_core, Re.Lit.
      cbn [Re.rmatch Re.input Re.group1].
      by rewrite Ascii.eqb_sym, Hc. }
    rewrite Hnone. by apply IH.
Qed.

(** The first match of [[0-9]+\.[0-9]] in the text of a version segment. *)
Lemma first_version_digits (d1 tail : string) (c : ascii) :
  is_digits d1 = true -> Py.isdigit c = true ->
  Py.first_item
    (Re.findall version_digits_re
       ("/v" +:+ d1 +:+ "." +:+ String c tail))
  = Ok (d1 +:+ "." +:+ String c "").
Proof.
  intros Hd1 Hc. unfold Re.findall. push_append.
  rewrite findall_from_O.
  change (Re.match_at version_digits_re true
            (String "/" (String "v" (d1 +:+ String "." (String c tail)))))
    with (@None Re.rmatched). cbv iota.
  rewrite findall_from_O.
  change (Re.match_at version_digits_re false
            (String "v" (d1 +:+ String "." (String c tail))))
    with (@None Re.rmatched). cbv iota.
  destruct (match_at_version_digits false d1 tail c Hd1 Hc) as (m & Hm & Hg).
  revert Hm. push_append. intros Hm.
  rewrite findall_from_O, Hm. cbn [Py.first_item]. by rewrite Hg.
Qed.

(** X12. On an href with a version segment [/v<major>.<minor>], followed by
    a slash or ending the href, and with no slash, ['v'] and digit in a row
    before it, [get_version_from_href] returns the major part, a dot and
    the first digit of the minor part, whatever the other digits of the
    minor part are. *)
Theorem get_version_from_href_first_minor_digit (pre d1 d2 rest : string)
    (c : ascii) :
  version_starts pre = false ->
  is_digits d1 = true -> Py.isdigit c = true ->
  Py.all_chars Py.isdigit d2 = true ->
  (rest = "" \/ exists t, rest = "/" +:+ t) ->
  get_version_from_href
    (pre +:+ "/v" +:+ d1 +:+ "." +:+ String c d2 +:+ rest)
  = Ok (d1 +:+ "." +:+ String c "").
Proof.
  intros Hpre Hd1 Hc Hd2 Hrest.
  assert (Hminor : is_digits (String c d2) = true).
  { unfold is_digits. simpl. by rewrite Hc, Hd2. }
  pose proof (digits_no_slash _ (is_digits_all _ Hminor)) as Hslash.
  simpl in Hslash. apply orb_false_elim in Hslash as [Hslash Hd2'].
  assert (Hskip : forall r tail,
    exists bos,
      Re.findall (version_core r)
        (pre +:+ "/v" +:+ d1 +:+ "." +:+ String c d2 +:+ tail)
      = Re.findall_from (version_core r) bos
          ("/v" +:+ d1 +:+ "." +:+ String c d2 +:+ tail) 0).
  { intros r tail. apply findall_from_unmatched. intros bos a b Ha Hb.
    push_append. by apply (version_core_unmatched _ pre a). }
  unfold get_version_from_href. cbv zeta.
  change version_inside_re with (version_core (Re.Lit "/")).
  change version_at_end_re with (version_core Re.Eol).
  destruct Hrest as [-> | [t ->]].
  - (* the version ends the href *)
    destruct (Hskip (Re.Lit "/") "") as [bos ->].
    destruct (Hskip Re.Eol "") as [bos' ->].
    assert (Hinside :
      Re.findall_from (version_core (Re.Lit "/")) bos
        ("/v" +:+ d1 +:+ "." +:+ String c d2 +:+ "") 0 = []).
    { rewrite findall_from_O.
      destruct (Re.match_at (version_core (Re.Lit "/")) bos
                  ("/v" +:+ d1 +:+ "." +:+ String c d2 +:+ ""))
        as [m |] eqn:Hm.
      - apply match_at_inv in Hm as (st & Hst & _).
        apply version_core_inv in Hst
          as (e1 & e2 & tail & He1 & He2 & Heq & Hst).
        unfold Re.Lit in Hst. cbn [Re.rmatch Re.input] in Hst.
        destruct tail as [| x tail]; [done |].
        destruct (Ascii.eqb_spec "/" x) as [<- | _]; [| done].
        apply (f_equal (fun s => match s with
                                 | String _ s' => Py.contains "/" s'
                                 | EmptyString => false
                                 end)) in Heq.
        revert Heq. push_append. rewrite append_nil_r. contains_norm.
        rewrite (digits_no_slash d1 (is_digits_all _ Hd1)), Hslash, Hd2'.
        rewrite (digits_no_slash e1 (is_digits_all _ He1)).
        rewrite (digits_no_slash e2 (is_digits_all _ He2)). done.
      - push_append. apply findall_from_no_slash.
        rewrite append_nil_r. contains_norm.
        by rewrite (digits_no_slash d1 (is_digits_all _ Hd1)), Hslash, Hd2'. }
    rewrite Hinside.
    assert (Hend :
      exists others,
        Re.findall_from (version_core Re.Eol) bos'
          ("/v" +:+ d1 +:+ "." +:+ String c d2 +:+ "") 0
        = ("/v" +:+ d1 +:+ "." +:+ String c d2 +:+ "") :: others).
    { rewrite findall_from_O. unfold Re.match_at.
      rewrite (version_core_match Re.Eol bos' "" d1 (String c d2) "" Some
                 (Re.mkState false "" "") Hd1 Hminor I eq_refl).
      cbn [Re.group0 Re.input]. eexists. f_equal.
      rewrite <- (append_nil_r
                    ("/v" +:+ d1 +:+ "." +:+ String c d2 +:+ "")) at 1.
      apply consumed_append. }
    destruct Hend as [others ->].
    cbn [Py.first_item mbind result_bind].
    change (String c d2 +:+ "") with (String c (d2 +:+ "")).
    by rewrite (first_version_digits d1 (d2 +:+ "") c Hd1 Hc).
  - (* a slash follows the version *)
    destruct (Hskip (Re.Lit "/") ("/" +:+ t)) as [bos ->].
    assert (Hinside :
      exists others,
        Re.findall_from (version_core (Re.Lit "/")) bos
          ("/v" +:+ d1 +:+ "." +:+ String c d2 +:+ "/" +:+ t) 0
        = ("/v" +:+ d1 +:+ "." +:+ String c d2 +:+ "/") :: others).
    { rewrite findall_from_O. unfold Re.match_at.
      rewrite (version_core_match (Re.Lit "/") bos "" d1 (String c d2)
                 ("/" +:+ t) Some (Re.mkState false t "") Hd1 Hminor
                 eq_refl eq_refl).
      cbn [Re.group0 Re.input]. eexists. f_equal.
      replace ("/v" +:+ d1 +:+ "." +:+ String c d2 +:+ "/" +:+ t)
        with (("/v" +:+ d1 +:+ "." +:+ String c d2 +:+ "/") +:+ t)
        by (rewrite !append_assoc; push_append;
            by rewrite ?append_assoc).
      apply consumed_append. }
    destruct Hinside as [others ->].
    cbn [Py.first_item mbind result_bind].
    change (String c d2 +:+ "/") with (String c (d2 +:+ "/")).
    by rewrite (first_version_digits d1 (d2 +:+ "/") c Hd1 Hc).
Qed.

Lemma get_version_from_href_first_minor_digit_witness :
  get_version_from_href "http://www.nova.com/v12.345/servers" = Ok "12.3".
Proof.
  apply (get_version_from_href_first_minor_digit
           "http://www.nova.com" "12" "45" "/servers" "3");
    [reflexivity | reflexivity | reflexivity | reflexivity |].
  right. by exists "servers".
Defined.

(** [urlsplit] fails in one way only. *)
Lemma split_rest_cases (scheme url : string) :
  (exists parsed, Urlparse.split_rest scheme url = Ok parsed)
  \/ Urlparse.split_rest scheme url = Raise (ValueError "Invalid IPv6 URL").
Proof.
  unfold Urlparse.split_rest.
  set (located :=
         match url with
         | String "/" (String "/" _) =>
             let '(netloc, url0) := Urlparse._splitnetloc url in
             if (Py.contains "[" netloc && negb (Py.contains "]" netloc))
                || (Py.contains "]" netloc && negb (Py.contains "[" netloc))
             then Raise (ValueError "Invalid IPv6 URL")
             else Ok (netloc, url0)
         | _ => Ok (EmptyString, url)
         end).
  assert (Hlocated : (exists p, located = Ok p)
                     \/ located = Raise (ValueError "Invalid IPv6 URL")).
  { subst located. destruct url as [| a [| b url]].
    - left. by eexists.
    - destruct a as [[] [] [] [] [] [] [] []]; left; by eexists.
    - destruct a as [[] [] [] [] [] [] [] []]; try (left; by eexists).
      destruct b as [[] [] [] [] [] [] [] []]; try (left; by eexists).
      destruct (Urlparse._splitnetloc _) as [netloc url0].
      destruct ((Py.contains "[" netloc && negb (Py.contains "]" netloc))
                || (Py.contains "]" netloc && negb (Py.contains "[" netloc)));
        [by right | left; by eexists]. }
  destruct Hlocated as [[[netloc url0] ->] | ->]; [left | by right].
  cbn [mbind result_bind].
  destruct (if Py.contains "#" url0 then Urlparse.split_once "#" url0
            else (url0, "")) as [url1 fragment].
  destruct (if Py.contains "?" url1 then Urlparse.split_once "?" url1
            else (url1, "")) as [url2 query].
  by eexists.
Qed.

Lemma urlsplit_cases (url : string) :
  (exists parsed, Urlparse.urlsplit url = Ok parsed)
  \/ Urlparse.urlsplit url = Raise (ValueError "Invalid IPv6 URL").
Proof.
  unfold Urlparse.urlsplit.
  destruct (Py.break (Ascii.eqb ":") url) as [before rest].
  destruct before as [| a before]; [apply split_rest_cases |].
  destruct rest as [| b after]; [apply split_rest_cases |].
  case_decide; [apply split_rest_cases |].
  destruct (Py.all_chars Urlparse.scheme_char (String a before));
    [| apply split_rest_cases].
  destruct (negb (Py.nonempty after)
            || negb (Py.all_chars Py.isdigit after));
    apply split_rest_cases.
Qed.

(** X13. The href helpers fail only with [ValueError]: taking the last
    segment of the path never raises [IndexError], and no other exception
    leaves [get_id_from_href] or [remove_version_from_href]. *)
Theorem href_helpers_raise_ValueError (href : string) (e : exn) :
  get_id_from_href href = Raise e \/ remove_version_from_href href = Raise e ->
  exists msg, e = ValueError msg.
Proof.
  assert (Hvalue : is_ValueError e = true -> exists msg, e = ValueError msg)
    by (destruct e; try done; by eexists).
  intros [Hrun | Hrun]; apply Hvalue.
  - unfold get_id_from_href in Hrun.
    destruct (Py.int href) as [n | e0] eqn:Hint; [done |].
    cbn [try_except] in Hrun.
    rewrite (int_raises_ValueError _ _ Hint) in Hrun.
    destruct (urlsplit_cases href) as [[parsed Hsplit] | Hsplit];
      rewrite Hsplit in Hrun.
    + cbn [mbind result_bind] in Hrun.
      destruct (last_split (Urlparse.path parsed)) as (segment & Hlast & _).
      rewrite Hlast in Hrun. cbn [mbind result_bind] in Hrun.
      destruct (Py.int segment) as [n | e1] eqn:Hsegment; [done |].
      cbn [try_except] in Hrun.
      rewrite (int_raises_ValueError _ _ Hsegment) in Hrun.
      injection Hrun as <-. by apply (int_raises_ValueError segment).
    + cbn [mbind result_bind try_except is_ValueError] in Hrun.
      by injection Hrun as <-.
  - unfold remove_version_from_href in Hrun.
    destruct (urlsplit_cases href) as [[parsed Hsplit] | Hsplit];
      rewrite Hsplit in Hrun.
    + cbn [mbind result_bind] in Hrun. case_decide; [| done].
      by injection Hrun as <-.
    + by injection Hrun as <-.
Qed.

Lemma href_helpers_raise_ValueError_witness :
  exists msg,
    ValueError "href http://host/servers does not contain version"
    = ValueError msg.
Proof.
  apply (href_helpers_raise_ValueError "http://host/servers").
  right. reflexivity.
Defined.

(** ** Further properties of the metadata codec *)

(** X14. The container encoding of a mapping: when the name space, the keys
    and the values are made of 7-bit characters, it is the XML declaration
    followed by a [metadata] element with the name space and one [meta]
    element for each entry, where [&], [<], [>] and the double quote are
    written as references; when one of them holds another character,
    writing the document raises [UnicodeDecodeError].  Without a
    ['metadata'] entry the call raises [KeyError]. *)
Theorem meta_list_to_xml_string_text (xmlns : string)
    (metadata_dict : gmap string (gmap string string)) :
  _meta_list_to_xml_string xmlns metadata_dict
  = match metadata_dict !! "metadata" with
    | Some metadata =>
        if is_ascii_string xmlns
           && forallb is_ascii_entry (map_to_list metadata)
        then Ok (Minidom.xml_declaration "UTF-8"
                 +:+ metadata_xml xmlns (map_to_list metadata))
        else Raise UnicodeDecodeError
    | None => Raise (KeyError "metadata")
    end.
Proof.
  destruct (metadata_dict !! "metadata") as [metadata |] eqn:Hmetadata.
  - rewrite <- metadata_xml_is_ascii, <- writexml_metadata_xml.
    unfold is_ascii_string. rewrite <- meta_list_to_xml_string_document.
    unfold _meta_list_to_xml_string, getitem.
    by rewrite Hmetadata, lookup_singleton_eq.
  - unfold _meta_list_to_xml_string, getitem. by rewrite Hmetadata.
Qed.

Section item.
Import Minidom.

(** The document that the encoder builds for a single item: the [meta]
    element is appended to the document twice, and stays its only child. *)
Lemma meta_item_document (xmlns : string) (entry : string * string) :
  (do xml_doc <- Document;
   do entry <- dom_ret entry;
   do item_node <- _meta_item_to_xml xml_doc (fst entry) (snd entry);
   do _ <- appendChild xml_doc item_node;
   do _ <- _add_xmlns xmlns item_node;
   toxml xml_doc "UTF-8") []
  = (if Py.all_chars is_ascii
          (xml_declaration "UTF-8"
           +:+ writexml
                 (XDocument
                    [XElement "meta" [("key", fst entry); ("xmlns", xmlns)]
                       [XText (snd entry)]]))
     then Ok (xml_declaration "UTF-8"
              +:+ writexml
                    (XDocument
                       [XElement "meta"
                          [("key", fst entry); ("xmlns", xmlns)]
                          [XText (snd entry)]]),
              [mkNode DOCUMENT_NODE "#document" [] [1%nat] None "";
               mkNode ELEMENT_NODE "meta"
                 [("key", fst entry); ("xmlns", xmlns)]
                 [2%nat] (Some 0%nat) "";
               mkNode TEXT_NODE "#text" [] [] (Some 1%nat) (snd entry)])
     else Raise UnicodeDecodeError).
Proof. reflexivity. Qed.

Lemma writexml_meta_item (xmlns : string) (entry : string * string) :
  writexml
    (XDocument
       [XElement "meta" [("key", fst entry); ("xmlns", xmlns)]
          [XText (snd entry)]])
  = meta_item_xml xmlns entry.
Proof.
  unfold meta_item_xml.
  cbn [writexml List.map String.concat sorted_attrs foldr insert_sorted
       fst snd].
  change (String.leb "key" "xmlns") with true. cbv iota.
  cbn [List.map String.concat]. unfold write_attr. cbn [fst snd].
  rewrite !write_data_escape, !append_assoc. reflexivity.
Qed.

Lemma meta_item_xml_is_ascii (xmlns : string) (entry : string * string) :
  is_ascii_string (xml_declaration "UTF-8" +:+ meta_item_xml xmlns entry)
  = is_ascii_string xmlns && is_ascii_entry entry.
Proof.
  pose proof (escape_is_ascii xmlns) as Hns.
  pose proof (escape_is_ascii (fst entry)) as Hk.
  pose proof (escape_is_ascii (snd entry)) as Hv.
  unfold is_ascii_entry, is_ascii_string in *. unfold meta_item_xml.
  rewrite !all_chars_append, Hns, Hk, Hv. cbn.
  destruct (Py.all_chars is_ascii xmlns),
    (Py.all_chars is_ascii (fst entry)),
    (Py.all_chars is_ascii (snd entry)); reflexivity.
Qed.

Lemma meta_item_to_xml_string_entries (xmlns : string)
    (meta_item_dict : gmap string string) :
  MetadataXMLSerializer._meta_item_to_xml_string xmlns meta_item_dict
  = match map_to_list meta_item_dict with
    | entry :: _ =>
        if is_ascii_string xmlns && is_ascii_entry entry
        then Ok (xml_declaration "UTF-8" +:+ meta_item_xml xmlns entry)
        else Raise UnicodeDecodeError
    | [] => Raise IndexError
    end.
Proof.
  unfold MetadataXMLSerializer._meta_item_to_xml_string.
  destruct (map_to_list meta_item_dict) as [| entry rest]; [done |].
  rewrite meta_item_document, writexml_meta_item.
  rewrite <- meta_item_xml_is_ascii. unfold is_ascii_string.
  by destruct (Py.all_chars is_ascii _).
Qed.

Lemma parse_attributes_key_xmlns (fuel : nat) (key xmlns r : string) :
  xml_key key -> namespace_name xmlns ->
  parse_attributes (S (S (S fuel)))
    (" " +:+ ("key=" +:+ quot +:+ escape key +:+ quot
              +:+ " xmlns=" +:+ quot +:+ escape xmlns +:+ quot)
     +:+ ">" +:+ r) []
  = Ok ([("key", key); ("xmlns", xmlns)], ">" +:+ r).
Proof.
  intros Hkey [Hxmlns Hok].
  replace (" " +:+ ("key=" +:+ quot +:+ escape key +:+ quot
                    +:+ " xmlns=" +:+ quot +:+ escape xmlns +:+ quot)
           +:+ ">" +:+ r)
    with (" " +:+ "key" +:+ "=" +:+ quot +:+ escape key +:+ quot
          +:+ (" " +:+ "xmlns" +:+ "=" +:+ quot +:+ escape xmlns +:+ quot
               +:+ ">" +:+ r))
    by (by rewrite !append_assoc).
  rewrite (parse_attributes_next _ "key" key)
    by (done || apply not_elem_of_nil).
  rewrite (parse_attributes_next _ "xmlns" xmlns); try done.
  cbn. by intros [[=] | []%elem_of_nil]%elem_of_cons.
Qed.

(** The document of a single item, read back. *)
Lemma parse_meta_item_xml_document (xmlns : string)
    (entry : string * string) :
  namespace_name xmlns -> xml_entry entry ->
  parseString (xml_declaration "UTF-8" +:+ meta_item_xml xmlns entry)
  = Ok (PDocument
          [parsed_element [("key", fst entry); ("xmlns", xmlns)]
             (snd entry)]).
Proof.
  intros Hns [Hkey Hvalue].
  apply parse_document_element; [done | | done |].
  - unfold xml_value, meta_item_xml. rewrite !all_chars_append.
    pose proof (escape_value _ (xml_key_value _ (proj1 Hns))) as Hns'.
    pose proof (escape_value _ (xml_key_value _ Hkey)) as Hkey'.
    pose proof (escape_value _ Hvalue) as Hvalue'.
    unfold xml_value in Hns', Hkey', Hvalue'.
    by rewrite Hns', Hkey', Hvalue'.
  - assert (Hlen : (4 <= String.length (meta_item_xml xmlns entry))%nat).
    { unfold meta_item_xml. rewrite !length_append. simpl. lia. }
    destruct (String.length (meta_item_xml xmlns entry))
      as [| [| [| fuel]]] eqn:Hfuel; [lia | lia | lia |].
    replace (meta_item_xml xmlns entry)
      with ("<meta " +:+ ("key=" +:+ quot +:+ escape (fst entry) +:+ quot
                          +:+ " xmlns=" +:+ quot +:+ escape xmlns +:+ quot)
            +:+ ">" +:+ escape (snd entry) +:+ "</meta>" +:+ "")
      by (unfold meta_item_xml; by rewrite !append_assoc).
    apply (parse_meta_element (S fuel)); [| done | done].
    intros r. by apply parse_attributes_key_xmlns.
Qed.

End item.

(** X16. The encoding of a single item, by [show] and by [update]: for an
    item with one entry, made with the name space of 7-bit characters, it is
    the XML declaration followed by one [meta] element that carries the
    key, the name space and the value, with [&], [<], [>] and the double
    quote written as references; appending the element to the document a
    second time does not fail; with another character, writing the document
    raises [UnicodeDecodeError].  An item with several entries is encoded
    as one of them, and an empty item raises [IndexError]. *)
Theorem meta_item_to_xml_string_text (xmlns : string)
    (meta_item_dict : gmap string (gmap string string))
    (item : gmap string string) :
  meta_item_dict !! "meta" = Some item ->
  MetadataXMLSerializer.update xmlns meta_item_dict
  = MetadataXMLSerializer.show xmlns meta_item_dict
  /\ (item = ∅ ->
      MetadataXMLSerializer.show xmlns meta_item_dict = Raise IndexError)
  /\ (forall key value,
        item = {[ key := value ]} ->
        MetadataXMLSerializer.show xmlns meta_item_dict
        = if is_ascii_string xmlns && is_ascii_entry (key, value)
          then Ok (Minidom.xml_declaration "UTF-8"
                   +:+ meta_item_xml xmlns (key, value))
          else Raise UnicodeDecodeError)
  /\ (item <> ∅ ->
      exists key value,
        item !! key = Some value
        /\ MetadataXMLSerializer.show xmlns meta_item_dict
           = if is_ascii_string xmlns && is_ascii_entry (key, value)
             then Ok (Minidom.xml_declaration "UTF-8"
                      +:+ meta_item_xml xmlns (key, value))
             else Raise UnicodeDecodeError).
Proof.
  intros Hitem. split; [done |].
  unfold MetadataXMLSerializer.show, getitem. rewrite Hitem.
  cbn [mbind result_bind]. rewrite meta_item_to_xml_string_entries.
  split; [| split].
  - intros ->. by rewrite map_to_list_empty.
  - intros key value ->. by rewrite map_to_list_singleton.
  - intros Hnonempty.
    destruct (map_to_list item) as [| [key value] rest] eqn:Hentries.
    + by apply map_to_list_empty_iff in Hentries.
    + exists key, value. split; [| done].
      apply elem_of_map_to_list. rewrite Hentries. by left.
Qed.

Lemma meta_item_to_xml_string_text_witness :
  MetadataXMLSerializer.show XML_NS_V11 {[ "meta" := {[ "a" := "1 < 2" ]} ]}
  = Ok (Minidom.xml_declaration "UTF-8"
        +:+ meta_item_xml XML_NS_V11 ("a", "1 < 2")).
Proof.
  destruct (meta_item_to_xml_string_text XML_NS_V11
              {[ "meta" := {[ "a" := "1 < 2" ]} ]} {[ "a" := "1 < 2" ]})
    as (_ & _ & Hone & _); [reflexivity |].
  exact (Hone "a" "1 < 2" eq_refl).
Defined.

(** X17. The round trip of a single item: when the key is made of 7-bit
    characters from the space on, the value of such characters, tabs and
    line feeds, and the parser accepts the name space, the deserializer's
    [update] applied to what the serializer's [show] wrote for the item
    gives the item back, for every [extract_text] that gives the text of an
    element whose content is one text or nothing. *)
Theorem meta_item_round_trip (extract_text : Minidom.pnode -> string)
    (xmlns key value : string) :
  reads_text extract_text ->
  namespace_name xmlns -> xml_key key -> xml_value value ->
  (document ← MetadataXMLSerializer.show xmlns
                 {[ "meta" := {[ key := value ]} ]};
   MetadataXMLDeserializer.update Minidom.parseString extract_text document)
  = Ok {[ "body" := {[ "meta" := {[ key := value ]} ]} ]}.
Proof.
  intros Hreads Hns Hkey Hvalue.
  unfold MetadataXMLSerializer.show, getitem.
  rewrite lookup_singleton_eq. cbn [mbind result_bind].
  rewrite meta_item_to_xml_string_entries, map_to_list_singleton.
  unfold is_ascii_entry. cbn [fst snd].
  rewrite (xml_value_is_ascii _ (xml_key_value _ (proj1 Hns))),
    (xml_value_is_ascii _ (xml_key_value _ Hkey)),
    (xml_value_is_ascii _ Hvalue).
  cbn [andb mbind result_bind]. unfold MetadataXMLDeserializer.update.
  rewrite (parse_meta_item_xml_document xmlns (key, value) Hns)
    by (by split).
  cbn [mbind result_bind fst snd].
  unfold extract_metadata, find_children_named.
  unfold parsed_element at 1.
  cbn [Minidom.childNodes List.filter Minidom.nodeName].
  rewrite bool_decide_eq_true_2 by done.
  cbn [extract_metadata_loop Minidom.getAttribute mbind result_bind].
  fold (parsed_element [("key", key); ("xmlns", xmlns)] value).
  by rewrite (extract_text_parsed_element _ _ _ Hreads).
Qed.

Lemma meta_item_round_trip_witness :
  (document ← MetadataXMLSerializer.show XML_NS_V11
                 {[ "meta" := {[ "a&b" := "1 < 2" ]} ]};
   MetadataXMLDeserializer.update Minidom.parseString text_content document)
  = Ok {[ "body" := {[ "meta" := {[ "a&b" := "1 < 2" ]} ]} ]}.
Proof.
  apply meta_item_round_trip;
    [apply text_content_reads_text | by split | reflexivity | reflexivity].
Defined.

(** Among nodes of which those named [meta] are elements, the nodes named
    [meta] are the elements named [meta]. *)
Lemma meta_among_elements (nodes : list Minidom.pnode) :
  Forall (fun node => Minidom.is_element node = true)
         (List.filter (fun node => bool_decide (Minidom.nodeName node = "meta"))
                      nodes) ->
  List.filter (fun node => bool_decide (Minidom.nodeName node = "meta")) nodes
  = List.filter (fun node => bool_decide (Minidom.nodeName node = "meta"))
      (filter (fun node => Minidom.is_element node = true) nodes).
Proof.
  induction nodes as [| node nodes IH]; [done |]. cbn [List.filter].
  destruct (bool_decide (Minidom.nodeName node = "meta")) eqn:Hname.
  - intros [Hnode Hnodes]%Forall_cons.
    rewrite filter_cons_True by done. cbn [List.filter].
    by rewrite Hname, <- (IH Hnodes).
  - intros Hnodes. rewrite filter_cons.
    destruct (decide (Minidom.is_element node = true)); [| by apply IH].
    cbn [List.filter]. rewrite Hname. by apply IH.
Qed.

(** X18. The deserializer's [update] reads the children of the document,
    whatever the parser and [extract_text] are.  When the children named
    [meta] are all elements, the item holds, under each key, the text of
    the last of them that carries this [key] attribute; a child named
    [meta] that is not an element (a document type or a processing
    instruction of that name) makes [update] raise [AttributeError].  So
    for a document with one element and no such child the item has the
    [key] attribute and the text of that element as its one entry when the
    element is named [meta], and is empty otherwise, as for a container
    document. *)
Theorem deserializer_update_document_element
    (parseString : string -> result Minidom.pnode)
    (extract_text : Minidom.pnode -> string)
    (datastring : string) (dom : Minidom.pnode) :
  parseString datastring = Ok dom ->
  (Forall (fun meta_node => Minidom.is_element meta_node = true)
          (find_children_named dom "meta") ->
   exists item : gmap string string,
     MetadataXMLDeserializer.update parseString extract_text datastring
     = Ok {[ "body" := {[ "meta" := item ]} ]}
     /\ forall key,
          item !! key
          = last (meta_values extract_text key (Minidom.childNodes dom)))
  /\ (Exists (fun meta_node => Minidom.is_element meta_node = false)
             (find_children_named dom "meta") ->
      MetadataXMLDeserializer.update parseString extract_text datastring
      = Raise (AttributeError "getAttribute"))
  /\ (forall tagName attrs children,
        filter (fun node => Minidom.is_element node = true)
               (Minidom.childNodes dom)
        = [Minidom.PElement tagName attrs children] ->
        Forall (fun meta_node => Minidom.is_element meta_node = true)
               (find_children_named dom "meta") ->
        MetadataXMLDeserializer.update parseString extract_text datastring
        = Ok {[ "body" :=
                  {[ "meta" :=
                       if decide (tagName = "meta")
                       then {[ default "" (Minidom.assoc "key" attrs)
                               := extract_text
                                    (Minidom.PElement tagName attrs
                                       children) ]}
                       else ∅ ]} ]}).
Proof.
  intros Hdom. unfold MetadataXMLDeserializer.update. rewrite Hdom.
  cbn [mbind result_bind].
  destruct (extract_metadata_node extract_text dom) as [Helements Hraises].
  split; [| split].
  - intros Hmeta. destruct (Helements Hmeta) as (item & -> & Hlookup).
    by exists item.
  - intros Hmeta. by rewrite (Hraises Hmeta).
  - intros tagName attrs children Hroot Hmeta.
    unfold extract_metadata, find_children_named in *.
    rewrite (meta_among_elements _ Hmeta), Hroot.
    cbn [List.filter Minidom.nodeName].
    case_decide as Hname.
    + by rewrite bool_decide_eq_true_2.
    + by rewrite bool_decide_eq_false_2.
Qed.

Lemma deserializer_update_document_element_witness :
  MetadataXMLDeserializer.update Minidom.parseString text_content
    "<meta key='a'>1</meta>"
  = Ok {[ "body" := {[ "meta" := {[ "a" := "1" ]} ]} ]}
  /\ MetadataXMLDeserializer.update Minidom.parseString text_content
       "<metadata><meta key='a'>1</meta></metadata>"
     = Ok {[ "body" := {[ "meta" := ∅ ]} ]}.
Proof.
  split.
  - destruct (deserializer_update_document_element Minidom.parseString
                text_content "<meta key='a'>1</meta>" _ eq_refl)
      as (_ & _ & Hroot).
    exact (Hroot "meta" [("key", "a")] [Minidom.PText "1"] eq_refl
             ltac:(by repeat constructor)).
  - destruct (deserializer_update_document_element Minidom.parseString
                text_content "<metadata><meta key='a'>1</meta></metadata>"
                _ eq_refl)
      as (_ & _ & Hroot).
    exact (Hroot "metadata" []
             [Minidom.PElement "meta" [("key", "a")] [Minidom.PText "1"]]
             eq_refl ltac:(by repeat constructor)).
Defined.




(** ** Hrefs of the [http] scheme *)

Lemma break_none (p : ascii -> bool) (a : string) :
  Py.all_chars (fun c => negb (p c)) a = true -> Py.break p a = (a, "").
Proof.
  induction a as [| c a IH]; [done |]. simpl.
  intros [Hc Ha]%andb_prop. apply negb_true_iff in Hc.
  by rewrite Hc, (IH Ha).
Qed.

Lemma break_stop (p : ascii -> bool) (a rest : string) (d : ascii) :
  Py.all_chars (fun c => negb (p c)) a = true -> p d = true ->
  Py.break p (a +:+ String d rest) = (a, String d rest).
Proof.
  intros Ha Hd. induction a as [| c a IH].
  - rewrite append_nil_l. simpl. by rewrite Hd.
  - simpl in Ha. apply andb_prop in Ha as [Hc Ha].
    apply negb_true_iff in Hc. rewrite append_cons. simpl.
    by rewrite Hc, (IH Ha).
Qed.

Lemma query_suffix_no_hash (query : string) :
  Py.contains "#" query = false -> Py.contains "#" (query_suffix query) = false.
Proof. unfold query_suffix. by destruct query. Qed.

(** [urlsplit] on an [http] href without a fragment. *)
Lemma urlsplit_http (host path query : string) :
  Py.all_chars host_char host = true -> is_path path ->
  Py.contains "#" query = false ->
  Urlparse.urlsplit ("http://" +:+ host +:+ path +:+ query_suffix query)
  = Ok (Urlparse.mkSplitResult "http" host path query "").
Proof.
  intros Hhost [Hslash Hpath] Hquery. unfold Urlparse.urlsplit.
  change (Py.break (Ascii.eqb ":")
            ("http://" +:+ host +:+ path +:+ query_suffix query))
    with ("http", String ":" ("//" +:+ host +:+ path +:+ query_suffix query)).
  cbv beta iota. rewrite decide_True by done.
  change (Py.lower "http") with "http".
  unfold Urlparse.split_rest.
  change ("//" +:+ ?s) with (String "/" (String "/" s)).
  cbn [Urlparse._splitnetloc].
  assert (Hnetloc :
    Py.break (fun c => Ascii.eqb c "/" || Ascii.eqb c "?" || Ascii.eqb c "#")
      (host +:+ path +:+ query_suffix query)
    = (host, path +:+ query_suffix query)).
  { assert (Hstop : Py.all_chars
              (fun c => negb (Ascii.eqb c "/" || Ascii.eqb c "?"
                              || Ascii.eqb c "#")) host = true).
    { revert Hhost. apply all_chars_weaken. intros c. unfold host_char.
      destruct (Ascii.eqb c "/"), (Ascii.eqb c "?"), (Ascii.eqb c "#");
        done. }
    destruct Hslash as [-> | Hslash].
    - rewrite append_nil_l. unfold query_suffix.
      destruct query as [| q query].
      + rewrite append_nil_r. by apply break_none.
      + cbn [Py.nonempty]. push_append. by apply break_stop.
    - destruct path as [| a path]; [done |]. simpl in Hslash.
      destruct (Ascii.eqb_spec a "/") as [-> |];
        [| by destruct a as [[] [] [] [] [] [] [] []]].
      push_append. by apply break_stop. }
  rewrite Hnetloc.
  rewrite (all_chars_contains host_char "[" host eq_refl Hhost).
  rewrite (all_chars_contains host_char "]" host eq_refl Hhost).
  cbn [andb orb mbind result_bind].
  rewrite contains_append, (query_suffix_no_hash _ Hquery).
  rewrite (all_chars_contains path_char "#" path eq_refl Hpath).
  cbn [orb]. rewrite contains_append.
  rewrite (all_chars_contains path_char "?" path eq_refl Hpath).
  unfold query_suffix. destruct query as [| q query].
  - cbn [Py.nonempty Py.contains orb]. by rewrite append_nil_r.
  - cbn [Py.nonempty].
    change ("?" +:+ String q query) with (String "?" (String q query)).
    cbn [Py.contains Ascii.eqb Bool.eqb orb].
    unfold Urlparse.split_once.
    rewrite (break_at "?" path (String q query))
      by apply (all_chars_contains path_char "?" path eq_refl Hpath).
    reflexivity.
Qed.

Lemma int_http (rest : string) :
  exists e, Py.int (String "h" rest) = Raise e.
Proof.
  unfold Py.int, Py.strip.
  change (Py.lstrip (String "h" rest)) with (String "h" rest).
  cbn [Py.rstrip]. destruct (Py.rstrip rest); by eexists.
Qed.

Lemma split_no_slash (segment : string) :
  Py.contains "/" segment = false -> Py.split "/" segment = [segment].
Proof.
  induction segment as [| c segment IH]; [done |]. simpl.
  intros [Hc Hs]%orb_false_elim. by rewrite Hc, (IH Hs).
Qed.

(** The last item of a path split at its slashes. *)
Lemma last_item_split (dir segment : string) :
  Py.contains "/" segment = false ->
  Py.last_item (Py.split "/" (dir +:+ "/" +:+ segment)) = Ok segment.
Proof.
  intros Hsegment.
  assert (Hsplit : exists first others,
            Py.split "/" (dir +:+ "/" +:+ segment)
            = first :: (others ++ [segment])%list).
  { induction dir as [| c dir (first & others & IH)].
    - exists "", []. push_append. simpl. by rewrite split_no_slash.
    - rewrite append_cons. simpl. rewrite IH.
      destruct (Ascii.eqb c "/").
      + by exists "", (first :: others).
      + by exists (String c first), others. }
  destruct Hsplit as (first & others & ->).
  unfold Py.last_item.
  change (first :: (others ++ [segment]))%list
    with ((first :: others) ++ [segment])%list.
  by rewrite last_snoc.
Qed.

Lemma digit_path_char (c : ascii) :
  Py.isdigit c = true -> path_char c = true.
Proof.
  unfold path_char.
  destruct (Ascii.eqb_spec c "?") as [-> |]; [done |].
  by destruct (Ascii.eqb_spec c "#") as [-> |].
Qed.

(** X19. The id of an [http] href: when the path ends with a slash and a
    run of digits, [get_id_from_href] returns the integer that the digits
    denote, whatever the network location, the path before the last slash
    and the query string are. *)
Theorem get_id_from_href_http (host dir segment query : string) (n : Z) :
  Py.all_chars host_char host = true -> is_path dir ->
  is_digits segment = true -> Py.int segment = Ok n ->
  Py.contains "#" query = false ->
  get_id_from_href
    ("http://" +:+ host +:+ dir +:+ "/" +:+ segment +:+ query_suffix query)
  = Ok n.
Proof.
  intros Hhost [Hslash Hdir] Hdigits Hint Hquery.
  pose proof (is_digits_all _ Hdigits) as Hall.
  assert (Hpath : is_path (dir +:+ "/" +:+ segment)).
  { split.
    - right. destruct Hslash as [-> | Hslash]; [done |].
      by destruct dir.
    - rewrite !all_chars_append, Hdir. cbn [Py.all_chars andb].
      rewrite (all_chars_weaken _ _ _ digit_path_char Hall).
      reflexivity. }
  pose proof (urlsplit_http host _ query Hhost Hpath Hquery) as Hsplit.
  rewrite !append_assoc in Hsplit.
  change (("/" +:+ segment) +:+ query_suffix query)
    with ("/" +:+ segment +:+ query_suffix query) in Hsplit.
  unfold get_id_from_href.
  destruct (int_http
              ("ttp://" +:+ host +:+ dir +:+ "/" +:+ segment
               +:+ query_suffix query)) as [e He].
  change (String "h" ("ttp://" +:+ ?s)) with ("http://" +:+ s) in He.
  rewrite He. cbn [try_except]. rewrite (int_raises_ValueError _ _ He).
  rewrite Hsplit. cbn [mbind result_bind Urlparse.path].
  rewrite (last_item_split dir segment (digits_no_slash _ Hall)).
  cbn [mbind result_bind]. by rewrite Hint.
Qed.

Lemma get_id_from_href_http_witness :
  get_id_from_href "http://www.foo.com/bar/123?q=4" = Ok 123.
Proof.
  apply (get_id_from_href_http "www.foo.com" "/bar" "123" "q=4" 123);
    [reflexivity | | reflexivity | reflexivity | reflexivity].
  split; [by right | reflexivity].
Defined.

(** X20. Removing the version from an [http] href: the segment
    [/v<digits>.<digits>] that follows the network location is removed,
    and the rest of the path and the query string are kept as they are. *)
Theorem remove_version_from_href_http (host d1 d2 tail query : string) :
  Py.nonempty host = true -> Py.all_chars host_char host = true ->
  is_digits d1 = true -> is_digits d2 = true ->
  (tail = "" \/ exists t, tail = "/" +:+ t /\ Py.all_chars path_char t = true) ->
  Py.contains "#" query = false ->
  remove_version_from_href
    ("http://" +:+ host +:+ "/v" +:+ d1 +:+ "." +:+ d2 +:+ tail
     +:+ query_suffix query)
  = Ok ("http://" +:+ host +:+ tail +:+ query_suffix query).
Proof.
  intros Hnonempty Hhost Hd1 Hd2 Htail Hquery.
  assert (Htail_chars : Py.all_chars path_char tail = true).
  { destruct Htail as [-> | (t & -> & Ht)]; [done |]. push_append.
    simpl. by rewrite Ht. }
  assert (Hpath : is_path ("/v" +:+ d1 +:+ "." +:+ d2 +:+ tail)).
  { split; [by right |]. push_append. cbn [Py.all_chars].
    rewrite all_chars_append. cbn [Py.all_chars]. rewrite all_chars_append.
    rewrite (all_chars_weaken _ _ _ digit_path_char (is_digits_all _ Hd1)).
    rewrite (all_chars_weaken _ _ _ digit_path_char (is_digits_all _ Hd2)).
    by rewrite Htail_chars. }
  assert (Hlead : leading_version ("/v" +:+ d1 +:+ "." +:+ d2 +:+ tail) tail).
  { split; [by exists d1, d2 |].
    destruct Htail as [-> | (t & -> & _)]; [by left |].
    right. right. by exists t. }
  pose proof (urlsplit_http host _ query Hhost Hpath Hquery) as Hsplit.
  rewrite !append_assoc in Hsplit.
  unfold remove_version_from_href.
  rewrite Hsplit. cbn [mbind result_bind Urlparse.path Urlparse.scheme
                       Urlparse.netloc Urlparse.query Urlparse.fragment].
  rewrite (sub_version_prefix _ _ Hlead).
  rewrite decide_False by (apply version_then_shorter, Hlead).
  f_equal. unfold Urlparse.urlunsplit.
  cbn [Urlparse.path Urlparse.scheme Urlparse.netloc Urlparse.query
       Urlparse.fragment Py.nonempty].
  rewrite Hnonempty. cbn [orb].
  assert (Hkeep : (if Py.nonempty tail && negb (Urlparse.starts_with_slash tail)
                   then "/" +:+ tail else tail) = tail).
  { by destruct Htail as [-> | (t & -> & _)]. }
  rewrite Hkeep. unfold query_suffix.
  destruct (Py.nonempty query); rewrite ?append_nil_r, ?append_assoc;
    reflexivity.
Qed.

Lemma remove_version_from_href_http_witness :
  remove_version_from_href "http://www.nova.com/v1.1/servers/123?limit=2"
  = Ok "http://www.nova.com/servers/123?limit=2".
Proof.
  apply (remove_version_from_href_http "www.nova.com" "1" "1"
           "/servers/123" "limit=2");
    [reflexivity | reflexivity | reflexivity | reflexivity | | reflexivity].
  right. by exists "servers/123".
Defined.
